(** * Bus ticket booking system: booking store and session query router

    A shallow embedding of [backend/database.py] (the SQLite booking store)
    and of the request handlers of [backend/main.py] (booking endpoints and
    the [/query/smart] cancellation dialogue), followed by the properties of
    the specification that are settled against them.

    Conventions of the embedding:
    - a Python [str] is a [string] holding its UTF-8 bytes; [strip] removes
      the whitespace code points of Python by their encodings; [str.lower]
      is an argument [lower] where names are compared, and [Py.lower], its
      restriction to A-Z, where the query is searched for the words cancel
      and cancellation (a text that holds the second holds the first, and
      A-Z are the only code points that lower to a letter of cancel, so
      the search finds the same);
    - a table is the list of its rows in insertion order; every function of
      [database.py] opens a connection, runs its statements and commits, so
      it is a function from the store to a result and a new store;
    - the module-level [sessions] dict is a [gmap] from session id to the
      session dict, a record of its four keys;
    - what the environment supplies ([uuid.uuid4()], [datetime.now()],
      SQLite's [CURRENT_TIMESTAMP] at each insert) is an explicit argument
      [Env];
    - [bus_data] (loaded from [data.json]) and the answer engine
      [get_answer], which may raise, are arguments as well. *)

From Stdlib Require Import ZArith Lia Ascii DecimalString DecimalNat.
From stdpp Require Import gmap strings list sorting.

(** ** Python string operations used by the handlers *)

Module Py.

(** [str.isspace] on the ASCII range: TAB, LF, VT, FF, CR, FS, GS, RS, US
    and the space. *)
Definition is_space (c : ascii) : bool :=
  match c with
  | "009" | "010" | "011" | "012" | "013"
  | "028" | "029" | "030" | "031" | " " => true
  | _ => false
  end%char.

Definition byte (c : ascii) : N := Ascii.N_of_ascii c.

(** The whitespace code points encoded in two bytes: U+0085 (C2 85) and
    U+00A0 (C2 A0). *)
Definition is_space2 (c1 c2 : ascii) : bool :=
  ((byte c1 =? 194) && ((byte c2 =? 133) || (byte c2 =? 160)))%N.

(** The whitespace code points encoded in three bytes: U+1680 (E1 9A 80),
    U+2000 to U+200A (E2 80 80 to E2 80 8A), U+2028, U+2029 and U+202F
    (E2 80 A8, A9, AF), U+205F (E2 81 9F) and U+3000 (E3 80 80). *)
Definition is_space3 (c1 c2 c3 : ascii) : bool :=
  (((byte c1 =? 225) && (byte c2 =? 154) && (byte c3 =? 128))
   || ((byte c1 =? 226) && (byte c2 =? 128)
       && (((128 <=? byte c3) && (byte c3 <=? 138))
           || (byte c3 =? 168) || (byte c3 =? 169) || (byte c3 =? 175)))
   || ((byte c1 =? 226) && (byte c2 =? 129) && (byte c3 =? 159))
   || ((byte c1 =? 227) && (byte c2 =? 128) && (byte c3 =? 128)))%N.

(** Removes the whitespace code points at the front of [s].  With
    [backwards], [s] is a reversed string, whose code points have their
    bytes in reverse order. *)
Fixpoint strip_front (backwards : bool) (s : string) : string :=
  match s with
  | "" => ""
  | String c1 s1 =>
      if is_space c1 then strip_front backwards s1
      else
        match s1 with
        | "" => s
        | String c2 s2 =>
            if (if backwards then is_space2 c2 c1 else is_space2 c1 c2)
            then strip_front backwards s2
            else
              match s2 with
              | "" => s
              | String c3 s3 =>
                  if (if backwards then is_space3 c3 c2 c1
                      else is_space3 c1 c2 c3)
                  then strip_front backwards s3
                  else s
              end
        end
  end.

Definition lstrip (s : string) : string := strip_front false s.

Definition rstrip (s : string) : string :=
  String.rev (strip_front true (String.rev s)).

(** [s.strip()] *)
Definition strip (s : string) : string := rstrip (lstrip s).

Definition lower_char (c : ascii) : ascii :=
  let n := Ascii.N_of_ascii c in
  if ((65 <=? n) && (n <=? 90))%N then Ascii.ascii_of_N (n + 32) else c.

(** [s.lower()] on the letters A-Z; every other byte is kept. *)
Fixpoint lower (s : string) : string :=
  match s with
  | "" => ""
  | String c s' => String (lower_char c) (lower s')
  end.

(** [s.startswith(p)] *)
Definition startswith (s p : string) : bool := String.prefix p s.

(** [s[n:]] *)
Fixpoint drop (n : nat) (s : string) : string :=
  match n, s with
  | O, _ => s
  | S _, "" => ""
  | S n', String _ s' => drop n' s'
  end.

(** [needle in hay] *)
Fixpoint contains (needle hay : string) : bool :=
  String.prefix needle hay ||
  match hay with
  | "" => false
  | String _ hay' => contains needle hay'
  end.

(** Truth value of an [Optional[str]]: [None] and the empty string are
    false. *)
Definition truthy (o : option string) : bool :=
  match o with
  | Some s => negb (String.eqb s "")
  | None => false
  end.

(** [a or b] for an [Optional[str]] [a] and a [str] [b]. *)
Definition or_str (a : option string) (b : string) : string :=
  match a with
  | Some s => if String.eqb s "" then b else s
  | None => b
  end.

Fixpoint zeros (n : nat) : string :=
  match n with
  | O => ""
  | S n' => String "0" (zeros n')
  end.

(** [f"{n:05d}"] for a natural number: decimal digits, padded with zeros
    on the left to at least five characters. *)
Definition format_05d (n : nat) : string :=
  let digits := NilZero.string_of_uint (Nat.to_uint n) in
  zeros (5 - String.length digits) +:+ digits.

(** The newline character of the message literals. *)
Definition nl : string := String "010" "".

End Py.

(** ** The booking store ([backend/database.py]) *)

(** A row of table [bookings].  [id] is the AUTOINCREMENT key,
    [created_at] the [CURRENT_TIMESTAMP] default, kept as a number of
    seconds (SQLite stores its text form, which orders the same way). *)
Record Booking := {
  id : Z;
  booking_id : string;
  name : string;
  phone : string;
  bus_provider : string;
  from_district : string;
  to_district : string;
  dropping_point : string;
  travel_date : string;
  num_passengers : Z;
  fare : Z;
  total_amount : Z;
  booking_date : string;
  status : string;
  cancelled_date : option string;
  created_at : Z
}.

(** The dict [create_booking] receives (and the [BookingResponse] model). *)
Module BookingData.
Record t := {
  booking_id : string;
  name : string;
  phone : string;
  bus_provider : string;
  from_district : string;
  to_district : string;
  dropping_point : string;
  travel_date : string;
  num_passengers : Z;
  fare : Z;
  total_amount : Z;
  booking_date : string;
  status : string
}.
End BookingData.

(** A row of table [chat_history]. *)
Record ChatRow := {
  chat_session_id : string;
  chat_phone : option string;
  chat_role : string;
  chat_message : string;
  chat_timestamp : Z
}.

(** A row of table [deleted_bookings]; [booking_data] holds the deleted row
    itself where the code stores its JSON dump. *)
Record DeletedRow := {
  deleted_booking_id : string;
  booking_data : Booking;
  deleted_date : Z;
  deleted_by_phone : string
}.

(** The database file: its three tables and the AUTOINCREMENT counter of
    [bookings]. *)
Record Store := {
  bookings : list Booking;
  bookings_seq : Z;
  chat_history : list ChatRow;
  deleted_bookings : list DeletedRow
}.

(** [init_database] on a new file. *)
Definition init_database : Store :=
  {| bookings := []; bookings_seq := 0; chat_history := [];
     deleted_bookings := [] |}.

(** What the environment supplies during one request. *)
Record Env := {
  uuid4 : string;            (* str(uuid.uuid4()) *)
  now_isoformat : string;    (* datetime.now().isoformat() *)
  current_timestamp : Z;     (* CURRENT_TIMESTAMP at the first insert *)
  reply_timestamp : Z        (* CURRENT_TIMESTAMP when the reply is logged *)
}.

(** The environment at the time the reply is logged. *)
Definition at_reply (env : Env) : Env :=
  {| uuid4 := uuid4 env; now_isoformat := now_isoformat env;
     current_timestamp := reply_timestamp env;
     reply_timestamp := reply_timestamp env |}.

Inductive exn :=
| HTTPException (status_code : Z) (detail : string)
| IntegrityError
| OtherException (type_name : string).

Inductive outcome (A : Type) :=
| Returned (a : A)
| Raised (e : exn).
Arguments Returned {A} a.
Arguments Raised {A} e.

Definition with_bookings (l : list Booking) (seq : Z) (db : Store) : Store :=
  {| bookings := l; bookings_seq := seq; chat_history := chat_history db;
     deleted_bookings := deleted_bookings db |}.

(** The row inserted by [create_booking]: status is the literal ['active'],
    [cancelled_date] is left NULL. *)
Definition new_row (env : Env) (rowid : Z) (d : BookingData.t) : Booking :=
  {| id := rowid;
     booking_id := BookingData.booking_id d;
     name := BookingData.name d;
     phone := BookingData.phone d;
     bus_provider := BookingData.bus_provider d;
     from_district := BookingData.from_district d;
     to_district := BookingData.to_district d;
     dropping_point := BookingData.dropping_point d;
     travel_date := BookingData.travel_date d;
     num_passengers := BookingData.num_passengers d;
     fare := BookingData.fare d;
     total_amount := BookingData.total_amount d;
     booking_date := BookingData.booking_date d;
     status := "active";
     cancelled_date := None;
     created_at := current_timestamp env |}.

Definition has_booking_id (bid : string) (b : Booking) : bool :=
  String.eqb (booking_id b) bid.

(** [create_booking]: the INSERT violates [booking_id TEXT UNIQUE] when a row
    with that identifier exists; sqlite3 then raises and nothing is
    written. *)
Definition create_booking (env : Env) (d : BookingData.t) (db : Store)
  : outcome BookingData.t * Store :=
  if existsb (has_booking_id (BookingData.booking_id d)) (bookings db)
  then (Raised IntegrityError, db)
  else
    let rowid := (bookings_seq db + 1)%Z in
    (Returned d, with_bookings (bookings db ++ [new_row env rowid d]) rowid db).

(** [ORDER BY key DESC]: a row goes before the first of the sorted rows
    after it in the table whose key is not greater, so rows with equal
    keys stay in table order. *)
Fixpoint insert_desc {A} (key : A → Z) (x : A) (l : list A) : list A :=
  match l with
  | [] => [x]
  | y :: l' =>
      if (key y <=? key x)%Z then x :: l else y :: insert_desc key x l'
  end.

Definition order_by_desc {A} (key : A → Z) (l : list A) : list A :=
  foldr (insert_desc key) [] l.

(** The order of [ORDER BY created_at DESC]. *)
Definition newer_first : relation Booking :=
  λ a b, (created_at b ≤ created_at a)%Z.


Definition get_all_bookings (db : Store) : list Booking :=
  order_by_desc created_at (bookings db).

Definition get_bookings_by_phone (ph : string) (db : Store) : list Booking :=
  order_by_desc created_at
    (List.filter (λ b, String.eqb (phone b) ph) (bookings db)).

Definition get_booking_by_id (bid : string) (db : Store) : option Booking :=
  List.find (has_booking_id bid) (bookings db).

Definition delete_booking_permanently (env : Env) (bid : string) (db : Store)
  : bool * Store :=
  match List.find (has_booking_id bid) (bookings db) with
  | None => (false, db)
  | Some booking =>
      (true,
       {| bookings := List.filter (λ b, negb (has_booking_id bid b)) (bookings db);
          bookings_seq := bookings_seq db;
          chat_history := chat_history db;
          deleted_bookings :=
            deleted_bookings db ++
              [{| deleted_booking_id := bid; booking_data := booking;
                  deleted_date := current_timestamp env;
                  deleted_by_phone := phone booking |}] |})
  end.

(** The UPDATE of [cancel_booking] on one row. *)
Definition cancel_matches (bid : string) (b : Booking) : bool :=
  String.eqb (booking_id b) bid && String.eqb (status b) "active".

Definition set_cancelled (now : string) (b : Booking) : Booking :=
  {| id := id b;
     booking_id := booking_id b;
     name := name b;
     phone := phone b;
     bus_provider := bus_provider b;
     from_district := from_district b;
     to_district := to_district b;
     dropping_point := dropping_point b;
     travel_date := travel_date b;
     num_passengers := num_passengers b;
     fare := fare b;
     total_amount := total_amount b;
     booking_date := booking_date b;
     status := "cancelled";
     cancelled_date := Some now;
     created_at := created_at b |}.

Definition cancel_row (now bid : string) (b : Booking) : Booking :=
  if cancel_matches bid b then set_cancelled now b else b.

(** [cancel_booking]: UPDATE ... WHERE booking_id = ? AND status = 'active';
    the result is [rows_affected > 0]. *)
Definition cancel_booking (env : Env) (bid : string) (db : Store)
  : bool * Store :=
  let rows_affected := length (List.filter (cancel_matches bid) (bookings db)) in
  (Nat.ltb 0 rows_affected,
   with_bookings (map (cancel_row (now_isoformat env) bid) (bookings db))
     (bookings_seq db) db).

(** [generate_booking_id]: SELECT COUNT( * ) FROM bookings, then
    [f"BK{count + 1:05d}"]. *)
Definition generate_booking_id (db : Store) : string :=
  let count := length (bookings db) in
  "BK" +:+ Py.format_05d (count + 1).

Definition save_chat_message (env : Env) (session_id role message : string)
    (ph : option string) (db : Store) : Store :=
  {| bookings := bookings db;
     bookings_seq := bookings_seq db;
     chat_history :=
       chat_history db ++
         [{| chat_session_id := session_id; chat_phone := ph;
             chat_role := role; chat_message := message;
             chat_timestamp := current_timestamp env |}];
     deleted_bookings := deleted_bookings db |}.

(** ** Route and fare data ([bus_data], read from [data.json]) *)

Record DroppingPoint := {
  dp_name : string;      (* dp["name"] *)
  price : Z
}.

Record District := {
  district_name : string;  (* dist["name"] *)
  dropping_points : list DroppingPoint
}.

Record Provider := {
  provider_name : string;  (* p["name"] *)
  coverage_districts : list string
}.

Record BusData := {
  districts : list District;
  bus_providers : list Provider
}.

Definition str_in (x : string) (l : list string) : bool :=
  existsb (String.eqb x) l.

Section Routes.
(** Python's [str.lower]. *)
Variable lower : string → string.
Variable bus_data : BusData.

Fixpoint get_fare_in (dps : list DroppingPoint) (dropping_point : string)
  : option Z :=
  match dps with
  | [] => None
  | dp :: dps' =>
      if String.eqb (lower (dp_name dp)) (lower dropping_point)
      then Some (price dp)
      else get_fare_in dps' dropping_point
  end.

Fixpoint get_fare_from (ds : list District) (district dropping_point : string)
  : Z :=
  match ds with
  | [] => 0
  | dist :: ds' =>
      if String.eqb (lower (district_name dist)) (lower district)
      then match get_fare_in (dropping_points dist) dropping_point with
           | Some p => p
           | None => get_fare_from ds' district dropping_point
           end
      else get_fare_from ds' district dropping_point
  end.

Definition get_fare (district dropping_point : string) : Z :=
  get_fare_from (districts bus_data) district dropping_point.

Fixpoint validate_route_from (ps : list Provider)
    (provider from_district to_district : string) : bool :=
  match ps with
  | [] => false
  | p :: ps' =>
      if String.eqb (lower (provider_name p)) (lower provider)
      then
        let coverage_lower := map lower (coverage_districts p) in
        str_in (lower from_district) coverage_lower
        && str_in (lower to_district) coverage_lower
      else validate_route_from ps' provider from_district to_district
  end.

Definition validate_route (provider from_district to_district : string)
  : bool :=
  validate_route_from (bus_providers bus_data)
    provider from_district to_district.
End Routes.

(** ** Request models of [backend/main.py] *)

Module BookingCreate.
Record t := {
  name : string;
  phone : string;
  bus_provider : string;
  from_district : string;
  to_district : string;
  dropping_point : string;
  travel_date : string;
  num_passengers : Z
}.

(** The [Field] constraints pydantic checks before the handler runs. *)
Definition valid (b : t) : bool :=
  (2 <=? String.length (name b)) && (String.length (name b) <=? 100)
  && (11 <=? String.length (phone b)) && (String.length (phone b) <=? 15)
  && (1 <=? num_passengers b)%Z && (num_passengers b <=? 10)%Z.
End BookingCreate.

Module QueryRequest.
Record t := {
  query : string;
  phone : option string;
  session_id : option string
}.
End QueryRequest.

(** ** Booking endpoints *)

Definition create_booking_endpoint (lower : string → string)
    (bus_data : BusData) (env : Env)
    (booking : BookingCreate.t) (db : Store)
  : outcome BookingData.t * Store :=
  let provider_exists :=
    existsb (λ p, String.eqb (lower (provider_name p))
                    (lower (BookingCreate.bus_provider booking)))
      (bus_providers bus_data) in
  if negb provider_exists then
    (Raised (HTTPException 400
       ("Bus provider '" +:+ BookingCreate.bus_provider booking
        +:+ "' not found")), db)
  else if negb (validate_route lower bus_data
                  (BookingCreate.bus_provider booking)
                  (BookingCreate.from_district booking)
                  (BookingCreate.to_district booking)) then
    (Raised (HTTPException 400
       (BookingCreate.bus_provider booking +:+ " does not operate between "
        +:+ BookingCreate.from_district booking +:+ " and "
        +:+ BookingCreate.to_district booking)), db)
  else
    let fare := get_fare lower bus_data (BookingCreate.to_district booking)
                  (BookingCreate.dropping_point booking) in
    if (fare =? 0)%Z then
      (Raised (HTTPException 400
         ("Dropping point '" +:+ BookingCreate.dropping_point booking
          +:+ "' not found in " +:+ BookingCreate.to_district booking)), db)
    else
      let new_booking_data :=
        {| BookingData.booking_id := generate_booking_id db;
           BookingData.name := BookingCreate.name booking;
           BookingData.phone := Py.strip (BookingCreate.phone booking);
           BookingData.bus_provider := BookingCreate.bus_provider booking;
           BookingData.from_district := BookingCreate.from_district booking;
           BookingData.to_district := BookingCreate.to_district booking;
           BookingData.dropping_point := BookingCreate.dropping_point booking;
           BookingData.travel_date := BookingCreate.travel_date booking;
           BookingData.num_passengers := BookingCreate.num_passengers booking;
           BookingData.fare := fare;
           BookingData.total_amount :=
             (fare * BookingCreate.num_passengers booking)%Z;
           BookingData.booking_date := now_isoformat env;
           BookingData.status := "active" |} in
      create_booking env new_booking_data db.

Definition delete_booking_endpoint (env : Env) (booking_id : string)
    (permanent : bool) (db : Store) : outcome string * Store :=
  if permanent then
    let '(success, db') := delete_booking_permanently env booking_id db in
    if success
    then (Returned ("Booking " +:+ booking_id +:+ " deleted permanently."), db')
    else (Raised (HTTPException 404 "Booking not found"), db')
  else
    let '(success, db') := cancel_booking env booking_id db in
    if success
    then (Returned ("Booking " +:+ booking_id +:+ " cancelled."), db')
    else (Raised (HTTPException 404 "Booking not found"), db').

(** ** Session storage and the smart query handler *)

Module Session.
Record t := {
  awaiting_booking_id : bool;
  awaiting_phone_for_cancel : bool;
  pending_bookings : list Booking;
  phone : option string
}.

(** The dict stored for a session id that is not yet in [sessions]. *)
Definition fresh : t :=
  {| awaiting_booking_id := false;
     awaiting_phone_for_cancel := false;
     pending_bookings := [];
     phone := None |}.
End Session.

(** The process state: the [sessions] dict and the database file. *)
Record World := {
  sessions : gmap string Session.t;
  db : Store
}.

Definition initial_world : World :=
  {| sessions := ∅; db := init_database |}.

Definition is_active (b : Booking) : bool := String.eqb (status b) "active".

(** The prefix test and slice done on a phone in both cancellation
    branches: [if phone.startswith("+88"): phone = phone[3:]]. *)
Definition strip_country_prefix (phone : string) : string :=
  if Py.startswith phone "+88" then Py.drop 3 phone else phone.

Definition msg_no_active (phone : string) : string :=
  "‚ÑπÔ∏è No active bookings found for phone number " +:+ phone.

Definition msg_cancelled (booking_id : string) : string :=
  "‚úÖ Booking " +:+ booking_id +:+ " has been cancelled successfully.".

Definition msg_not_found (booking_id : string) : string :=
  "‚ùå Booking ID " +:+ booking_id +:+ " not found. Please check again.".

Definition msg_ask_phone : string :=
  "üì± To cancel your booking, please provide your phone number.".

Definition msg_line (b : Booking) : string :=
  from_district b +:+ " ‚Üí " +:+ to_district b +:+ " on "
  +:+ travel_date b +:+ " (ID: " +:+ booking_id b +:+ ")" +:+ Py.nl.

(** The [for b in active_bookings: message += ...] loop. *)
Fixpoint msg_lines (message : string) (active_bookings : list Booking)
  : string :=
  match active_bookings with
  | [] => message
  | b :: rest => msg_lines (message +:+ msg_line b) rest
  end.

Definition msg_multiple (active_bookings : list Booking) : string :=
  msg_lines ("You have multiple active bookings:" +:+ Py.nl) active_bookings
  +:+ (Py.nl +:+ "Please provide the Booking ID you want to cancel.").

Module SessionUpdate.
Import Session.

(** [session["phone"] = p] *)
Definition set_phone (p : string) (s : t) : t :=
  {| awaiting_booking_id := awaiting_booking_id s;
     awaiting_phone_for_cancel := awaiting_phone_for_cancel s;
     pending_bookings := pending_bookings s;
     phone := Some p |}.

(** [session["awaiting_phone_for_cancel"] = v] *)
Definition set_awaiting_phone_for_cancel (v : bool) (s : t) : t :=
  {| awaiting_booking_id := awaiting_booking_id s;
     awaiting_phone_for_cancel := v;
     pending_bookings := pending_bookings s;
     phone := phone s |}.

(** [session["awaiting_booking_id"] = v] *)
Definition set_awaiting_booking_id (v : bool) (s : t) : t :=
  {| awaiting_booking_id := v;
     awaiting_phone_for_cancel := awaiting_phone_for_cancel s;
     pending_bookings := pending_bookings s;
     phone := phone s |}.

(** [session["pending_bookings"] = l] *)
Definition set_pending_bookings (l : list Booking) (s : t) : t :=
  {| awaiting_booking_id := awaiting_booking_id s;
     awaiting_phone_for_cancel := awaiting_phone_for_cancel s;
     pending_bookings := l;
     phone := phone s |}.
End SessionUpdate.

(** [any(k in query_lower for k in ["cancel", "cancellation"])] *)
Definition has_cancel_keyword (query_lower : string) : bool :=
  existsb (λ k, Py.contains k query_lower) ["cancel"; "cancellation"].

Section Router.
Import SessionUpdate.

(** The answer engine of [rag_pipeline.py]; it returns an answer or raises
    (the vector store or the language model fails). *)
Variable get_answer : string → outcome string.

(** The body of [query_smart] from [query_text = request.query.strip()]
    on, acting on the session dict of this request and on the database;
    it gives the message returned, or the exception raised, the session
    dict as mutated and the database. *)
Definition query_smart_session (env : Env) (request : QueryRequest.t)
    (session_id : string) (session : Session.t) (db : Store)
  : outcome string * Session.t * Store :=
  let query_text := Py.strip (QueryRequest.query request) in
  let query_lower := Py.lower query_text in
  let db := save_chat_message env session_id "user"
              (QueryRequest.query request) (QueryRequest.phone request) db in
  if Session.awaiting_phone_for_cancel session then
    let phone := strip_country_prefix query_text in
    let session := set_phone phone session in
    let session := set_awaiting_phone_for_cancel false session in
    let bookings := get_bookings_by_phone phone db in
    let active_bookings := List.filter is_active bookings in
    match active_bookings with
    | [] =>
        let message := msg_no_active phone in
        (Returned message, session,
         save_chat_message (at_reply env) session_id "assistant" message
           (Some phone) db)
    | booking_to_cancel :: _ =>
        if length active_bookings =? 1 then
          let db := (cancel_booking env (booking_id booking_to_cancel) db).2 in
          let message := msg_cancelled (booking_id booking_to_cancel) in
          (Returned message, session,
           save_chat_message (at_reply env) session_id "assistant" message
             (Some phone) db)
        else
          let session := set_awaiting_booking_id true session in
          let session := set_pending_bookings active_bookings session in
          let message := msg_multiple active_bookings in
          (Returned message, session,
           save_chat_message (at_reply env) session_id "assistant" message
             (Some phone) db)
    end
  else if Session.awaiting_booking_id session then
    let booking_id := query_text in
    match List.find (has_booking_id booking_id)
            (Session.pending_bookings session) with
    | Some booking =>
        let db := (cancel_booking env booking_id db).2 in
        let session := set_awaiting_booking_id false session in
        let session := set_pending_bookings [] session in
        let message := msg_cancelled booking_id in
        (Returned message, session,
         save_chat_message (at_reply env) session_id "assistant" message
           (Session.phone session) db)
    | None =>
        let message := msg_not_found booking_id in
        (Returned message, session,
         save_chat_message (at_reply env) session_id "assistant" message
           (Session.phone session) db)
    end
  else if has_cancel_keyword query_lower then
    let phone :=
      Py.strip (Py.or_str (QueryRequest.phone request)
                  (Py.or_str (Session.phone session) "")) in
    if String.eqb phone "" then
      let session := set_awaiting_phone_for_cancel true session in
      let message := msg_ask_phone in
      (Returned message, session,
       save_chat_message (at_reply env) session_id "assistant" message
         None db)
    else
      let phone := strip_country_prefix phone in
      let session := set_phone phone session in
      let bookings := get_bookings_by_phone phone db in
      let active_bookings := List.filter is_active bookings in
      match active_bookings with
      | [] =>
          let message := msg_no_active phone in
          (Returned message, session,
           save_chat_message (at_reply env) session_id "assistant" message
             (Some phone) db)
      | booking_to_cancel :: _ =>
          if length active_bookings =? 1 then
            let db := (cancel_booking env (booking_id booking_to_cancel) db).2 in
            let message := msg_cancelled (booking_id booking_to_cancel) in
            (Returned message, session,
             save_chat_message (at_reply env) session_id "assistant" message
               (Some phone) db)
          else
            let session := set_awaiting_booking_id true session in
            let session := set_pending_bookings active_bookings session in
            let message := msg_multiple active_bookings in
            (Returned message, session,
             save_chat_message (at_reply env) session_id "assistant" message
               (Some phone) db)
      end
  else
    match get_answer (QueryRequest.query request) with
    | Returned answer =>
        (Returned answer, session,
         save_chat_message (at_reply env) session_id "assistant" answer
           (Session.phone session) db)
    | Raised e => (Raised e, session, db)
    end.

(** The session dict [query_smart] works on: the stored one, or the dict
    it first stores for a new id. *)
Definition session_of (session_id : string) (w : World) : Session.t :=
  default Session.fresh (sessions w !! session_id).

(** The reply [{"message": ..., "session_id": ...}], or the exception. *)
Definition reply_of (session_id : string) (result : outcome string)
  : outcome (string * string) :=
  match result with
  | Returned message => Returned (message, session_id)
  | Raised e => Raised e
  end.

(** [query_smart]: the reply, or the exception that passes through, and the
    process state after the request.  The session dict is mutated in
    place, so [sessions] maps the id to the dict as the body left it. *)
Definition query_smart (env : Env) (request : QueryRequest.t) (w : World)
  : outcome (string * string) * World :=
  let session_id := Py.or_str (QueryRequest.session_id request) (uuid4 env) in
  let session := session_of session_id w in
  let '(result, session, db) :=
    query_smart_session env request session_id session (db w) in
  (reply_of session_id result,
   {| sessions := <[session_id := session]> (sessions w); db := db |}).

(** ** Runs of the service *)

(** Python's [str.lower], used by the booking endpoint. *)
Variable lower : string → string.
Variable bus_data : BusData.

(** One request served: a smart query, a booking creation, or a
    cancellation or permanent deletion.  The creation step takes any body,
    also one pydantic would refuse, so the reachable states include all
    those of the service. *)
Inductive step : World → World → Prop :=
| step_query env request w :
    step w (query_smart env request w).2
| step_create env booking w :
    step w {| sessions := sessions w;
              db := (create_booking_endpoint lower bus_data env booking
                       (db w)).2 |}
| step_delete env booking_id permanent w :
    step w {| sessions := sessions w;
              db := (delete_booking_endpoint env booking_id permanent (db w)).2 |}.

Definition reachable (w : World) : Prop := rtc step initial_world w.

End Router.

(** ** Sample data used to run the handlers *)

Module Sample.

Definition bus_data : BusData :=
  {| districts :=
       [ {| district_name := "Dhaka";
            dropping_points := [ {| dp_name := "Gabtoli"; price := 500 |} ] |} ];
     bus_providers :=
       [ {| provider_name := "Hanif";
            coverage_districts := ["Dhaka"; "Khulna"] |} ] |}.

Definition env : Env :=
  {| uuid4 := "7c9e6679-7425-40de-944b-e07fc1f90ae7";
     now_isoformat := "2025-01-01T10:00:00";
     current_timestamp := 1735725600;
     reply_timestamp := 1735725601 |}.

(** [str.lower] on the sample's names, which are ASCII. *)
Definition lower : string → string := Py.lower.

Definition get_answer (query : string) : outcome string :=
  Returned "Please ask about a route.".

(** An answer engine whose language model cannot be reached. *)
Definition engine_down (query : string) : outcome string :=
  Raised (OtherException "ConnectionError").

(** A POST /bookings body for a Khulna to Dhaka trip on [date]. *)
Definition trip (date : string) : BookingCreate.t :=
  {| BookingCreate.name := "Rahim";
     BookingCreate.phone := "01711000000";
     BookingCreate.bus_provider := "hanif";
     BookingCreate.from_district := "Khulna";
     BookingCreate.to_district := "Dhaka";
     BookingCreate.dropping_point := "gabtoli";
     BookingCreate.travel_date := date;
     BookingCreate.num_passengers := 2 |}.

Definition post_booking (b : BookingCreate.t) (w : World) : World :=
  {| sessions := sessions w;
     db := (create_booking_endpoint lower bus_data env b (db w)).2 |}.

Definition delete_booking (booking_id : string) (permanent : bool)
    (w : World) : World :=
  {| sessions := sessions w;
     db := (delete_booking_endpoint env booking_id permanent (db w)).2 |}.

Definition request (session_id query : string) : QueryRequest.t :=
  {| QueryRequest.query := query;
     QueryRequest.phone := None;
     QueryRequest.session_id := Some session_id |}.

Definition ask (session_id query : string) (w : World)
  : outcome (string * string) * World :=
  query_smart get_answer env (request session_id query) w.

(** Two bookings made one after the other. *)
Definition two_bookings : World :=
  post_booking (trip "2025-02-02")
    (post_booking (trip "2025-02-01") initial_world).

(** Then the first one is deleted permanently. *)
Definition after_delete : World :=
  delete_booking "BK00001" true two_bookings.

(** Two bookings, the first with the text BK00001 as its travel date. *)
Definition odd_date : World :=
  post_booking (trip "2025-02-02")
    (post_booking (trip "BK00001") initial_world).

(** Session S1 asks to cancel without a phone, then gives the phone. *)
Definition asked_to_cancel : World :=
  (ask "S1" "I want to cancel my ticket" two_bookings).2.

Definition gave_phone : World :=
  (ask "S1" "+8801711000000" asked_to_cancel).2.

(** One booking only. *)
Definition one_booking : World :=
  post_booking (trip "2025-02-01") initial_world.

(** A cancellation request that carries the phone. *)
Definition cancel_with_phone : QueryRequest.t :=
  {| QueryRequest.query := "Please cancel my ticket";
     QueryRequest.phone := Some "01711000000";
     QueryRequest.session_id := Some "S1" |}.

(** U+00A0, the no-break space, in UTF-8. *)
Definition nbsp : string :=
  String (Ascii.ascii_of_nat 194) (String (Ascii.ascii_of_nat 160) "").

(** While S1 is offered BK00001 and BK00002, the first is deleted
    permanently. *)
Definition stale_choice : World := delete_booking "BK00001" true gave_phone.

(** A POST /bookings body of another customer. *)
Definition trip_of_karim : BookingCreate.t :=
  {| BookingCreate.name := "Karim";
     BookingCreate.phone := "01999000000";
     BookingCreate.bus_provider := "Hanif";
     BookingCreate.from_district := "Khulna";
     BookingCreate.to_district := "Dhaka";
     BookingCreate.dropping_point := "Gabtoli";
     BookingCreate.travel_date := "2025-03-01";
     BookingCreate.num_passengers := 1 |}.

(** While S1 is offered BK00001 and BK00002, the second is deleted
    permanently and another customer books. *)
Definition reissued_choice : World :=
  post_booking trip_of_karim (delete_booking "BK00002" true gave_phone).

End Sample.

(** ** The cancel-resolution procedure of the specification

    Written from the specification's words (Section 4.1): given a
    normalized phone, fetch the bookings of that phone and keep the active
    ones; with none, reply that there is none; with exactly one, cancel it
    and confirm; with more, store the list as [pending_bookings], await the
    choice and enumerate the bookings.  The reply is appended to the chat
    log.  The handler has this code twice; the lemmas
    [awaiting_phone_runs_resolution] and [trigger_runs_resolution] relate
    the two copies to it. *)
Definition cancel_resolution (env : Env) (session_id phone : string)
    (session : Session.t) (db : Store) : string * Session.t * Store :=
  let reply message session db :=
    (message, session,
     save_chat_message (at_reply env) session_id "assistant" message
       (Some phone) db) in
  match List.filter is_active (get_bookings_by_phone phone db) with
  | [] => reply (msg_no_active phone) session db
  | [b] =>
      reply (msg_cancelled (booking_id b)) session
        (cancel_booking env (booking_id b) db).2
  | active =>
      reply (msg_multiple active)
        (SessionUpdate.set_pending_bookings active
           (SessionUpdate.set_awaiting_booking_id true session))
        db
  end.

(** The handler's result when the procedure is its last step: the
    procedure's reply is returned. *)
Definition replied (r : string * Session.t * Store)
  : outcome string * Session.t * Store :=
  (Returned r.1.1, r.1.2, r.2).

(** The three states of the session state machine, read off the flags. *)
Definition is_idle (s : Session.t) : Prop :=
  Session.awaiting_booking_id s = false ∧
  Session.awaiting_phone_for_cancel s = false.

Definition is_awaiting_phone (s : Session.t) : Prop :=
  Session.awaiting_phone_for_cancel s = true.

Definition is_awaiting_booking_choice (s : Session.t) : Prop :=
  Session.awaiting_booking_id s = true.

(** Number of positions of [hay] at which [needle] occurs. *)
Fixpoint occurrences (needle hay : string) : nat :=
  (if String.prefix needle hay then 1 else 0) +
  match hay with
  | "" => 0
  | String _ hay' => occurrences needle hay'
  end.

(** ** Invariants of the sessions and of the store *)

(** The two awaiting flags are not set together. *)
Definition flags_exclusive (s : Session.t) : Prop :=
  ¬ (Session.awaiting_booking_id s = true ∧
     Session.awaiting_phone_for_cancel s = true).

(** [pending_bookings] is non-empty exactly while a choice is awaited, and
    then offers at least two bookings, each recorded as active. *)
Definition pending_consistent (s : Session.t) : Prop :=
  (Session.pending_bookings s ≠ [] ↔ Session.awaiting_booking_id s = true) ∧
  (Session.pending_bookings s ≠ [] →
     2 ≤ length (Session.pending_bookings s) ∧
     Forall (λ b, status b = "active") (Session.pending_bookings s)).

Definition session_ok (s : Session.t) : Prop :=
  flags_exclusive s ∧ pending_consistent s.

(** The UNIQUE constraint on [bookings.booking_id]. *)
Definition unique_ids (db : Store) : Prop :=
  NoDup (map booking_id (bookings db)).

(** The only status values written are ['active'] and ['cancelled']. *)
Definition known_status (b : Booking) : Prop :=
  status b = "active" ∨ status b = "cancelled".

Definition store_ok (db : Store) : Prop :=
  unique_ids db ∧ Forall known_status (bookings db).

Definition world_ok (w : World) : Prop :=
  (∀ sid s, sessions w !! sid = Some s → session_ok s) ∧ store_ok (db w).

(** The two ways into the resolution code, with the phone each one uses:
    the reply to the phone prompt, and a cancellation request from the idle
    state when a phone is hinted or stored. *)
Inductive enters_resolution (request : QueryRequest.t) (s : Session.t)
  : string → Prop :=
| enters_by_phone_reply :
    is_awaiting_phone s →
    enters_resolution request s
      (strip_country_prefix (Py.strip (QueryRequest.query request)))
| enters_by_trigger :
    is_idle s →
    has_cancel_keyword (Py.lower (QueryRequest.query request)) = true →
    Py.strip (Py.or_str (QueryRequest.phone request)
                (Py.or_str (Session.phone s) "")) ≠ "" →
    enters_resolution request s
      (strip_country_prefix
         (Py.strip (Py.or_str (QueryRequest.phone request)
                      (Py.or_str (Session.phone s) "")))).

(** The lines of the multiple-bookings reply, one per booking. *)
Definition enumeration_line (b : Booking) : string :=
  from_district b +:+ " ‚Üí " +:+ to_district b +:+ " on "
  +:+ travel_date b +:+ " (ID: " +:+ booking_id b +:+ ")" +:+ Py.nl.

Fixpoint enumeration (l : list Booking) : string :=
  match l with
  | [] => ""
  | b :: l' => enumeration_line b +:+ enumeration l'
  end.

(** ** The enumeration property as the specification words it

    For a phone with N>1 active bookings, from either way into the
    resolution: [pending_bookings] has length N, the session awaits the
    choice, and the identifier of each of the N bookings occurs exactly
    once in the reply text. *)
Definition every_id_occurs_once (get_answer : string → outcome string)
    (lower : string → string) (bus_data : BusData) : Prop :=
  ∀ env request w phone,
    let sid := Py.or_str (QueryRequest.session_id request) (uuid4 env) in
    reachable get_answer lower bus_data w →
    enters_resolution request (session_of sid w) phone →
    let active := List.filter is_active (get_bookings_by_phone phone (db w)) in
    1 < length active →
    let r := query_smart get_answer env request w in
    (∃ s', sessions r.2 !! sid = Some s' ∧
           length (Session.pending_bookings s') = length active ∧
           is_awaiting_booking_choice s') ∧
    ∃ message, r.1 = Returned (message, sid) ∧
      ∀ b, b ∈ active → occurrences (booking_id b) message = 1.

(** ** Predicates on strings used to reason about [strip] and [in] *)

(** A byte that can belong to a whitespace code point: an ASCII whitespace
    character or a byte of a multi-byte encoding. *)
Definition space_byte (c : ascii) : bool :=
  Py.is_space c || (128 <=? Py.byte c)%N.

#[global] Arguments space_byte : simpl never.

(** Every byte of [s] can belong to a whitespace code point. *)
Fixpoint all_space (s : string) : bool :=
  match s with
  | "" => true
  | String c s' => space_byte c && all_space s'
  end.

(** No byte of [s] can belong to a whitespace code point. *)
Fixpoint plain_word (s : string) : bool :=
  match s with
  | "" => true
  | String c s' => negb (space_byte c) && plain_word s'
  end.

(** [needle] is a part of [s]. *)
Definition has_part (needle s : string) : Prop :=
  ∃ before after, s = before +:+ needle +:+ after.

(** ** The rest of the booking store ([backend/database.py]) *)

(** The dict [get_chat_history] returns for a row: role, message and
    timestamp. *)
Record ChatEntry := {
  entry_role : string;
  entry_message : string;
  entry_timestamp : Z
}.

Definition chat_entry (r : ChatRow) : ChatEntry :=
  {| entry_role := chat_role r; entry_message := chat_message r;
     entry_timestamp := chat_timestamp r |}.

(** The order of [ORDER BY timestamp DESC]. *)
Definition later_first : relation ChatRow :=
  λ a b, (chat_timestamp b ≤ chat_timestamp a)%Z.


(** [LIMIT ?]: SQLite takes a negative limit as no limit. *)
Definition sql_limit {A} (limit : Z) (rows : list A) : list A :=
  if (limit <? 0)%Z then rows else take (Z.to_nat limit) rows.

(** [get_chat_history]: the newest [limit] rows of the session, returned
    oldest first ([history.reverse()]). *)
Definition get_chat_history (session_id : string) (limit : Z) (db : Store)
  : list ChatEntry :=
  let rows :=
    order_by_desc chat_timestamp
      (List.filter (λ r, String.eqb (chat_session_id r) session_id)
         (chat_history db)) in
  let history := map chat_entry (sql_limit limit rows) in
  rev history.

(** [clear_chat_history]: DELETE FROM chat_history WHERE session_id = ?. *)
Definition clear_chat_history (session_id : string) (db : Store) : Store :=
  {| bookings := bookings db;
     bookings_seq := bookings_seq db;
     chat_history :=
       List.filter (λ r, negb (String.eqb (chat_session_id r) session_id))
         (chat_history db);
     deleted_bookings := deleted_bookings db |}.

Definition has_status (st : string) (b : Booking) : bool :=
  String.eqb (status b) st.

(** [SUM(total_amount)] over rows. *)
Definition sum_total_amount (l : list Booking) : Z :=
  fold_right (λ b acc, (total_amount b + acc)%Z) 0%Z l.

(** The rows of [SELECT bus_provider, COUNT( * ), SUM(total_amount) FROM
    bookings WHERE status = 'active' GROUP BY bus_provider]: one row per
    provider that has an active booking. *)
Definition provider_groups (db : Store) : list (string * (nat * Z)) :=
  let active := List.filter (has_status "active") (bookings db) in
  map (λ p,
         let group := List.filter (λ b, String.eqb (bus_provider b) p) active in
         (p, (length group, sum_total_amount group)))
      (remove_dups (map bus_provider active)).

(** The result dict of [get_booking_statistics]. *)
Record Statistics := {
  total_bookings : nat;
  active_bookings : nat;
  cancelled_bookings : nat;
  total_revenue : Z;
  provider_statistics : gmap string (nat * Z)   (* count, revenue *)
}.

(** [get_booking_statistics]; [SUM] over no row is NULL, which [or 0] turns
    into 0.  The loop stores each group row under its provider. *)
Definition get_booking_statistics (db : Store) : Statistics :=
  let total := length (bookings db) in
  let active := length (List.filter (has_status "active") (bookings db)) in
  let cancelled :=
    length (List.filter (has_status "cancelled") (bookings db)) in
  let revenue :=
    sum_total_amount (List.filter (has_status "active") (bookings db)) in
  let provider_stats :=
    fold_left (λ stats row, <[row.1 := row.2]> stats) (provider_groups db) ∅ in
  {| total_bookings := total;
     active_bookings := active;
     cancelled_bookings := cancelled;
     total_revenue := revenue;
     provider_statistics := provider_stats |}.

(** ** The rest of the handlers ([backend/main.py]) *)

Definition covers (lower : string → string) (provider : Provider)
    (from_district to_district : string) : bool :=
  let coverage_lower := map lower (coverage_districts provider) in
  str_in (lower from_district) coverage_lower
  && str_in (lower to_district) coverage_lower.

(** [get_available_providers]: the names of the providers whose coverage
    holds both districts, in the order of [bus_data]. *)
Definition get_available_providers (lower : string → string)
    (bus_data : BusData) (from_district to_district : string) : list string :=
  map provider_name
    (List.filter (λ p, covers lower p from_district to_district)
       (bus_providers bus_data)).

(** [get_dropping_points_by_district]: the dropping points of the first
    district of that name, or the empty list. *)
Definition get_dropping_points_by_district (lower : string → string)
    (bus_data : BusData) (district : string) : list DroppingPoint :=
  match List.find (λ d, String.eqb (lower (district_name d))
                          (lower district))
          (districts bus_data) with
  | Some d =>
      map (λ dp, {| dp_name := dp_name dp; price := price dp |})
        (dropping_points d)
  | None => []
  end.

(** GET /bookings/phone/{phone} *)
Definition bookings_by_phone (phone : string) (db : Store)
  : outcome (list Booking) :=
  let bookings := get_bookings_by_phone (Py.strip phone) db in
  match bookings with
  | [] => Raised (HTTPException 404 "No bookings found for this phone number")
  | _ => Returned bookings
  end.

(** GET /bookings/{booking_id} *)
Definition booking_details (booking_id : string) (db : Store)
  : outcome Booking :=
  match get_booking_by_id booking_id db with
  | Some booking => Returned booking
  | None => Raised (HTTPException 404 "Booking not found")
  end.

(** The [provider_map] dict of [get_provider_policy]: the policy file of
    each provider name the endpoint knows. *)
Definition provider_map : gmap string string :=
  list_to_map
    [ ("desh travel", "desh_travel.txt");
      ("ena", "ena.txt");
      ("green line", "green line.txt");
      ("greenline", "green line.txt");
      ("hanif", "hanif.txt");
      ("shyamoli", "shyamoli.txt");
      ("soudia", "soudia.txt") ].

(** ** Provider detection ([backend/rag_pipeline.py]) *)

Definition rag_providers : list string :=
  ["hanif"; "ena"; "desh travel"; "green line"; "soudia"; "shyamoli"].

(** [detect_provider_from_query]: the first of the six names that occurs in
    the lowered query. *)
Definition detect_provider_from_query (lower : string → string)
    (query : string) : option string :=
  let query_lower := lower query in
  List.find (λ provider, Py.contains provider query_lower) rag_providers.

(** ** The phone helper of the front end ([frontend/app.py]) *)

Definition normalize_phone (phone : string) : string :=
  if String.eqb phone "" then ""
  else
    let phone := Py.strip phone in
    if Py.startswith phone "+88" then Py.drop 3 phone else phone.

(** ** Runs without permanent deletion *)

(** The decimal number a string of digits denotes; used to tell the
    identifiers [generate_booking_id] builds apart. *)
Definition decimal_value (s : string) : option nat :=
  option_map Nat.of_uint (NilEmpty.uint_of_string s).

(** One request served that is not a permanent deletion. *)
Inductive step_keeping (get_answer : string → outcome string)
    (lower : string → string) (bus_data : BusData)
  : World → World → Prop :=
| keeping_query env request w :
    step_keeping get_answer lower bus_data w
      (query_smart get_answer env request w).2
| keeping_create env booking w :
    step_keeping get_answer lower bus_data w
      {| sessions := sessions w;
         db := (create_booking_endpoint lower bus_data env booking (db w)).2 |}
| keeping_cancel env booking_id w :
    step_keeping get_answer lower bus_data w
      {| sessions := sessions w;
         db := (delete_booking_endpoint env booking_id false (db w)).2 |}.

Definition reachable_keeping (get_answer : string → outcome string)
    (lower : string → string) (bus_data : BusData) (w : World) : Prop :=
  rtc (step_keeping get_answer lower bus_data) initial_world w.

(** The identifiers issued for the first [n] bookings. *)
Definition issued_ids (n : nat) : list string :=
  map (λ i, "BK" +:+ Py.format_05d i) (seq 1 n).

(** ** Sums used to state facts about the statistics *)

(** The sum of [f] over a list, in [Z]. *)
Definition sum_Z_with {A} (f : A → Z) (l : list A) : Z :=
  foldr (λ a acc, (f a + acc)%Z) 0%Z l.

(** ** The rows a request appends to the chat history *)

(** The row [save_chat_message] writes for the reply. *)
Definition assistant_row (env : Env) (sid : string) (ph : option string)
    (message : string) : ChatRow :=
  {| chat_session_id := sid; chat_phone := ph; chat_role := "assistant";
     chat_message := message; chat_timestamp := reply_timestamp env |}.

(** The row it writes for the user's query. *)
Definition user_row (env : Env) (sid : string) (request : QueryRequest.t)
  : ChatRow :=
  {| chat_session_id := sid; chat_phone := QueryRequest.phone request;
     chat_role := "user"; chat_message := QueryRequest.query request;
     chat_timestamp := current_timestamp env |}.

(** ** Conditions on the data used in statements *)

(** No two providers of [bus_data] have the same name up to letter case. *)
Definition distinct_provider_names (lower : string → string)
    (bus_data : BusData) : Prop :=
  NoDup (map (λ p, lower (provider_name p)) (bus_providers bus_data)).

(** The identifiers stored are those issued for the rows, in order. *)
Definition ids_in_sequence (db : Store) : Prop :=
  map booking_id (bookings db) = issued_ids (length (bookings db)).

(** * Properties *)

(** ** [ORDER BY ... DESC] *)

Lemma insert_desc_Permutation {A} (key : A → Z) x (l : list A) :
  insert_desc key x l ≡ₚ x :: l.
Proof.
  induction l as [|y l IH]; simpl; [done|].
  destruct (key y <=? key x)%Z; [done|].
  rewrite IH. apply Permutation_swap.
Qed.

Lemma order_by_desc_Permutation {A} (key : A → Z) (l : list A) :
  order_by_desc key l ≡ₚ l.
Proof.
  induction l as [|x l IH]; simpl; [done|].
  by rewrite insert_desc_Permutation, IH.
Qed.

Lemma insert_desc_sorted {A} (key : A → Z) x (l : list A) :
  StronglySorted (λ a b, (key b ≤ key a)%Z) l →
  StronglySorted (λ a b, (key b ≤ key a)%Z) (insert_desc key x l).
Proof.
  induction 1 as [|y l Hl IH Hy]; simpl.
  { repeat constructor. }
  destruct (key y <=? key x)%Z eqn:E.
  - apply Z.leb_le in E. constructor; [by constructor|].
    constructor; [done|].
    eapply Forall_impl; [exact Hy|]. simpl. intros; lia.
  - apply Z.leb_gt in E. constructor; [done|].
    rewrite insert_desc_Permutation. constructor; [lia|done].
Qed.

Lemma order_by_desc_sorted {A} (key : A → Z) (l : list A) :
  StronglySorted (λ a b, (key b ≤ key a)%Z) (order_by_desc key l).
Proof.
  induction l as [|x l IH]; simpl; [constructor|].
  by apply insert_desc_sorted.
Qed.

(** Rows with the same key stay in table order. *)
Lemma insert_desc_stable {A} (key : A → Z) k x (l : list A) :
  List.filter (λ a, (key a =? k)%Z) (insert_desc key x l)
  = List.filter (λ a, (key a =? k)%Z) (x :: l).
Proof.
  induction l as [|y l IH]; [done|].
  change (insert_desc key x (y :: l))
    with (if (key y <=? key x)%Z then x :: y :: l
          else y :: insert_desc key x l).
  destruct (key y <=? key x)%Z eqn:E; [done|].
  apply Z.leb_gt in E.
  change (List.filter (λ a, (key a =? k)%Z) (y :: insert_desc key x l))
    with (if (key y =? k)%Z
          then y :: List.filter (λ a, (key a =? k)%Z) (insert_desc key x l)
          else List.filter (λ a, (key a =? k)%Z) (insert_desc key x l)).
  rewrite IH. simpl.
  destruct (key x =? k)%Z eqn:Ex, (key y =? k)%Z eqn:Ey; try done.
  apply Z.eqb_eq in Ex, Ey. lia.
Qed.

Lemma order_by_desc_stable {A} (key : A → Z) k (l : list A) :
  List.filter (λ a, (key a =? k)%Z) (order_by_desc key l)
  = List.filter (λ a, (key a =? k)%Z) l.
Proof.
  induction l as [|x l IH]; [done|].
  change (order_by_desc key (x :: l))
    with (insert_desc key x (order_by_desc key l)).
  rewrite insert_desc_stable. simpl. by rewrite IH.
Qed.

(** ** The booking store *)

Lemma String_eqb_true (a b : string) : String.eqb a b = true ↔ a = b.
Proof. apply String.eqb_eq. Qed.

Lemma String_eqb_false (a b : string) : String.eqb a b = false ↔ a ≠ b.
Proof. apply String.eqb_neq. Qed.

Lemma cancel_matches_true bid b :
  cancel_matches bid b = true ↔ booking_id b = bid ∧ status b = "active".
Proof.
  unfold cancel_matches.
  rewrite andb_true_iff, !String_eqb_true. tauto.
Qed.

Lemma cancel_row_other now bid b :
  cancel_matches bid b = false → cancel_row now bid b = b.
Proof. unfold cancel_row. by intros ->. Qed.

Lemma cancel_row_booking_id now bid b :
  booking_id (cancel_row now bid b) = booking_id b.
Proof. unfold cancel_row. by destruct (cancel_matches bid b). Qed.

Lemma map_cancel_row_other now bid (l : list Booking) :
  Forall (λ b, booking_id b ≠ bid) l → map (cancel_row now bid) l = l.
Proof.
  induction 1 as [|b l Hb _ IH]; simpl; [done|].
  rewrite IH, cancel_row_other; [done|].
  apply not_true_is_false. rewrite cancel_matches_true. tauto.
Qed.

Lemma map_cancel_row_none now bid (l : list Booking) :
  List.filter (cancel_matches bid) l = [] → map (cancel_row now bid) l = l.
Proof.
  induction l as [|b l IH]; simpl; [done|].
  destruct (cancel_matches bid b) eqn:E; [done|].
  intros H. by rewrite IH, cancel_row_other.
Qed.

Lemma filter_cancel_matches_elem bid (l : list Booking) :
  List.filter (cancel_matches bid) l ≠ [] ↔
  ∃ b, b ∈ l ∧ booking_id b = bid ∧ status b = "active".
Proof.
  split.
  - destruct (List.filter (cancel_matches bid) l) as [|b l'] eqn:E; [done|].
    intros _. assert (In b (List.filter (cancel_matches bid) l)) as Hb
      by (rewrite E; by left).
    apply filter_In in Hb as [Hb Hm]. exists b.
    apply cancel_matches_true in Hm. by rewrite list_elem_of_In.
  - intros (b & Hb & Hid & Hst) E.
    assert (In b (List.filter (cancel_matches bid) l)) as Hin.
    { apply filter_In. split; [by apply list_elem_of_In|].
      by apply cancel_matches_true. }
    by rewrite E in Hin.
Qed.

(** Under the UNIQUE constraint the UPDATE rewrites one row in place. *)
Lemma map_cancel_row_unique now bid (l : list Booking) b :
  NoDup (map booking_id l) → b ∈ l → booking_id b = bid → status b = "active" →
  ∃ l1 l2, l = l1 ++ b :: l2 ∧
    map (cancel_row now bid) l = l1 ++ set_cancelled now b :: l2.
Proof.
  intros Hnd Hb Hid Hst.
  apply list_elem_of_split in Hb as (l1 & l2 & ->).
  exists l1, l2. split; [done|].
  rewrite map_app in Hnd. simpl in Hnd.
  apply NoDup_app in Hnd as (_ & Hl1 & Hnd).
  apply NoDup_cons in Hnd as (Hl2 & _).
  rewrite map_app. simpl. f_equal; [|f_equal].
  - apply map_cancel_row_other, Forall_forall. intros x Hx Hxid.
    apply (Hl1 (booking_id x)); [by apply list_elem_of_fmap_2|].
    assert (booking_id x = booking_id b) as -> by congruence. by left.
  - unfold cancel_row.
    by rewrite (proj2 (cancel_matches_true bid b) (conj Hid Hst)).
  - apply map_cancel_row_other, Forall_forall. intros x Hx Hxid.
    apply Hl2. assert (booking_id b = booking_id x) as -> by congruence.
    by apply list_elem_of_fmap_2.
Qed.

Lemma with_bookings_same db : with_bookings (bookings db) (bookings_seq db) db = db.
Proof. by destruct db. Qed.

(** Every row either stays as it is or goes from active to cancelled. *)
Definition row_transition (now : string) (b b' : Booking) : Prop :=
  b' = b ∨
  (status b = "active" ∧ b' = set_cancelled now b).

Lemma cancel_row_transition now bid (l : list Booking) :
  Forall2 (row_transition now) l (map (cancel_row now bid) l).
Proof.
  induction l as [|b l IH]; simpl; constructor; [|done].
  unfold cancel_row, row_transition.
  destruct (cancel_matches bid b) eqn:E; [|by left].
  right. apply cancel_matches_true in E. tauto.
Qed.

(** C8.  [cancel_booking] returns true exactly when the store holds a booking
    with that identifier whose status is active; then that one row gets
    status cancelled and a cancellation timestamp and no other row changes.
    Otherwise it returns false and the store is unchanged.  In every case a
    row either keeps its value or goes from active to cancelled. *)
Theorem cancel_booking_only_active env bid db :
  unique_ids db →
  let r := (cancel_booking env bid db).1 in
  let db' := (cancel_booking env bid db).2 in
  let now := now_isoformat env in
  (r = true ↔ ∃ b, b ∈ bookings db ∧ booking_id b = bid ∧ status b = "active") ∧
  (r = true →
     ∃ l1 b l2,
       bookings db = l1 ++ b :: l2 ∧
       booking_id b = bid ∧ status b = "active" ∧
       bookings db' = l1 ++ set_cancelled now b :: l2 ∧
       status (set_cancelled now b) = "cancelled" ∧
       cancelled_date (set_cancelled now b) = Some now) ∧
  (r = false → db' = db) ∧
  Forall2 (row_transition now) (bookings db) (bookings db').
Proof.
  intros Hnd r db' now.
  assert (r = true ↔ List.filter (cancel_matches bid) (bookings db) ≠ []) as Hr.
  { subst r. unfold cancel_booking. simpl.
    destruct (List.filter (cancel_matches bid) (bookings db)); simpl.
    - split; [discriminate | congruence].
    - split; [discriminate | reflexivity]. }
  repeat split.
  - intros H. by apply filter_cancel_matches_elem, Hr.
  - intros H. by apply Hr, filter_cancel_matches_elem.
  - intros H. apply Hr, filter_cancel_matches_elem in H as (b & Hb & Hid & Hst).
    destruct (map_cancel_row_unique now bid _ b Hnd Hb Hid Hst)
      as (l1 & l2 & E1 & E2).
    exists l1, b, l2. by repeat split.
  - intros H. subst db'. unfold cancel_booking. simpl.
    rewrite map_cancel_row_none; [apply with_bookings_same|].
    destruct (List.filter (cancel_matches bid) (bookings db)) eqn:E; [done|].
    exfalso. assert (r = true) by (by apply Hr). congruence.
  - apply cancel_row_transition.
Qed.

Lemma unique_ids_two_bookings : unique_ids (db Sample.two_bookings).
Proof.
  unfold unique_ids.
  assert (map booking_id (bookings (db Sample.two_bookings))
          = ["BK00001"; "BK00002"]) as -> by reflexivity.
  apply NoDup_cons. split; [|apply NoDup_singleton].
  intros H%list_elem_of_singleton. discriminate.
Qed.

Lemma cancel_booking_only_active_witness :
  unique_ids (db Sample.two_bookings) ∧
  Forall2 (row_transition (now_isoformat Sample.env))
    (bookings (db Sample.two_bookings))
    (bookings (cancel_booking Sample.env "BK00002" (db Sample.two_bookings)).2).
Proof.
  split; [exact unique_ids_two_bookings|].
  exact (proj2 (proj2 (proj2
    (cancel_booking_only_active Sample.env "BK00002" (db Sample.two_bookings)
       unique_ids_two_bookings)))).
Defined.

(** ** Phone normalization *)

Lemma startswith_app (p s : string) : Py.startswith (p +:+ s) p = true.
Proof.
  unfold Py.startswith. induction p as [|c p IH]; simpl.
  - by destruct s.
  - destruct (ascii_dec c c); [apply IH | done].
Qed.

Lemma drop_app (p s : string) : Py.drop (String.length p) (p +:+ s) = s.
Proof. induction p as [|c p IH]; simpl; [by destruct s | apply IH]. Qed.

Lemma strip_country_prefix_prefixed (p : string) :
  strip_country_prefix ("+88" +:+ p) = p.
Proof.
  unfold strip_country_prefix.
  rewrite (startswith_app "+88" p). apply (drop_app "+88" p).
Qed.

Lemma strip_country_prefix_plain (p : string) :
  Py.startswith p "+88" = false → strip_country_prefix p = p.
Proof. unfold strip_country_prefix. by intros ->. Qed.

(** ** The two copies of the resolution code *)

Lemma bookings_save_chat_message env sid role message ph db :
  bookings (save_chat_message env sid role message ph db) = bookings db.
Proof. reflexivity. Qed.

Lemma get_bookings_by_phone_save_chat_message env sid role message ph phone db :
  get_bookings_by_phone phone (save_chat_message env sid role message ph db)
  = get_bookings_by_phone phone db.
Proof. reflexivity. Qed.

Lemma bookings_cancel_booking env bid db :
  bookings (cancel_booking env bid db).2
  = map (cancel_row (now_isoformat env) bid) (bookings db).
Proof. reflexivity. Qed.

Lemma booking_ids_cancel_booking env bid db :
  map booking_id (bookings (cancel_booking env bid db).2)
  = map booking_id (bookings db).
Proof.
  rewrite bookings_cancel_booking, map_map.
  apply map_ext. intros b. apply cancel_row_booking_id.
Qed.

Section RouterLemmas.
Import SessionUpdate.
Variable get_answer : string → outcome string.

Lemma awaiting_phone_runs_resolution env request sid session db :
  Session.awaiting_phone_for_cancel session = true →
  query_smart_session get_answer env request sid session db =
  let phone :=
    strip_country_prefix (Py.strip (QueryRequest.query request)) in
  replied
    (cancel_resolution env sid phone
       (set_awaiting_phone_for_cancel false (set_phone phone session))
       (save_chat_message env sid "user" (QueryRequest.query request)
          (QueryRequest.phone request) db)).
Proof.
  intros H. unfold query_smart_session, cancel_resolution, replied.
  rewrite H. simpl.
  destruct (List.filter is_active _) as [|b [|b' l]]; reflexivity.
Qed.

Lemma trigger_runs_resolution env request sid session db :
  Session.awaiting_phone_for_cancel session = false →
  Session.awaiting_booking_id session = false →
  has_cancel_keyword (Py.lower (Py.strip (QueryRequest.query request))) = true →
  let hinted :=
    Py.strip (Py.or_str (QueryRequest.phone request)
                (Py.or_str (Session.phone session) "")) in
  hinted ≠ "" →
  query_smart_session get_answer env request sid session db =
  replied
    (cancel_resolution env sid (strip_country_prefix hinted)
       (set_phone (strip_country_prefix hinted) session)
       (save_chat_message env sid "user" (QueryRequest.query request)
          (QueryRequest.phone request) db)).
Proof.
  intros H1 H2 H3 hinted H4.
  unfold query_smart_session, cancel_resolution, replied. rewrite H1, H2, H3.
  fold hinted. apply String_eqb_false in H4. rewrite H4. simpl.
  destruct (List.filter is_active _) as [|b [|b' l]]; reflexivity.
Qed.

(** *** What the resolution does, by number of active bookings *)

Lemma cancel_resolution_none env sid phone session db :
  List.filter is_active (get_bookings_by_phone phone db) = [] →
  cancel_resolution env sid phone session db =
  (msg_no_active phone, session,
   save_chat_message (at_reply env) sid "assistant" (msg_no_active phone) (Some phone) db).
Proof. unfold cancel_resolution. by intros ->. Qed.

Lemma cancel_resolution_one env sid phone session db b :
  List.filter is_active (get_bookings_by_phone phone db) = [b] →
  cancel_resolution env sid phone session db =
  (msg_cancelled (booking_id b), session,
   save_chat_message (at_reply env) sid "assistant" (msg_cancelled (booking_id b))
     (Some phone) (cancel_booking env (booking_id b) db).2).
Proof. unfold cancel_resolution. by intros ->. Qed.

Lemma cancel_resolution_many env sid phone session db :
  let active := List.filter is_active (get_bookings_by_phone phone db) in
  1 < length active →
  cancel_resolution env sid phone session db =
  (msg_multiple active,
   set_pending_bookings active (set_awaiting_booking_id true session),
   save_chat_message (at_reply env) sid "assistant" (msg_multiple active) (Some phone) db).
Proof.
  intros active. unfold cancel_resolution. fold active.
  destruct active as [|b [|b' l]]; simpl; [lia | lia | done].
Qed.

Lemma filter_is_active_Forall (l : list Booking) :
  Forall (λ b, status b = "active") (List.filter is_active l).
Proof.
  apply Forall_forall. intros b Hb%list_elem_of_In.
  apply filter_In in Hb as [_ Hb]. by apply String_eqb_true.
Qed.

(** *** The resolution keeps the invariants *)

Lemma cancel_resolution_session_ok env sid phone session db :
  Session.awaiting_phone_for_cancel session = false →
  session_ok session →
  session_ok (cancel_resolution env sid phone session db).1.2.
Proof.
  intros Hph Hok. unfold cancel_resolution.
  destruct (List.filter is_active _) as [|b [|b' l]] eqn:E; simpl; try done.
  split.
  - unfold flags_exclusive. simpl. rewrite Hph. by intros [_ ?].
  - split; simpl; [done|]. intros _. split; [lia|].
    rewrite <- E. apply filter_is_active_Forall.
Qed.

Lemma query_smart_session_ok env request sid session db :
  session_ok session →
  session_ok (query_smart_session get_answer env request sid session db).1.2.
Proof.
  intros Hok.
  destruct (Session.awaiting_phone_for_cancel session) eqn:Hph.
  { rewrite awaiting_phone_runs_resolution by done. simpl.
    apply cancel_resolution_session_ok; [done|].
    destruct Hok as [Hex [Hiff Hlen]]. split; [|done].
    unfold flags_exclusive. simpl. by intros [_ ?]. }
  destruct (Session.awaiting_booking_id session) eqn:Hid.
  { unfold query_smart_session. rewrite Hph, Hid.
    destruct (List.find _ _); simpl; [|done].
    split.
    - unfold flags_exclusive. simpl. by intros [? _].
    - split; simpl; [split; done | done]. }
  destruct (has_cancel_keyword (Py.lower (Py.strip (QueryRequest.query request))))
    eqn:Hkw.
  - destruct (decide (Py.strip (Py.or_str (QueryRequest.phone request)
                        (Py.or_str (Session.phone session) "")) = ""))
      as [Hempty|Hphone].
    + unfold query_smart_session. rewrite Hph, Hid, Hkw, Hempty. simpl.
      destruct Hok as [Hex Hpend]. split; [|done].
      unfold flags_exclusive. simpl. rewrite Hid. by intros [? _].
    + rewrite trigger_runs_resolution by done.
      apply cancel_resolution_session_ok; [done|].
      destruct Hok as [Hex Hpend]. by split.
  - unfold query_smart_session. rewrite Hph, Hid, Hkw.
    by destruct (get_answer _).
Qed.

End RouterLemmas.

(** ** Phone normalization as stored *)

Lemma cancel_resolution_phone env sid phone session db :
  Session.phone (cancel_resolution env sid phone session db).1.2
  = Session.phone session.
Proof.
  unfold cancel_resolution.
  by destruct (List.filter is_active _) as [|b [|b' l]].
Qed.

Lemma awaiting_phone_stores get_answer env request sid session db :
  Session.awaiting_phone_for_cancel session = true →
  Session.phone (query_smart_session get_answer env request sid session db).1.2
  = Some (strip_country_prefix (Py.strip (QueryRequest.query request))).
Proof.
  intros H. rewrite awaiting_phone_runs_resolution by done.
  unfold replied. cbn [fst snd]. by rewrite cancel_resolution_phone.
Qed.

(** C9.  The prefixed and the unprefixed form of a phone normalize to the
    same value: ["+8801711000000"] and ["01711000000"] both give
    ["01711000000"], which is what a session awaiting the phone stores for
    either query; and for every [p] that does not itself start with
    ["+88"], both ["+88" ++ p] and [p] normalize to [p]. *)
Theorem phone_normalization_identifies_forms :
  strip_country_prefix "+8801711000000" = "01711000000" ∧
  strip_country_prefix "01711000000" = "01711000000" ∧
  (∀ get_answer env request sid session db,
     Session.awaiting_phone_for_cancel session = true →
     QueryRequest.query request = "+8801711000000" ∨
     QueryRequest.query request = "01711000000" →
     Session.phone
       (query_smart_session get_answer env request sid session db).1.2
     = Some "01711000000") ∧
  ∀ p, Py.startswith p "+88" = false →
       strip_country_prefix ("+88" +:+ p) = p ∧ strip_country_prefix p = p.
Proof.
  split; [reflexivity|]. split; [reflexivity|]. split.
  - intros get_answer env request sid session db Hph Hq.
    rewrite awaiting_phone_stores by done. by destruct Hq as [-> | ->].
  - intros p Hp. split.
    + apply strip_country_prefix_prefixed.
    + by apply strip_country_prefix_plain.
Qed.

Lemma phone_normalization_identifies_forms_witness :
  Py.startswith "01711000000" "+88" = false ∧
  strip_country_prefix ("+88" +:+ "01711000000") = "01711000000" ∧
  strip_country_prefix "01711000000" = "01711000000" ∧
  Session.phone
    (query_smart_session Sample.get_answer Sample.env
       (Sample.request "S1" "+8801711000000") "S1"
       (SessionUpdate.set_awaiting_phone_for_cancel true Session.fresh)
       init_database).1.2
  = Some "01711000000".
Proof.
  split; [reflexivity|].
  destruct phone_normalization_identifies_forms as (_ & _ & Hstored & Hp).
  destruct (Hp "01711000000" eq_refl) as [H1 H2].
  split; [exact H1|]. split; [exact H2|].
  apply Hstored; [reflexivity | by left].
Defined.


(** ** Store invariants under the store operations *)

Lemma NoDup_map_filter {A B} (f : A → B) (p : A → bool) (l : list A) :
  NoDup (map f l) → NoDup (map f (List.filter p l)).
Proof.
  induction l as [|a l IH]; simpl; [done|].
  intros [Ha Hl]%NoDup_cons.
  destruct (p a); simpl; [|by apply IH].
  apply NoDup_cons. split; [|by apply IH].
  intros (x & Hx & Hin)%list_elem_of_fmap. apply Ha.
  rewrite Hx. apply list_elem_of_fmap_2.
  apply list_elem_of_In. apply list_elem_of_In in Hin.
  by apply filter_In in Hin as [? _].
Qed.

Lemma Forall_filter_list {A} (P : A → Prop) (p : A → bool) (l : list A) :
  Forall P l → Forall P (List.filter p l).
Proof.
  rewrite !Forall_forall. intros H x Hx%list_elem_of_In.
  apply filter_In in Hx as [Hx _]. by apply H, list_elem_of_In.
Qed.

Lemma store_ok_init : store_ok init_database.
Proof. split; [apply NoDup_nil_2 | constructor]. Qed.

Lemma store_ok_save_chat_message env sid role message ph db :
  store_ok db → store_ok (save_chat_message env sid role message ph db).
Proof. done. Qed.

Lemma cancel_row_known_status now bid b :
  known_status b → known_status (cancel_row now bid b).
Proof.
  unfold cancel_row. destruct (cancel_matches bid b); [|done].
  intros _. by right.
Qed.

Lemma store_ok_cancel_booking env bid db :
  store_ok db → store_ok (cancel_booking env bid db).2.
Proof.
  intros [Hnd Hst]. split.
  - unfold unique_ids. by rewrite booking_ids_cancel_booking.
  - rewrite bookings_cancel_booking. apply Forall_fmap.
    eapply Forall_impl; [done|]. intros b. apply cancel_row_known_status.
Qed.

Lemma store_ok_create_booking env d db :
  store_ok db → store_ok (create_booking env d db).2.
Proof.
  intros [Hnd Hst]. unfold create_booking.
  destruct (existsb _ _) eqn:E; [done|]. split.
  - unfold unique_ids. simpl. rewrite map_app. apply NoDup_app.
    split; [done|]. split; [|apply NoDup_singleton].
    intros x (b & -> & Hb)%list_elem_of_fmap Hin%list_elem_of_singleton.
    simpl in Hin.
    assert (existsb (has_booking_id (BookingData.booking_id d)) (bookings db)
            = true) as Hex; [|congruence].
    apply existsb_exists. exists b. split; [by apply list_elem_of_In|].
    by apply String_eqb_true.
  - simpl. apply Forall_app. split; [done|].
    apply Forall_singleton. by left.
Qed.

Lemma store_ok_create_booking_endpoint lower bus_data env booking db :
  store_ok db →
  store_ok (create_booking_endpoint lower bus_data env booking db).2.
Proof.
  intros H. unfold create_booking_endpoint.
  repeat (case_match; [done|]). by apply store_ok_create_booking.
Qed.

Lemma store_ok_delete_booking_permanently env bid db :
  store_ok db → store_ok (delete_booking_permanently env bid db).2.
Proof.
  intros [Hnd Hst]. unfold delete_booking_permanently.
  destruct (List.find _ _); [|done]. split; simpl.
  - by apply NoDup_map_filter.
  - by apply Forall_filter_list.
Qed.

Lemma store_ok_delete_booking_endpoint env bid permanent db :
  store_ok db → store_ok (delete_booking_endpoint env bid permanent db).2.
Proof.
  intros H. unfold delete_booking_endpoint. destruct permanent.
  - pose proof (store_ok_delete_booking_permanently env bid db H) as H'.
    destruct (delete_booking_permanently env bid db) as [[] db']; done.
  - pose proof (store_ok_cancel_booking env bid db H) as H'.
    destruct (cancel_booking env bid db) as [[] db']; done.
Qed.

(** ** Invariants of every reachable state *)

Section Reachable.
Import SessionUpdate.
Variable get_answer : string → outcome string.
Variable lower : string → string.
Variable bus_data : BusData.

Local Abbreviation reachable := (reachable get_answer lower bus_data).
Local Abbreviation step := (step get_answer lower bus_data).
Local Abbreviation query_smart := (query_smart get_answer).
Local Abbreviation query_smart_session := (query_smart_session get_answer).

Lemma cancel_resolution_store_ok env sid phone session db :
  store_ok db → store_ok (cancel_resolution env sid phone session db).2.
Proof.
  intros H. unfold cancel_resolution.
  destruct (List.filter is_active _) as [|b [|b' l]]; simpl; try done.
  apply store_ok_save_chat_message. by apply store_ok_cancel_booking.
Qed.

Lemma query_smart_session_store_ok env request sid session db :
  store_ok db →
  store_ok (query_smart_session env request sid session db).2.
Proof.
  intros H.
  destruct (Session.awaiting_phone_for_cancel session) eqn:Hph.
  { rewrite awaiting_phone_runs_resolution by done.
    by apply cancel_resolution_store_ok. }
  destruct (Session.awaiting_booking_id session) eqn:Hid.
  { unfold query_smart_session. rewrite Hph, Hid.
    destruct (List.find _ _); [|done].
    by apply store_ok_save_chat_message, store_ok_cancel_booking,
      store_ok_save_chat_message. }
  destruct (has_cancel_keyword (Py.lower (Py.strip (QueryRequest.query request))))
    eqn:Hkw.
  - destruct (decide (Py.strip (Py.or_str (QueryRequest.phone request)
                        (Py.or_str (Session.phone session) "")) = ""))
      as [Hempty|Hphone].
    + unfold query_smart_session. by rewrite Hph, Hid, Hkw, Hempty.
    + rewrite trigger_runs_resolution by done.
      by apply cancel_resolution_store_ok.
  - unfold query_smart_session. rewrite Hph, Hid, Hkw.
    destruct (get_answer _); [|done].
    by apply store_ok_save_chat_message, store_ok_save_chat_message.
Qed.

(** [query_smart] in terms of the body run on the addressed session. *)
Lemma query_smart_eq env request w :
  let sid := Py.or_str (QueryRequest.session_id request) (uuid4 env) in
  let r := query_smart_session env request sid (session_of sid w) (db w) in
  query_smart env request w =
  (reply_of sid r.1.1,
   {| sessions := <[sid := r.1.2]> (sessions w); db := r.2 |}).
Proof.
  intros sid r. unfold query_smart. fold sid. fold r.
  by destruct r as [[message session] db'].
Qed.

Lemma session_ok_fresh : session_ok Session.fresh.
Proof.
  split.
  - by intros [? _].
  - split; simpl; [split; done | done].
Qed.

Lemma session_of_ok sid w : world_ok w → session_ok (session_of sid w).
Proof.
  intros [Hs _]. unfold session_of.
  destruct (sessions w !! sid) eqn:E; simpl; [by eapply Hs|].
  apply session_ok_fresh.
Qed.

Lemma world_ok_initial : world_ok initial_world.
Proof.
  split; [|apply store_ok_init].
  intros sid s H. simpl in H. by rewrite lookup_empty in H.
Qed.

Lemma world_ok_query_smart env request w :
  world_ok w → world_ok (query_smart env request w).2.
Proof.
  intros Hw. rewrite query_smart_eq. simpl. split; simpl.
  - intros sid s.
    destruct (decide (Py.or_str (QueryRequest.session_id request) (uuid4 env)
                      = sid)) as [->|Hne].
    + rewrite lookup_insert_eq. intros [= <-].
      by apply query_smart_session_ok, session_of_ok.
    + rewrite lookup_insert_ne by done. apply Hw.
  - apply query_smart_session_store_ok, Hw.
Qed.

Lemma world_ok_step w w' : world_ok w → step w w' → world_ok w'.
Proof.
  intros Hw Hstep. destruct Hstep as [env request w|env booking w|env bid p w].
  - by apply world_ok_query_smart.
  - destruct Hw as [Hs Hdb]. split; [done|].
    by apply store_ok_create_booking_endpoint.
  - destruct Hw as [Hs Hdb]. split; [done|].
    by apply store_ok_delete_booking_endpoint.
Qed.

Lemma reachable_world_ok w : reachable w → world_ok w.
Proof.
  intros H.
  eapply (rtc_ind_r world_ok); [apply world_ok_initial | | exact H].
  intros y z _ Hstep Hy. by eapply world_ok_step.
Qed.

Lemma reachable_session_of_ok sid w :
  reachable w → session_ok (session_of sid w).
Proof. intros H. by apply session_of_ok, reachable_world_ok. Qed.

(** C2.  In every state reachable from the initial one, no session has
    both [awaiting_booking_id] and [awaiting_phone_for_cancel] set. *)
Theorem awaiting_flags_mutually_exclusive w sid s :
  reachable w →
  sessions w !! sid = Some s →
  ¬ (Session.awaiting_booking_id s = true ∧
     Session.awaiting_phone_for_cancel s = true).
Proof.
  intros Hr Hs. apply reachable_world_ok in Hr as [Hok _].
  by destruct (Hok sid s Hs) as [Hex _].
Qed.

(** C10.  In every reachable state, a session's [pending_bookings] is
    non-empty exactly when its [awaiting_booking_id] is set, and a
    non-empty [pending_bookings] holds at least two bookings, each
    recorded with status active. *)
Theorem pending_bookings_linked_to_flag w sid s :
  reachable w →
  sessions w !! sid = Some s →
  (Session.pending_bookings s ≠ [] ↔ Session.awaiting_booking_id s = true) ∧
  (Session.pending_bookings s ≠ [] →
     2 ≤ length (Session.pending_bookings s) ∧
     Forall (λ b, status b = "active") (Session.pending_bookings s)).
Proof.
  intros Hr Hs. apply reachable_world_ok in Hr as [Hok _].
  by destruct (Hok sid s Hs) as [_ Hpend].
Qed.

End Reachable.

(** ** Sample runs are reachable *)

(** The sample bodies satisfy the [Field] constraints. *)
Lemma sample_trip_valid date : BookingCreate.valid (Sample.trip date) = true.
Proof. reflexivity. Qed.

Lemma reachable_post_booking b w :
  reachable Sample.get_answer Sample.lower Sample.bus_data w →
  reachable Sample.get_answer Sample.lower Sample.bus_data (Sample.post_booking b w).
Proof.
  intros Hw. eapply rtc_r; [exact Hw|].
  apply (step_create _ _ _ Sample.env b w).
Qed.

Lemma reachable_delete_booking bid permanent w :
  reachable Sample.get_answer Sample.lower Sample.bus_data w →
  reachable Sample.get_answer Sample.lower Sample.bus_data
    (Sample.delete_booking bid permanent w).
Proof.
  intros Hw. eapply rtc_r; [exact Hw|].
  apply (step_delete _ _ _ Sample.env bid permanent w).
Qed.

Lemma reachable_ask sid query w :
  reachable Sample.get_answer Sample.lower Sample.bus_data w →
  reachable Sample.get_answer Sample.lower Sample.bus_data (Sample.ask sid query w).2.
Proof.
  intros Hw. eapply rtc_r; [exact Hw|].
  apply (step_query _ _ _ Sample.env (Sample.request sid query) w).
Qed.

Lemma reachable_two_bookings :
  reachable Sample.get_answer Sample.lower Sample.bus_data Sample.two_bookings.
Proof.
  do 2 apply reachable_post_booking. apply rtc_refl.
Qed.

Lemma reachable_one_booking :
  reachable Sample.get_answer Sample.lower Sample.bus_data Sample.one_booking.
Proof. apply reachable_post_booking, rtc_refl. Qed.

Lemma reachable_odd_date :
  reachable Sample.get_answer Sample.lower Sample.bus_data Sample.odd_date.
Proof.
  do 2 apply reachable_post_booking. apply rtc_refl.
Qed.

Lemma reachable_after_delete :
  reachable Sample.get_answer Sample.lower Sample.bus_data Sample.after_delete.
Proof. apply reachable_delete_booking, reachable_two_bookings. Qed.

Lemma reachable_asked_to_cancel :
  reachable Sample.get_answer Sample.lower Sample.bus_data Sample.asked_to_cancel.
Proof. apply reachable_ask, reachable_two_bookings. Qed.

Lemma reachable_gave_phone :
  reachable Sample.get_answer Sample.lower Sample.bus_data Sample.gave_phone.
Proof. apply reachable_ask, reachable_asked_to_cancel. Qed.

Lemma reachable_stale_choice :
  reachable Sample.get_answer Sample.lower Sample.bus_data Sample.stale_choice.
Proof. apply reachable_delete_booking, reachable_gave_phone. Qed.

Lemma reachable_reissued_choice :
  reachable Sample.get_answer Sample.lower Sample.bus_data
    Sample.reissued_choice.
Proof.
  apply reachable_post_booking, reachable_delete_booking, reachable_gave_phone.
Qed.

(** ** Booking identifiers *)

(** C1 (evaluation at the failing run).  The run is reachable: two bookings
    are created, which issues BK00001 and BK00002, and the first is deleted
    permanently.  Then [generate_booking_id] returns [BK00002], the
    identifier of the booking still in the store, issued before; the
    creation that uses it is refused by the UNIQUE constraint. *)
Theorem generate_booking_id_reissues :
  reachable Sample.get_answer Sample.lower Sample.bus_data Sample.after_delete ∧
  map booking_id (bookings (db Sample.two_bookings)) = ["BK00001"; "BK00002"] ∧
  map booking_id (bookings (db Sample.after_delete)) = ["BK00002"] ∧
  generate_booking_id (db Sample.after_delete) = "BK00002" ∧
  generate_booking_id (db Sample.after_delete)
    ∈ map booking_id (bookings (db Sample.after_delete)) ∧
  BookingCreate.valid (Sample.trip "2025-02-03") = true ∧
  (create_booking_endpoint Sample.lower Sample.bus_data Sample.env
     (Sample.trip "2025-02-03") (db Sample.after_delete)).1
  = Raised IntegrityError.
Proof.
  split; [exact reachable_after_delete|].
  repeat split; try reflexivity.
  assert (map booking_id (bookings (db Sample.after_delete)) = ["BK00002"])
    as -> by reflexivity.
  assert (generate_booking_id (db Sample.after_delete) = "BK00002")
    as -> by reflexivity.
  by left.
Qed.

Lemma awaiting_flags_mutually_exclusive_witness :
  reachable Sample.get_answer Sample.lower Sample.bus_data Sample.asked_to_cancel ∧
  sessions Sample.asked_to_cancel !! "S1"
  = Some (SessionUpdate.set_awaiting_phone_for_cancel true Session.fresh) ∧
  ¬ (Session.awaiting_booking_id
       (SessionUpdate.set_awaiting_phone_for_cancel true Session.fresh) = true ∧
     Session.awaiting_phone_for_cancel
       (SessionUpdate.set_awaiting_phone_for_cancel true Session.fresh) = true).
Proof.
  split; [exact reachable_asked_to_cancel|].
  assert (sessions Sample.asked_to_cancel !! "S1"
          = Some (SessionUpdate.set_awaiting_phone_for_cancel true Session.fresh))
    as Hs by (vm_compute; reflexivity).
  split; [exact Hs|].
  exact (awaiting_flags_mutually_exclusive Sample.get_answer Sample.lower Sample.bus_data
           Sample.asked_to_cancel "S1" _ reachable_asked_to_cancel Hs).
Defined.

Lemma pending_bookings_linked_to_flag_witness :
  reachable Sample.get_answer Sample.lower Sample.bus_data Sample.gave_phone ∧
  ∃ s, sessions Sample.gave_phone !! "S1" = Some s ∧
       Session.awaiting_booking_id s = true ∧
       2 ≤ length (Session.pending_bookings s) ∧
       Forall (λ b, status b = "active") (Session.pending_bookings s).
Proof.
  split; [exact reachable_gave_phone|].
  destruct (sessions Sample.gave_phone !! "S1") as [s|] eqn:Hs;
    [|vm_compute in Hs; discriminate].
  exists s. split; [reflexivity|].
  destruct (pending_bookings_linked_to_flag Sample.get_answer Sample.lower Sample.bus_data
              Sample.gave_phone "S1" s reachable_gave_phone Hs) as [Hiff Hlen].
  assert (Session.awaiting_booking_id s = true) as Hflag.
  { vm_compute in Hs. by injection Hs as <-. }
  split; [exact Hflag|]. apply Hlen, Hiff, Hflag.
Defined.

(** ** [strip] and [lower] do not change which keywords a query contains *)

Lemma append_cons c (s t : string) : String c s +:+ t = String c (s +:+ t).
Proof. reflexivity. Qed.

Lemma append_empty_r (s : string) : s +:+ "" = s.
Proof.
  induction s as [|c s IH]; [done|]. by rewrite append_cons, IH.
Qed.

Lemma append_assoc (s1 s2 s3 : string) :
  (s1 +:+ s2) +:+ s3 = s1 +:+ (s2 +:+ s3).
Proof.
  induction s1 as [|c s1 IH]; [done|]. by rewrite !append_cons, IH.
Qed.

Lemma rev_app_eq (s t : string) : String.rev_app s t = String.rev s +:+ t.
Proof.
  revert t. induction s as [|c s IH]; intros t; [done|].
  unfold String.rev. simpl. rewrite (IH (String c t)), (IH (String c "")).
  by rewrite append_assoc.
Qed.

Lemma rev_cons c (s : string) :
  String.rev (String c s) = String.rev s +:+ String c "".
Proof. unfold String.rev at 1. simpl. apply rev_app_eq. Qed.

Lemma rev_append (s t : string) :
  String.rev (s +:+ t) = String.rev t +:+ String.rev s.
Proof.
  induction s as [|c s IH].
  - change ("" +:+ t) with t. by rewrite append_empty_r.
  - by rewrite append_cons, !rev_cons, IH, append_assoc.
Qed.

Lemma rev_involutive (s : string) : String.rev (String.rev s) = s.
Proof.
  induction s as [|c s IH]; [done|]. by rewrite rev_cons, rev_append, IH.
Qed.

Lemma all_space_append (s t : string) :
  all_space (s +:+ t) = all_space s && all_space t.
Proof.
  induction s as [|c s IH]; [done|].
  rewrite append_cons. simpl. by rewrite IH, andb_assoc.
Qed.

Lemma all_space_rev (s : string) : all_space (String.rev s) = all_space s.
Proof.
  induction s as [|c s IH]; [done|].
  rewrite rev_cons, all_space_append, IH. simpl.
  by rewrite andb_true_r, andb_comm.
Qed.

Lemma space_byte_is_space c : Py.is_space c = true → space_byte c = true.
Proof. unfold space_byte. by intros ->. Qed.

Lemma space_byte_is_space2 c1 c2 :
  Py.is_space2 c1 c2 = true → space_byte c1 = true ∧ space_byte c2 = true.
Proof.
  unfold Py.is_space2, space_byte. intros H.
  apply andb_true_iff in H as [H1%N.eqb_eq H2%orb_true_iff].
  split; apply orb_true_iff; right; apply N.leb_le; [lia|].
  destruct H2 as [H2%N.eqb_eq|H2%N.eqb_eq]; lia.
Qed.

Lemma space_byte_is_space3 c1 c2 c3 :
  Py.is_space3 c1 c2 c3 = true →
  space_byte c1 = true ∧ space_byte c2 = true ∧ space_byte c3 = true.
Proof.
  unfold Py.is_space3, space_byte. intros H.
  rewrite !orb_true_iff, !andb_true_iff, !orb_true_iff, !andb_true_iff,
    !N.eqb_eq, !N.leb_le in H.
  repeat split; apply orb_true_iff; right; apply N.leb_le; lia.
Qed.

(** [strip_front] removes a run of whitespace at the front. *)
Lemma strip_front_split backwards (s : string) :
  ∃ ws, all_space ws = true ∧ s = ws +:+ Py.strip_front backwards s.
Proof.
  assert (∀ n s, String.length s ≤ n →
            ∃ ws, all_space ws = true ∧ s = ws +:+ Py.strip_front backwards s)
    as H; [|by apply (H (String.length s))].
  clear s. induction n as [|n IH]; intros s Hn.
  { destruct s; [by exists ""|simpl in Hn; lia]. }
  destruct s as [|c1 s1]; [by exists ""|].
  change (Py.strip_front backwards (String c1 s1)) with
    (if Py.is_space c1 then Py.strip_front backwards s1
     else
       match s1 with
       | "" => String c1 s1
       | String c2 s2 =>
           if (if backwards then Py.is_space2 c2 c1 else Py.is_space2 c1 c2)
           then Py.strip_front backwards s2
           else
             match s2 with
             | "" => String c1 s1
             | String c3 s3 =>
                 if (if backwards then Py.is_space3 c3 c2 c1
                     else Py.is_space3 c1 c2 c3)
                 then Py.strip_front backwards s3
                 else String c1 s1
             end
       end).
  simpl in Hn.
  destruct (Py.is_space c1) eqn:E1.
  { destruct (IH s1) as (ws & Hws & E); [lia|].
    exists (String c1 ws). split.
    - simpl. by rewrite (space_byte_is_space _ E1).
    - by rewrite append_cons, <- E. }
  destruct s1 as [|c2 s2]; [by exists ""|]. simpl in Hn.
  destruct (if backwards then Py.is_space2 c2 c1 else Py.is_space2 c1 c2)
    eqn:E2.
  { destruct (IH s2) as (ws & Hws & E); [lia|].
    assert (space_byte c1 = true ∧ space_byte c2 = true) as [H1 H2].
    { destruct backwards;
        [apply space_byte_is_space2 in E2 as [? ?]
        |apply space_byte_is_space2 in E2 as [? ?]]; by split. }
    exists (String c1 (String c2 ws)). split.
    - simpl. by rewrite H1, H2.
    - by rewrite !append_cons, <- E. }
  destruct s2 as [|c3 s3]; [by exists ""|]. simpl in Hn.
  destruct (if backwards then Py.is_space3 c3 c2 c1 else Py.is_space3 c1 c2 c3)
    eqn:E3; [|by exists ""].
  destruct (IH s3) as (ws & Hws & E); [lia|].
  assert (space_byte c1 = true ∧ space_byte c2 = true ∧ space_byte c3 = true)
    as (H1 & H2 & H3).
  { destruct backwards;
      [apply space_byte_is_space3 in E3 as (? & ? & ?)
      |apply space_byte_is_space3 in E3 as (? & ? & ?)]; by repeat split. }
  exists (String c1 (String c2 (String c3 ws))). split.
  - simpl. by rewrite H1, H2, H3.
  - by rewrite !append_cons, <- E.
Qed.

(** [lstrip] removes a run of whitespace at the front. *)
Lemma lstrip_split (s : string) :
  ∃ ws, all_space ws = true ∧ s = ws +:+ Py.lstrip s.
Proof. apply strip_front_split. Qed.

(** [rstrip] removes a run of whitespace at the end. *)
Lemma rstrip_split (s : string) :
  ∃ ws, all_space ws = true ∧ s = Py.rstrip s +:+ ws.
Proof.
  destruct (strip_front_split true (String.rev s)) as (ws & Hws & E).
  exists (String.rev ws). split; [by rewrite all_space_rev|].
  unfold Py.rstrip. rewrite <- rev_append, <- E. by rewrite rev_involutive.
Qed.

Lemma strip_split (s : string) :
  ∃ ws1 ws2, all_space ws1 = true ∧ all_space ws2 = true ∧
             s = ws1 +:+ Py.strip s +:+ ws2.
Proof.
  destruct (lstrip_split s) as (ws1 & H1 & E1).
  destruct (rstrip_split (Py.lstrip s)) as (ws2 & H2 & E2).
  exists ws1, ws2. unfold Py.strip. by rewrite <- E2, <- E1.
Qed.

Lemma lower_append (s t : string) :
  Py.lower (s +:+ t) = Py.lower s +:+ Py.lower t.
Proof.
  induction s as [|c s IH]; [done|].
  rewrite append_cons. simpl. by rewrite IH.
Qed.

Lemma space_byte_lower_char c : space_byte (Py.lower_char c) = space_byte c.
Proof. by destruct c as [[] [] [] [] [] [] [] []]. Qed.

Lemma all_space_lower (s : string) : all_space (Py.lower s) = all_space s.
Proof.
  induction s as [|c s IH]; [done|].
  simpl. by rewrite space_byte_lower_char, IH.
Qed.

Lemma prefix_cons c1 k c2 (s : string) :
  String.prefix (String c1 k) (String c2 s)
  = if decide (c1 = c2) then String.prefix k s else false.
Proof. simpl. destruct (ascii_dec c1 c2), (decide (c1 = c2)); done. Qed.

(** A word without whitespace is a prefix of [t] followed by whitespace
    only if it is one of [t]. *)
Lemma prefix_append_space k (t ws : string) :
  plain_word k = true → all_space ws = true →
  String.prefix k (t +:+ ws) = String.prefix k t.
Proof.
  revert k. induction t as [|c t IH]; intros k Hk Hws.
  - change ("" +:+ ws) with ws. destruct k as [|k0 k]; [by destruct ws|].
    destruct ws as [|w ws]; [done|].
    rewrite prefix_cons. case_decide as E; [|done].
    simpl in Hk, Hws. rewrite E in Hk.
    apply andb_true_iff in Hws as [Hw _]. by rewrite Hw in Hk.
  - rewrite append_cons. destruct k as [|k0 k]; [done|].
    rewrite !prefix_cons. case_decide; [|done].
    apply IH; [|done]. simpl in Hk. by apply andb_true_iff in Hk as [_ ?].
Qed.

Lemma contains_unfold needle hay :
  Py.contains needle hay =
  String.prefix needle hay ||
  match hay with
  | "" => false
  | String _ hay' => Py.contains needle hay'
  end.
Proof. by destruct hay. Qed.

Lemma contains_space_before k0 k (ws t : string) :
  plain_word (String k0 k) = true → all_space ws = true →
  Py.contains (String k0 k) (ws +:+ t) = Py.contains (String k0 k) t.
Proof.
  intros Hk. induction ws as [|w ws IH]; intros Hws; [done|].
  rewrite append_cons, contains_unfold, prefix_cons.
  simpl in Hws. apply andb_true_iff in Hws as [Hw Hws].
  case_decide as E; [|by apply IH].
  simpl in Hk. rewrite E, Hw in Hk. done.
Qed.

Lemma contains_space_after k0 k (t ws : string) :
  plain_word (String k0 k) = true → all_space ws = true →
  Py.contains (String k0 k) (t +:+ ws) = Py.contains (String k0 k) t.
Proof.
  intros Hk Hws. induction t as [|c t IH].
  - rewrite <- (append_empty_r ws) at 1.
    change ("" +:+ ws +:+ "") with (ws +:+ ""). by apply contains_space_before.
  - rewrite append_cons, (contains_unfold _ (String c t)),
      (contains_unfold _ (String c (t +:+ ws))), IH.
    f_equal. rewrite <- append_cons. by apply prefix_append_space.
Qed.

(** A keyword occurs in the lowered stripped query exactly when it occurs
    in the lowered query. *)
Lemma contains_lower_strip k0 k (query : string) :
  plain_word (String k0 k) = true →
  Py.contains (String k0 k) (Py.lower (Py.strip query))
  = Py.contains (String k0 k) (Py.lower query).
Proof.
  intros Hk. destruct (strip_split query) as (ws1 & ws2 & H1 & H2 & E).
  rewrite E at 2. rewrite !lower_append.
  rewrite contains_space_before, contains_space_after;
    by rewrite ?all_space_lower.
Qed.

Lemma has_cancel_keyword_strip (query : string) :
  has_cancel_keyword (Py.lower (Py.strip query))
  = has_cancel_keyword (Py.lower query).
Proof.
  unfold has_cancel_keyword. simpl.
  by rewrite !contains_lower_strip.
Qed.

(** ** The cancellation dialogue *)

Lemma or_str_not_truthy (a : option string) (b : string) :
  Py.truthy a = false → Py.or_str a b = b.
Proof.
  destruct a as [s|]; simpl; [|done].
  destruct (String.eqb s ""); [done | discriminate].
Qed.

Lemma find_has_booking_id_Some bid (l : list Booking) :
  (∃ b, b ∈ l ∧ booking_id b = bid) →
  ∃ b, List.find (has_booking_id bid) l = Some b.
Proof.
  intros (b & Hb & Hid).
  destruct (List.find (has_booking_id bid) l) as [b'|] eqn:E; [by exists b'|].
  apply list_elem_of_In in Hb.
  pose proof (find_none _ _ E b Hb) as Hn. unfold has_booking_id in Hn.
  apply String_eqb_false in Hn. done.
Qed.

Lemma find_has_booking_id_None bid (l : list Booking) :
  (∀ b, b ∈ l → booking_id b ≠ bid) →
  List.find (has_booking_id bid) l = None.
Proof.
  intros H. destruct (List.find (has_booking_id bid) l) as [b|] eqn:E; [|done].
  apply find_some in E as [Hb Hid]. apply list_elem_of_In in Hb.
  apply String_eqb_true in Hid. by destruct (H b Hb).
Qed.

Lemma get_bookings_by_phone_elem b phone db :
  b ∈ get_bookings_by_phone phone db → b ∈ bookings db.
Proof.
  unfold get_bookings_by_phone. rewrite order_by_desc_Permutation.
  intros Hb%list_elem_of_In. apply filter_In in Hb as [Hb _].
  by apply list_elem_of_In.
Qed.

Lemma active_elem b phone db :
  b ∈ List.filter is_active (get_bookings_by_phone phone db) →
  b ∈ bookings db ∧ status b = "active".
Proof.
  intros Hb%list_elem_of_In. apply filter_In in Hb as [Hb Hst].
  split; [|by apply String_eqb_true].
  eapply get_bookings_by_phone_elem. by apply list_elem_of_In.
Qed.

Lemma active_unique_ids phone db :
  unique_ids db →
  NoDup (map booking_id
           (List.filter is_active (get_bookings_by_phone phone db))).
Proof.
  intros H. apply NoDup_map_filter. unfold get_bookings_by_phone.
  rewrite order_by_desc_Permutation. by apply NoDup_map_filter.
Qed.

Lemma msg_lines_enumeration message (l : list Booking) :
  msg_lines message l = message +:+ enumeration l.
Proof.
  revert message. induction l as [|b l IH]; intros message; simpl.
  - by rewrite append_empty_r.
  - by rewrite IH, append_assoc.
Qed.

Section Dialogue.
Import SessionUpdate.
Variable get_answer : string → outcome string.
Variable lower : string → string.
Variable bus_data : BusData.

Local Abbreviation reachable := (reachable get_answer lower bus_data).
Local Abbreviation query_smart := (query_smart get_answer).
Local Abbreviation query_smart_session := (query_smart_session get_answer).

Lemma session_of_stored sid w :
  Session.awaiting_booking_id (session_of sid w) = true ∨
  Session.awaiting_phone_for_cancel (session_of sid w) = true →
  sessions w !! sid = Some (session_of sid w).
Proof.
  unfold session_of. destruct (sessions w !! sid); simpl; [done|].
  by intros [?|?].
Qed.

Lemma idle_no_pending s :
  session_ok s → Session.awaiting_booking_id s = false →
  Session.pending_bookings s = [].
Proof.
  intros [_ [Hiff _]] Hflag.
  destruct (Session.pending_bookings s) as [|b l]; [done|].
  assert (Session.awaiting_booking_id s = true) by (by apply Hiff).
  congruence.
Qed.

Lemma not_both_flags s :
  session_ok s → Session.awaiting_phone_for_cancel s = true →
  Session.awaiting_booking_id s = false.
Proof.
  intros [Hex _] Hph.
  destruct (Session.awaiting_booking_id s) eqn:E; [|done].
  by destruct Hex.
Qed.

(** C3.  In state AWAITING_PHONE the whole (stripped) query text is taken
    as the phone, whatever it contains: a leading ["+88"] is removed, the
    result is stored as the session's phone and the flag is cleared, which
    leaves the session idle, and the request then is exactly the
    cancel-resolution procedure run from that session with that phone.
    The phone is still stored and the flag still clear afterwards. *)
Theorem awaiting_phone_query_is_phone env request w :
  let sid := Py.or_str (QueryRequest.session_id request) (uuid4 env) in
  let s := session_of sid w in
  reachable w →
  is_awaiting_phone s →
  let phone :=
    strip_country_prefix (Py.strip (QueryRequest.query request)) in
  let s0 := set_awaiting_phone_for_cancel false (set_phone phone s) in
  let logged :=
    save_chat_message env sid "user" (QueryRequest.query request)
      (QueryRequest.phone request) (db w) in
  let r := cancel_resolution env sid phone s0 logged in
  Session.phone s0 = Some phone ∧
  is_idle s0 ∧
  query_smart env request w
  = (Returned (r.1.1, sid),
     {| sessions := <[sid := r.1.2]> (sessions w); db := r.2 |}) ∧
  Session.phone r.1.2 = Some phone ∧
  Session.awaiting_phone_for_cancel r.1.2 = false.
Proof.
  intros sid s Hr Hph phone s0 logged r.
  pose proof (reachable_session_of_ok get_answer lower bus_data sid w Hr) as Hok.
  fold s in Hok.
  split; [done|]. split.
  { split; [|done]. simpl. by apply not_both_flags. }
  split.
  { rewrite query_smart_eq. fold sid. fold s.
    by rewrite (awaiting_phone_runs_resolution get_answer env request sid s
                  (db w) Hph). }
  subst r. unfold cancel_resolution.
  by destruct (List.filter is_active _) as [|b [|b' l]].
Qed.

(** X27.  In state AWAITING_BOOKING_CHOICE, a query text equal to the
    identifier of an entry of [pending_bookings] runs [cancel_booking] on the
    identifier, clears [pending_bookings], leaves the session idle and
    replies with the confirmation naming the identifier; afterwards every
    row with the identifier has status cancelled.  If the entry matched is
    still a row of the table, that row is the one rewritten, to cancelled
    with the cancellation date, and no other row changes; if no row has
    the identifier any more, no row changes.  A query text equal to no
    entry's identifier leaves the session and the bookings as they are and
    replies with the not-found message. *)
Theorem booking_choice_exact_match env request w :
  let sid := Py.or_str (QueryRequest.session_id request) (uuid4 env) in
  let s := session_of sid w in
  reachable w →
  is_awaiting_booking_choice s →
  let query_text := Py.strip (QueryRequest.query request) in
  let logged :=
    save_chat_message env sid "user" (QueryRequest.query request)
      (QueryRequest.phone request) (db w) in
  let now := now_isoformat env in
  ((∃ b, b ∈ Session.pending_bookings s ∧ booking_id b = query_text) →
     let s' := set_pending_bookings [] (set_awaiting_booking_id false s) in
     let db' := (cancel_booking env query_text logged).2 in
     let reply :=
       "‚úÖ Booking " +:+ query_text +:+ " has been cancelled successfully." in
     query_smart env request w
     = (Returned (reply, sid),
        {| sessions := <[sid := s']> (sessions w);
           db := save_chat_message (at_reply env) sid "assistant" reply
                   (Session.phone s) db' |}) ∧
     is_idle s' ∧ Session.pending_bookings s' = [] ∧
     (∀ r, r ∈ bookings db' → booking_id r = query_text →
           status r = "cancelled") ∧
     (∀ b, b ∈ Session.pending_bookings s → booking_id b = query_text →
           b ∈ bookings (db w) →
           ∃ l1 l2, bookings (db w) = l1 ++ b :: l2 ∧
                    bookings db' = l1 ++ set_cancelled now b :: l2) ∧
     ((∀ r, r ∈ bookings (db w) → booking_id r ≠ query_text) →
        bookings db' = bookings (db w))) ∧
  ((∀ b, b ∈ Session.pending_bookings s → booking_id b ≠ query_text) →
     let reply :=
       "‚ùå Booking ID " +:+ query_text +:+ " not found. Please check again." in
     query_smart env request w
     = (Returned (reply, sid),
        {| sessions := sessions w;
           db := save_chat_message (at_reply env) sid "assistant" reply
                   (Session.phone s) logged |}) ∧
     sessions w !! sid = Some s ∧
     bookings (db (query_smart env request w).2) = bookings (db w)).
Proof.
  intros sid s Hr Hid query_text logged now.
  unfold is_awaiting_booking_choice in Hid.
  pose proof (reachable_world_ok get_answer lower bus_data w Hr)
    as [Hss [Hnd Hst]].
  pose proof (reachable_session_of_ok get_answer lower bus_data sid w Hr)
    as Hok.
  fold s in Hok.
  assert (Session.awaiting_phone_for_cancel s = false) as Hph.
  { destruct (Session.awaiting_phone_for_cancel s) eqn:E; [|done].
    by rewrite (not_both_flags s Hok E) in Hid. }
  split.
  - intros Hfound.
    apply find_has_booking_id_Some in Hfound as [b Hfind].
    split; [|split; [|split; [|split; [|split]]]].
    + rewrite query_smart_eq. fold sid. fold s.
      unfold query_smart_session. rewrite Hph, Hid.
      fold query_text. by rewrite Hfind.
    + done.
    + done.
    + intros r Hin Hrid. rewrite bookings_cancel_booking in Hin.
      apply list_elem_of_fmap in Hin as (r0 & -> & Hr0).
      rewrite cancel_row_booking_id in Hrid.
      rewrite Forall_forall in Hst. specialize (Hst r0 Hr0).
      unfold cancel_row.
      destruct (cancel_matches query_text r0) eqn:E; [done|].
      destruct Hst as [Hact|Hcan]; [|done].
      exfalso. apply not_true_iff_false in E. apply E.
      by apply cancel_matches_true.
    + intros b0 Hpend Hb0 Hin. rewrite bookings_cancel_booking.
      apply map_cancel_row_unique; [done..|].
      destruct Hok as [_ [_ Hact]].
      assert (Session.pending_bookings s ≠ []) as Hne
        by (intros E; rewrite E in Hpend; by apply elem_of_nil in Hpend).
      destruct (Hact Hne) as [_ Hall].
      rewrite Forall_forall in Hall. by apply Hall.
    + intros Hnone. rewrite bookings_cancel_booking.
      apply map_cancel_row_other, Forall_forall. exact Hnone.
  - intros Hnone reply. apply find_has_booking_id_None in Hnone.
    assert (sessions w !! sid = Some s) as Hs
      by (apply session_of_stored; by left).
    assert (query_smart_session env request sid s (db w)
            = (Returned reply, s,
               save_chat_message (at_reply env) sid "assistant" reply
                 (Session.phone s) logged)) as E.
    { unfold query_smart_session. rewrite Hph, Hid.
      fold query_text. by rewrite Hnone. }
    rewrite query_smart_eq. fold sid. fold s. rewrite E. simpl.
    by rewrite insert_id.
Qed.

(** C5.  In state IDLE, for a query that contains a cancellation keyword
    whatever its letter case, and with neither a hinted nor a stored phone,
    the session goes to AWAITING_PHONE, the reply is the sentence asking for
    the phone number, logged as the assistant's message, and
    [pending_bookings] (like the stored phone and the bookings) is not
    touched. *)
Theorem cancel_without_phone_asks_for_phone env request w :
  let sid := Py.or_str (QueryRequest.session_id request) (uuid4 env) in
  let s := session_of sid w in
  is_idle s →
  has_cancel_keyword (Py.lower (QueryRequest.query request)) = true →
  Py.truthy (QueryRequest.phone request) = false →
  Py.truthy (Session.phone s) = false →
  let s' := set_awaiting_phone_for_cancel true s in
  let logged :=
    save_chat_message env sid "user" (QueryRequest.query request)
      (QueryRequest.phone request) (db w) in
  let reply :=
    "üì± To cancel your booking, please provide your phone number." in
  query_smart env request w
  = (Returned (reply, sid),
     {| sessions := <[sid := s']> (sessions w);
        db := save_chat_message (at_reply env) sid "assistant" reply None
                logged |}) ∧
  is_awaiting_phone s' ∧
  Session.awaiting_booking_id s' = false ∧
  Session.pending_bookings s' = Session.pending_bookings s ∧
  Session.phone s' = Session.phone s ∧
  bookings (db (query_smart env request w).2) = bookings (db w).
Proof.
  intros sid s [Hid Hph] Hkw Hhint Hstored s' logged reply.
  rewrite <- has_cancel_keyword_strip in Hkw.
  assert (query_smart_session env request sid s (db w)
          = (Returned reply, s',
             save_chat_message (at_reply env) sid "assistant" reply None
               logged))
    as E.
  { unfold query_smart_session. rewrite Hph, Hid, Hkw.
    by rewrite !or_str_not_truthy. }
  rewrite query_smart_eq. fold sid. fold s. rewrite E. by repeat split.
Qed.

End Dialogue.

(** ** Resolution from either way in *)

Lemma has_part_here needle after : has_part needle (needle +:+ after).
Proof. by exists "", after. Qed.

Lemma has_part_app_l needle a s : has_part needle s → has_part needle (a +:+ s).
Proof.
  intros (x & y & ->). exists (a +:+ x), y. by rewrite append_assoc.
Qed.

Lemma has_part_app_r needle s t : has_part needle s → has_part needle (s +:+ t).
Proof.
  intros (x & y & ->). exists x, (y +:+ t). by rewrite !append_assoc.
Qed.

Lemma occurrences_unfold needle hay :
  occurrences needle hay =
  (if String.prefix needle hay then 1 else 0) +
  match hay with
  | "" => 0
  | String _ hay' => occurrences needle hay'
  end.
Proof. by destruct hay. Qed.

Lemma occurrences_has_part needle s :
  has_part needle s → 1 ≤ occurrences needle s.
Proof.
  intros (x & y & ->). induction x as [|c x IH].
  - change ("" +:+ needle +:+ y) with (needle +:+ y).
    rewrite occurrences_unfold.
    pose proof (startswith_app needle y) as Hp. unfold Py.startswith in Hp.
    rewrite Hp. lia.
  - change (String c x +:+ needle +:+ y) with (String c (x +:+ needle +:+ y)).
    rewrite occurrences_unfold. lia.
Qed.

Lemma has_part_enumeration_line b :
  has_part (booking_id b) (enumeration_line b).
Proof.
  unfold enumeration_line. do 6 apply has_part_app_l. apply has_part_here.
Qed.

Lemma has_part_enumeration b (l : list Booking) :
  b ∈ l → has_part (booking_id b) (enumeration l).
Proof.
  induction 1 as [b l|b b' l _ IH]; simpl.
  - apply has_part_app_r, has_part_enumeration_line.
  - by apply has_part_app_l.
Qed.

Lemma msg_multiple_eq (l : list Booking) :
  msg_multiple l =
  ("You have multiple active bookings:" +:+ Py.nl) +:+ enumeration l
  +:+ (Py.nl +:+ "Please provide the Booking ID you want to cancel.").
Proof. unfold msg_multiple. by rewrite msg_lines_enumeration, append_assoc. Qed.

Section Resolution.
Import SessionUpdate.
Variable get_answer : string → outcome string.
Variable lower : string → string.
Variable bus_data : BusData.

Local Abbreviation reachable := (reachable get_answer lower bus_data).
Local Abbreviation query_smart := (query_smart get_answer).
Local Abbreviation query_smart_session := (query_smart_session get_answer).

(** Either way in, the handler runs the resolution from an idle session
    with no pending bookings. *)
Lemma enters_resolution_runs env request w phone :
  let sid := Py.or_str (QueryRequest.session_id request) (uuid4 env) in
  let s := session_of sid w in
  reachable w →
  enters_resolution request s phone →
  ∃ s0, is_idle s0 ∧ Session.pending_bookings s0 = [] ∧
    query_smart_session env request sid s (db w) =
    replied
      (cancel_resolution env sid phone s0
         (save_chat_message env sid "user" (QueryRequest.query request)
            (QueryRequest.phone request) (db w))).
Proof.
  intros sid s Hr Henter.
  pose proof (reachable_session_of_ok get_answer lower bus_data sid w Hr) as Hok.
  fold s in Hok.
  destruct Henter as [Hph|[Hid Hph] Hkw Hphone].
  - unfold is_awaiting_phone in Hph.
    pose proof (not_both_flags s Hok Hph) as Hid.
    exists (set_awaiting_phone_for_cancel false
              (set_phone
                 (strip_country_prefix (Py.strip (QueryRequest.query request)))
                 s)).
    split; [by split|]. split.
    + simpl. by apply idle_no_pending.
    + by apply awaiting_phone_runs_resolution.
  - exists (set_phone
              (strip_country_prefix
                 (Py.strip (Py.or_str (QueryRequest.phone request)
                              (Py.or_str (Session.phone s) "")))) s).
    split; [by split|]. split.
    + simpl. by apply idle_no_pending.
    + rewrite <- has_cancel_keyword_strip in Hkw.
      by apply trigger_runs_resolution.
Qed.

(** C7.  For a phone with exactly one active booking, either way in: that
    booking's row goes from active to cancelled and no other row changes,
    the reply is the sentence confirming the cancellation with the
    booking's identifier in it, and the session is idle with no pending
    bookings. *)
Theorem single_active_booking_is_cancelled env request w phone b :
  let sid := Py.or_str (QueryRequest.session_id request) (uuid4 env) in
  reachable w →
  enters_resolution request (session_of sid w) phone →
  List.filter is_active (get_bookings_by_phone phone (db w)) = [b] →
  let r := query_smart env request w in
  let now := now_isoformat env in
  status b = "active" ∧
  status (set_cancelled now b) = "cancelled" ∧
  (∃ l1 l2, bookings (db w) = l1 ++ b :: l2 ∧
            bookings (db r.2) = l1 ++ set_cancelled now b :: l2) ∧
  r.1 = Returned
          ("‚úÖ Booking " +:+ booking_id b
           +:+ " has been cancelled successfully.", sid) ∧
  ∃ s', sessions r.2 !! sid = Some s' ∧
        Session.pending_bookings s' = [] ∧ is_idle s'.
Proof.
  intros sid Hr Henter Hone r now.
  pose proof (reachable_world_ok get_answer lower bus_data w Hr) as [_ [Hnd _]].
  destruct (enters_resolution_runs env request w phone Hr Henter)
    as (s0 & Hidle & Hpend & Hrun).
  fold sid in Hrun.
  rewrite (cancel_resolution_one env sid phone s0 _ b) in Hrun by done.
  assert (b ∈ bookings (db w) ∧ status b = "active") as [Hb Hact].
  { apply (active_elem b phone (db w)). rewrite Hone. by left. }
  subst r. rewrite query_smart_eq. fold sid. rewrite Hrun.
  unfold replied. simpl.
  split; [done|]. split; [done|]. split.
  { by apply map_cancel_row_unique. }
  split; [done|].
  exists s0. by rewrite lookup_insert_eq.
Qed.

(** C6 (as amended).  For a phone with N>1 active bookings, either way in:
    [pending_bookings] becomes the list of the N bookings, the session
    awaits the choice, and the reply is the heading, one line per booking
    in that order, each ending in the booking's identifier as
    [(ID: ...)], and the prompt.  The identifiers of the lines are
    pairwise distinct and each occurs in the reply at least once; the
    bookings are not changed. *)
Theorem multiple_active_bookings_are_enumerated env request w phone :
  let sid := Py.or_str (QueryRequest.session_id request) (uuid4 env) in
  reachable w →
  enters_resolution request (session_of sid w) phone →
  let active := List.filter is_active (get_bookings_by_phone phone (db w)) in
  1 < length active →
  let r := query_smart env request w in
  let reply :=
    ("You have multiple active bookings:" +:+ Py.nl) +:+ enumeration active
    +:+ (Py.nl +:+ "Please provide the Booking ID you want to cancel.") in
  (∃ s', sessions r.2 !! sid = Some s' ∧
         Session.pending_bookings s' = active ∧
         is_awaiting_booking_choice s' ∧
         Session.awaiting_phone_for_cancel s' = false) ∧
  r.1 = Returned (reply, sid) ∧
  NoDup (map booking_id active) ∧
  (∀ b, b ∈ active → 1 ≤ occurrences (booking_id b) reply) ∧
  bookings (db r.2) = bookings (db w).
Proof.
  intros sid Hr Henter active Hmany r reply.
  pose proof (reachable_world_ok get_answer lower bus_data w Hr) as [_ [Hnd _]].
  destruct (enters_resolution_runs env request w phone Hr Henter)
    as (s0 & [Hid0 Hph0] & Hpend & Hrun).
  fold sid in Hrun.
  rewrite cancel_resolution_many in Hrun by done.
  rewrite get_bookings_by_phone_save_chat_message in Hrun. fold active in Hrun.
  subst r. rewrite query_smart_eq. fold sid. rewrite Hrun.
  unfold replied. cbn [fst snd reply_of db sessions].
  split.
  { eexists. rewrite lookup_insert_eq. by split. }
  split; [by rewrite msg_multiple_eq|].
  split; [by apply active_unique_ids|].
  split; [|done].
  intros b Hb. apply occurrences_has_part.
  by apply has_part_app_l, has_part_app_r, has_part_enumeration.
Qed.

End Resolution.

(** ** The handlers on the sample runs *)

Lemma sample_trigger w :
  sessions w = ∅ →
  enters_resolution Sample.cancel_with_phone
    (session_of (Py.or_str (QueryRequest.session_id Sample.cancel_with_phone)
                   (uuid4 Sample.env)) w)
    "01711000000".
Proof.
  intros Hw. unfold session_of. rewrite Hw, lookup_empty.
  refine (enters_by_trigger Sample.cancel_with_phone Session.fresh _ _ _).
  - by split.
  - reflexivity.
  - discriminate.
Qed.

Lemma awaiting_phone_query_is_phone_witness :
  let request :=
    Sample.request "S1" (Sample.nbsp +:+ "+8801711000000" +:+ " ") in
  reachable Sample.get_answer Sample.lower Sample.bus_data
    Sample.asked_to_cancel ∧
  is_awaiting_phone (session_of "S1" Sample.asked_to_cancel) ∧
  ∃ s', sessions (query_smart Sample.get_answer Sample.env request
                    Sample.asked_to_cancel).2 !! "S1" = Some s' ∧
        Session.phone s' = Some "01711000000" ∧
        Session.awaiting_phone_for_cancel s' = false.
Proof.
  intros request.
  assert (is_awaiting_phone (session_of "S1" Sample.asked_to_cancel)) as Hph
    by (vm_compute; reflexivity).
  split; [exact reachable_asked_to_cancel|]. split; [exact Hph|].
  destruct (awaiting_phone_query_is_phone Sample.get_answer Sample.lower
              Sample.bus_data Sample.env request
              Sample.asked_to_cancel reachable_asked_to_cancel Hph)
    as (_ & _ & Heq & Hphone & Hflag).
  eexists. split; [|split; [exact Hphone | exact Hflag]].
  rewrite Heq. apply lookup_insert_eq.
Defined.

Lemma booking_choice_exact_match_witness :
  reachable Sample.get_answer Sample.lower Sample.bus_data Sample.gave_phone ∧
  is_awaiting_booking_choice (session_of "S1" Sample.gave_phone) ∧
  (∃ b, b ∈ Session.pending_bookings (session_of "S1" Sample.gave_phone) ∧
        booking_id b = Py.strip ("BK00002" +:+ Sample.nbsp)) ∧
  (Sample.ask "S1" ("BK00002" +:+ Sample.nbsp) Sample.gave_phone).1
  = Returned ("‚úÖ Booking BK00002 has been cancelled successfully.", "S1").
Proof.
  assert (is_awaiting_booking_choice (session_of "S1" Sample.gave_phone))
    as Hid by (vm_compute; reflexivity).
  assert (∃ b, b ∈ Session.pending_bookings (session_of "S1" Sample.gave_phone)
               ∧ booking_id b = Py.strip ("BK00002" +:+ Sample.nbsp))
    as Hfound.
  { destruct (Session.pending_bookings (session_of "S1" Sample.gave_phone))
      as [|b1 [|b2 l]] eqn:E; [vm_compute in E; discriminate ..|].
    exists b2. split; [right; left|].
    vm_compute in E. injection E as _ <- _. reflexivity. }
  split; [exact reachable_gave_phone|]. split; [exact Hid|].
  split; [exact Hfound|].
  destruct (proj1 (booking_choice_exact_match Sample.get_answer Sample.lower
                     Sample.bus_data Sample.env
                     (Sample.request "S1" ("BK00002" +:+ Sample.nbsp))
                     Sample.gave_phone reachable_gave_phone Hid) Hfound)
    as (Heq & _).
  unfold Sample.ask. by rewrite Heq.
Defined.

(** C4 (evaluation at the failing runs).  Session S1 has been offered
    BK00001 and BK00002 and awaits the choice.

    First run: BK00001 is deleted permanently, then S1 chooses BK00001.
    The text is the identifier of an entry of [pending_bookings], and the
    reply confirms the cancellation of BK00001; but [cancel_booking]
    returns false on it and no booking row has changed.  The same
    identifier sent to DELETE /bookings/BK00001 is answered 404.

    Second run: BK00002 is deleted permanently and another customer books,
    which issues BK00002 again; then S1 chooses BK00002.  The booking that
    is cancelled is the other customer's. *)
Theorem booking_choice_confirms_stale_entry :
  let offered w :=
    map (λ b, (booking_id b, phone b))
      (Session.pending_bookings (session_of "S1" w)) in
  let stored w := map (λ b, (booking_id b, phone b, status b)) (bookings (db w)) in
  let confirmation bid :=
    "‚úÖ Booking " +:+ bid +:+ " has been cancelled successfully." in
  let chosen := Sample.ask "S1" "BK00001" Sample.stale_choice in
  let reissued := Sample.ask "S1" "BK00002" Sample.reissued_choice in
  (reachable Sample.get_answer Sample.lower Sample.bus_data
     Sample.stale_choice ∧
   is_awaiting_booking_choice (session_of "S1" Sample.stale_choice) ∧
   offered Sample.stale_choice
   = [("BK00001", "01711000000"); ("BK00002", "01711000000")] ∧
   stored Sample.stale_choice = [("BK00002", "01711000000", "active")] ∧
   chosen.1 = Returned (confirmation "BK00001", "S1") ∧
   is_idle (session_of "S1" chosen.2) ∧
   bookings (db chosen.2) = bookings (db Sample.stale_choice) ∧
   (cancel_booking Sample.env "BK00001" (db Sample.stale_choice)).1 = false ∧
   (delete_booking_endpoint Sample.env "BK00001" false
      (db Sample.stale_choice)).1
   = Raised (HTTPException 404 "Booking not found")) ∧
  (reachable Sample.get_answer Sample.lower Sample.bus_data
     Sample.reissued_choice ∧
   is_awaiting_booking_choice (session_of "S1" Sample.reissued_choice) ∧
   offered Sample.reissued_choice
   = [("BK00001", "01711000000"); ("BK00002", "01711000000")] ∧
   stored Sample.reissued_choice
   = [("BK00001", "01711000000", "active");
      ("BK00002", "01999000000", "active")] ∧
   reissued.1 = Returned (confirmation "BK00002", "S1") ∧
   stored reissued.2
   = [("BK00001", "01711000000", "active");
      ("BK00002", "01999000000", "cancelled")]).
Proof.
  intros offered stored confirmation chosen reissued. split.
  - split; [exact reachable_stale_choice|].
    repeat split; vm_compute; reflexivity.
  - split; [exact reachable_reissued_choice|].
    repeat split; vm_compute; reflexivity.
Qed.

Lemma cancel_without_phone_asks_for_phone_witness :
  is_idle (session_of "S1" Sample.two_bookings) ∧
  has_cancel_keyword (Py.lower "I want to CANCEL my ticket") = true ∧
  (Sample.ask "S1" "I want to CANCEL my ticket" Sample.two_bookings).1
  = Returned
      ("üì± To cancel your booking, please provide your phone number.",
       "S1") ∧
  is_awaiting_phone
    (SessionUpdate.set_awaiting_phone_for_cancel true
       (session_of "S1" Sample.two_bookings)).
Proof.
  assert (is_idle (session_of "S1" Sample.two_bookings)) as Hidle
    by (split; reflexivity).
  assert (has_cancel_keyword (Py.lower "I want to CANCEL my ticket") = true)
    as Hkw by reflexivity.
  split; [exact Hidle|]. split; [exact Hkw|].
  destruct (cancel_without_phone_asks_for_phone Sample.get_answer
              Sample.env (Sample.request "S1" "I want to CANCEL my ticket")
              Sample.two_bookings Hidle Hkw eq_refl eq_refl)
    as (Heq & Hph & _).
  split; [|exact Hph]. unfold Sample.ask. by rewrite Heq.
Defined.

Lemma single_active_booking_is_cancelled_witness :
  reachable Sample.get_answer Sample.lower Sample.bus_data Sample.one_booking ∧
  ∃ b, List.filter is_active
         (get_bookings_by_phone "01711000000" (db Sample.one_booking)) = [b] ∧
       booking_id b = "BK00001" ∧
       (query_smart Sample.get_answer Sample.env Sample.cancel_with_phone
          Sample.one_booking).1
       = Returned ("‚úÖ Booking BK00001 has been cancelled successfully.", "S1") ∧
       status b = "active" ∧
       status (set_cancelled (now_isoformat Sample.env) b) = "cancelled".
Proof.
  split; [exact reachable_one_booking|].
  destruct (List.filter is_active
              (get_bookings_by_phone "01711000000" (db Sample.one_booking)))
    as [|b [|b' l]] eqn:E; [vm_compute in E; discriminate | |
                            vm_compute in E; discriminate].
  exists b. split; [reflexivity|].
  destruct (single_active_booking_is_cancelled Sample.get_answer Sample.lower
              Sample.bus_data Sample.env Sample.cancel_with_phone
              Sample.one_booking "01711000000" b reachable_one_booking
              (sample_trigger Sample.one_booking eq_refl) E)
    as (Hact & Hcan & _ & Hreply & _).
  assert (booking_id b = "BK00001") as Hbid
    by (vm_compute in E; by injection E as <-).
  split; [exact Hbid|]. rewrite Hbid in Hreply.
  split; [exact Hreply|]. split; [exact Hact | exact Hcan].
Defined.

Lemma two_active_in_two_bookings :
  1 < length (List.filter is_active
                (get_bookings_by_phone "01711000000" (db Sample.two_bookings))).
Proof. vm_compute. lia. Qed.

Lemma multiple_active_bookings_are_enumerated_witness :
  reachable Sample.get_answer Sample.lower Sample.bus_data Sample.two_bookings ∧
  1 < length (List.filter is_active
                (get_bookings_by_phone "01711000000" (db Sample.two_bookings))) ∧
  NoDup (map booking_id
           (List.filter is_active
              (get_bookings_by_phone "01711000000" (db Sample.two_bookings)))) ∧
  bookings (db (query_smart Sample.get_answer Sample.env
                  Sample.cancel_with_phone Sample.two_bookings).2)
  = bookings (db Sample.two_bookings).
Proof.
  split; [exact reachable_two_bookings|].
  split; [exact two_active_in_two_bookings|].
  destruct (multiple_active_bookings_are_enumerated Sample.get_answer Sample.lower
              Sample.bus_data Sample.env Sample.cancel_with_phone
              Sample.two_bookings "01711000000" reachable_two_bookings
              (sample_trigger Sample.two_bookings eq_refl)
              two_active_in_two_bookings)
    as (_ & _ & Hnd & _ & Hsame).
  split; [exact Hnd | exact Hsame].
Defined.

(** C6 (as the specification words it) fails: with a booking whose travel
    date is the text BK00001, the identifier BK00001 occurs twice in the
    reply that enumerates the two bookings of the phone. *)
Lemma not_every_id_occurs_once :
  ¬ every_id_occurs_once Sample.get_answer Sample.lower Sample.bus_data.
Proof.
  intros H.
  assert (1 < length (List.filter is_active
                        (get_bookings_by_phone "01711000000"
                           (db Sample.odd_date)))) as Hmany
    by (vm_compute; lia).
  destruct (H Sample.env Sample.cancel_with_phone Sample.odd_date
              "01711000000" reachable_odd_date
              (sample_trigger Sample.odd_date eq_refl) Hmany)
    as [_ (message & Hreply & Hocc)].
  vm_compute in Hreply. injection Hreply as <-.
  destruct (List.filter is_active
              (get_bookings_by_phone "01711000000" (db Sample.odd_date)))
    as [|b l] eqn:E; [vm_compute in E; discriminate|].
  specialize (Hocc b (list_elem_of_here b l)).
  vm_compute in E. injection E as <- _.
  vm_compute in Hocc. discriminate.
Qed.

(** * Further properties of the store *)

Lemma existsb_find {A} (p : A → bool) (l : list A) :
  existsb p l = true ↔ is_Some (List.find p l).
Proof.
  induction l as [|a l IH]; simpl.
  - split; [discriminate | by intros [? ?]].
  - destruct (p a); simpl; [|done]. split; [by eexists | done].
Qed.

Lemma find_app_l {A} (p : A → bool) (l1 l2 : list A) x :
  List.find p l1 = Some x → List.find p (l1 ++ l2) = Some x.
Proof.
  induction l1 as [|a l1 IH]; simpl; [done|]. by destruct (p a).
Qed.

Lemma find_app_None {A} (p : A → bool) (l1 l2 : list A) :
  List.find p l1 = None → List.find p (l1 ++ l2) = List.find p l2.
Proof.
  induction l1 as [|a l1 IH]; simpl; [done|]. by destruct (p a).
Qed.

Lemma has_booking_id_true bid b : has_booking_id bid b = true ↔ booking_id b = bid.
Proof. apply String_eqb_true. Qed.

Lemma has_booking_id_false bid b :
  has_booking_id bid b = false ↔ booking_id b ≠ bid.
Proof. apply String_eqb_false. Qed.

Lemma find_filter_other_id bid bid' (l : list Booking) :
  bid' ≠ bid →
  List.find (has_booking_id bid')
    (List.filter (λ b, negb (has_booking_id bid b)) l)
  = List.find (has_booking_id bid') l.
Proof.
  intros Hne. induction l as [|b l IH]; simpl; [done|].
  destruct (has_booking_id bid b) eqn:E; simpl.
  - apply has_booking_id_true in E.
    assert (has_booking_id bid' b = false) as ->; [|done].
    apply has_booking_id_false. congruence.
  - by rewrite IH.
Qed.

Lemma find_filter_same_id bid (l : list Booking) :
  List.find (has_booking_id bid)
    (List.filter (λ b, negb (has_booking_id bid b)) l) = None.
Proof.
  induction l as [|b l IH]; simpl; [done|].
  destruct (has_booking_id bid b) eqn:E; simpl; [done|]. by rewrite E.
Qed.

(** X1.  [create_booking] raises IntegrityError exactly when a booking with
    the identifier is already stored, and then writes nothing.  Otherwise
    it returns the dict it was given, the booking is found under its
    identifier as an active row holding the dict's values, and every other
    identifier is looked up as before. *)
Theorem create_booking_then_lookup env d db :
  let r := create_booking env d db in
  let bid := BookingData.booking_id d in
  (r.1 = Raised IntegrityError ↔ is_Some (get_booking_by_id bid db)) ∧
  (r.1 = Raised IntegrityError → r.2 = db) ∧
  (get_booking_by_id bid db = None →
     r.1 = Returned d ∧
     get_booking_by_id bid r.2 = Some (new_row env (bookings_seq db + 1) d) ∧
     status (new_row env (bookings_seq db + 1) d) = "active" ∧
     length (bookings r.2) = S (length (bookings db)) ∧
     ∀ bid', bid' ≠ bid →
       get_booking_by_id bid' r.2 = get_booking_by_id bid' db).
Proof.
  intros r bid. subst r. unfold create_booking, get_booking_by_id. fold bid.
  pose proof (existsb_find (has_booking_id bid) (bookings db)) as Hex.
  destruct (existsb (has_booking_id bid) (bookings db)) eqn:E; simpl.
  - split; [split; [intros _; by apply Hex | done]|].
    split; [done|]. intros Hnone.
    destruct (proj1 Hex eq_refl) as [b Hb]. congruence.
  - assert (List.find (has_booking_id bid) (bookings db) = None) as Hnone.
    { destruct (List.find _ _) eqn:F; [|done].
      assert (false = true) by (apply Hex; by eexists). done. }
    split.
    { split; [discriminate|]. rewrite Hnone. by intros [? ?]. }
    split; [discriminate|]. intros _.
    split; [done|]. split.
    { rewrite find_app_None by done. simpl.
      unfold has_booking_id at 1. simpl. fold bid.
      by rewrite String.eqb_refl. }
    split; [done|]. split.
    { rewrite length_app. simpl. lia. }
    intros bid' Hne.
    destruct (List.find (has_booking_id bid') (bookings db)) as [b|] eqn:F.
    + by apply find_app_l.
    + rewrite find_app_None by done. simpl.
      unfold has_booking_id at 1. simpl. fold bid.
      by rewrite (proj2 (String_eqb_false bid bid')).
Qed.

Lemma create_booking_then_lookup_witness :
  get_booking_by_id "BK00001" init_database = None ∧
  ∀ d, BookingData.booking_id d = "BK00001" →
       (create_booking Sample.env d init_database).1 = Returned d.
Proof.
  split; [reflexivity|]. intros d Hd.
  destruct (create_booking_then_lookup Sample.env d init_database)
    as (_ & _ & H).
  apply H. by rewrite Hd.
Defined.

(** X2.  [delete_booking_permanently] returns true exactly when the
    identifier is stored.  Then the row found is appended verbatim to
    [deleted_bookings] with the booking's phone; in every case the
    identifier is not stored afterwards and every other identifier is
    looked up as before; when it returns false the store is unchanged. *)
Theorem delete_booking_permanently_archives env bid db :
  let r := delete_booking_permanently env bid db in
  (r.1 = true ↔ is_Some (get_booking_by_id bid db)) ∧
  (r.1 = false → r.2 = db) ∧
  get_booking_by_id bid r.2 = None ∧
  (∀ bid', bid' ≠ bid →
     get_booking_by_id bid' r.2 = get_booking_by_id bid' db) ∧
  (∀ b, get_booking_by_id bid db = Some b →
     deleted_bookings r.2 =
     deleted_bookings db ++
       [{| deleted_booking_id := bid; booking_data := b;
           deleted_date := current_timestamp env;
           deleted_by_phone := phone b |}]) ∧
  chat_history r.2 = chat_history db.
Proof.
  intros r. subst r. unfold delete_booking_permanently, get_booking_by_id.
  destruct (List.find (has_booking_id bid) (bookings db)) as [b|] eqn:F; simpl.
  - split; [split; [by eexists | done]|]. split; [discriminate|].
    split; [apply find_filter_same_id|].
    split; [intros bid' Hne; by apply find_filter_other_id|].
    split; [|done]. by intros b' [= <-].
  - split; [split; [discriminate | by intros [? ?]]|].
    split; [done|]. split; [done|]. split; [done|]. split; [|done].
    intros b' [=].
Qed.

Lemma delete_booking_permanently_archives_witness :
  (delete_booking_permanently Sample.env "BK00009"
     (db Sample.two_bookings)).1 = false ∧
  (delete_booking_permanently Sample.env "BK00009"
     (db Sample.two_bookings)).2 = db Sample.two_bookings.
Proof.
  assert ((delete_booking_permanently Sample.env "BK00009"
             (db Sample.two_bookings)).1 = false) as H by reflexivity.
  split; [exact H|].
  exact (proj1 (proj2 (delete_booking_permanently_archives Sample.env
                         "BK00009" (db Sample.two_bookings))) H).
Defined.

Lemma cancel_matches_cancel_row now bid b :
  cancel_matches bid (cancel_row now bid b) = false.
Proof.
  unfold cancel_row. destruct (cancel_matches bid b) eqn:E; [|done].
  unfold cancel_matches. simpl. apply andb_false_r.
Qed.

(** X3.  Cancelling is idempotent: a second [cancel_booking] of the same
    identifier returns false and changes nothing, whatever the first one
    did. *)
Theorem cancel_booking_twice env env' bid db :
  cancel_booking env' bid (cancel_booking env bid db).2
  = (false, (cancel_booking env bid db).2).
Proof.
  set (db1 := (cancel_booking env bid db).2).
  assert (List.filter (cancel_matches bid) (bookings db1) = []) as Hnone.
  { subst db1. rewrite bookings_cancel_booking.
    induction (bookings db) as [|b l IH]; simpl; [done|].
    by rewrite cancel_matches_cancel_row. }
  unfold cancel_booking at 1. rewrite Hnone. simpl. f_equal.
  rewrite map_cancel_row_none by done. exact (with_bookings_same db1).
Qed.

(** X4.  [get_bookings_by_phone] returns the rows whose phone is exactly the
    given one, each row once, with [created_at] never increasing along the
    list, and rows with the same [created_at] in the order of the table;
    [get_all_bookings] returns all rows in that order. *)
Theorem lookup_by_phone_newest_first ph db :
  let mine := List.filter (λ b, String.eqb (phone b) ph) (bookings db) in
  get_bookings_by_phone ph db ≡ₚ mine ∧
  (∀ b, b ∈ get_bookings_by_phone ph db ↔ b ∈ bookings db ∧ phone b = ph) ∧
  StronglySorted newer_first (get_bookings_by_phone ph db) ∧
  (∀ t, List.filter (λ b, (created_at b =? t)%Z) (get_bookings_by_phone ph db)
        = List.filter (λ b, (created_at b =? t)%Z) mine) ∧
  get_all_bookings db ≡ₚ bookings db ∧
  StronglySorted newer_first (get_all_bookings db) ∧
  (∀ t, List.filter (λ b, (created_at b =? t)%Z) (get_all_bookings db)
        = List.filter (λ b, (created_at b =? t)%Z) (bookings db)).
Proof.
  intros mine. unfold get_bookings_by_phone, get_all_bookings. fold mine.
  split; [apply order_by_desc_Permutation|].
  split.
  { intros b. subst mine.
    rewrite order_by_desc_Permutation, !list_elem_of_In, filter_In.
    by rewrite String_eqb_true. }
  split; [apply order_by_desc_sorted|].
  split; [intros t; apply order_by_desc_stable|].
  split; [apply order_by_desc_Permutation|].
  split; [apply order_by_desc_sorted|].
  intros t. apply order_by_desc_stable.
Qed.

(** ** Chat history *)

Lemma sql_limit_sublist {A} limit (l : list A) : sql_limit limit l `sublist_of` l.
Proof.
  unfold sql_limit. destruct (limit <? 0)%Z; [done | apply sublist_take].
Qed.

Lemma sql_limit_prefix {A} limit (l : list A) :
  ∃ rest, l = sql_limit limit l ++ rest.
Proof.
  unfold sql_limit. destruct (limit <? 0)%Z.
  - exists []. by rewrite app_nil_r.
  - exists (drop (Z.to_nat limit) l). by rewrite take_drop.
Qed.

Lemma StronglySorted_rev_flip {A} (R : relation A) (l : list A) :
  StronglySorted R l → StronglySorted (flip R) (rev l).
Proof.
  induction 1 as [|x l Hl IH Hx]; simpl; [constructor|].
  apply StronglySorted_app_2; [|done|repeat constructor].
  intros x1 x2 Hx1 Hx2. apply list_elem_of_singleton in Hx2 as ->.
  rewrite Forall_forall in Hx. apply Hx.
  apply list_elem_of_In. apply in_rev. by apply list_elem_of_In.
Qed.

Lemma Forall_take_drop_sorted {A} (R : relation A) n (l : list A) :
  StronglySorted R l →
  ∀ a b, a ∈ take n l → b ∈ drop n l → R a b.
Proof.
  intros Hl a b Ha Hb. rewrite <- (take_drop n l) in Hl.
  by apply (StronglySorted_app_1_elem_of R (take n l) (drop n l)).
Qed.

(** X5.  [get_chat_history] returns only messages of the given session,
    ordered by timestamp, oldest first.  With a limit that is not negative
    it returns the [limit] latest ones (all, if there are no more): the
    session's messages split into those returned and those left out, and
    none left out is later than one returned.  With a negative limit, or
    one that is at least the number of the session's messages, it returns
    every message of the session once, those with the same timestamp in the
    reverse of the order of the table. *)
Theorem get_chat_history_window session_id limit db :
  let mine :=
    List.filter (λ r, String.eqb (chat_session_id r) session_id)
      (chat_history db) in
  let history := get_chat_history session_id limit db in
  (∀ e, e ∈ history →
        ∃ r, r ∈ chat_history db ∧ chat_session_id r = session_id ∧
             e = chat_entry r) ∧
  StronglySorted (λ a b, (entry_timestamp a ≤ entry_timestamp b)%Z) history ∧
  ((0 ≤ limit)%Z →
     ∃ kept dropped,
       kept ++ dropped ≡ₚ mine ∧
       history ≡ₚ map chat_entry kept ∧
       length kept = Nat.min (Z.to_nat limit) (length mine) ∧
       ∀ a b, a ∈ kept → b ∈ dropped →
              (chat_timestamp b ≤ chat_timestamp a)%Z) ∧
  ((limit < 0)%Z ∨ length mine ≤ Z.to_nat limit →
     history ≡ₚ map chat_entry mine ∧
     ∀ t, List.filter (λ e, (entry_timestamp e =? t)%Z) history
          = rev (map chat_entry
                   (List.filter (λ r, (chat_timestamp r =? t)%Z) mine))).
Proof.
  intros mine history. subst history. unfold get_chat_history. fold mine.
  split; [|split; [|split]].
  - intros e He. apply list_elem_of_In, in_rev, list_elem_of_In in He.
    apply list_elem_of_fmap in He as (r & -> & Hr).
    exists r. split; [|split; [|done]].
    + apply (λ H, elem_of_sublist _ _ _ H (sql_limit_sublist limit _)) in Hr.
      rewrite order_by_desc_Permutation in Hr. subst mine.
      apply list_elem_of_In, filter_In in Hr as [Hr _].
      by apply list_elem_of_In.
    + apply (λ H, elem_of_sublist _ _ _ H (sql_limit_sublist limit _)) in Hr.
      rewrite order_by_desc_Permutation in Hr. subst mine.
      apply list_elem_of_In, filter_In in Hr as [_ Hr].
      by apply String_eqb_true.
  - apply (StronglySorted_rev_flip
             (λ a b, (entry_timestamp b ≤ entry_timestamp a)%Z)).
    apply (StronglySorted_fmap chat_entry later_first); [done|].
    destruct (sql_limit_prefix limit (order_by_desc chat_timestamp mine))
      as [rest Hrest].
    eapply StronglySorted_app_1_l. rewrite <- Hrest.
    apply order_by_desc_sorted.
  - intros Hlimit. unfold sql_limit.
    destruct (limit <? 0)%Z eqn:E; [lia|].
    exists (take (Z.to_nat limit) (order_by_desc chat_timestamp mine)),
           (drop (Z.to_nat limit) (order_by_desc chat_timestamp mine)).
    split; [by rewrite take_drop, order_by_desc_Permutation|].
    split; [by rewrite <- Permutation_rev|].
    split.
    { rewrite length_take.
      by rewrite (Permutation_length (order_by_desc_Permutation _ mine)). }
    intros a b Ha Hb.
    exact (Forall_take_drop_sorted later_first _ _
             (order_by_desc_sorted chat_timestamp mine) a b Ha Hb).
  - intros Hall.
    assert (sql_limit limit (order_by_desc chat_timestamp mine)
            = order_by_desc chat_timestamp mine) as ->.
    { unfold sql_limit. destruct (limit <? 0)%Z eqn:E; [done|].
      apply take_ge.
      rewrite (Permutation_length (order_by_desc_Permutation _ mine)).
      apply Z.ltb_ge in E. lia. }
    split.
    + by rewrite <- Permutation_rev, order_by_desc_Permutation.
    + intros t. rewrite filter_rev. f_equal.
      rewrite <- (order_by_desc_stable chat_timestamp t mine).
      induction (order_by_desc chat_timestamp mine) as [|r l IH]; [done|].
      simpl. destruct (chat_timestamp r =? t)%Z; simpl; by rewrite IH.
Qed.

Lemma get_chat_history_window_witness :
  (0 ≤ 1)%Z ∧
  (∃ kept, length kept = 1 ∧
     get_chat_history "S1" 1 (db Sample.gave_phone) ≡ₚ map chat_entry kept) ∧
  map entry_role (get_chat_history "S1" 1 (db Sample.gave_phone))
  = ["assistant"].
Proof.
  split; [lia|].
  destruct (proj1 (proj2 (proj2 (get_chat_history_window "S1" 1
                                   (db Sample.gave_phone)))))
    as (kept & dropped & _ & Hkept & Hlen & _); [lia|].
  split; [|reflexivity].
  exists kept. split; [|exact Hkept].
  rewrite Hlen. reflexivity.
Defined.

Lemma filter_filter_negb {A} (p : A → bool) (l : list A) :
  List.filter p (List.filter (λ x, negb (p x)) l) = [].
Proof.
  induction l as [|a l IH]; simpl; [done|].
  destruct (p a) eqn:E; simpl; [done|]. by rewrite E.
Qed.

Lemma filter_filter_other {A} (p q : A → bool) (l : list A) :
  (∀ x, p x = true → q x = false) →
  List.filter p (List.filter (λ x, negb (q x)) l) = List.filter p l.
Proof.
  intros H. induction l as [|a l IH]; simpl; [done|].
  destruct (q a) eqn:E; simpl.
  - destruct (p a) eqn:F; [|done]. rewrite (H a F) in E. done.
  - by rewrite IH.
Qed.

(** X6.  [clear_chat_history] empties the history of its session, leaves the
    history of every other session as it was, and touches no booking. *)
Theorem clear_chat_history_only_that_session session_id db :
  (∀ limit, get_chat_history session_id limit
              (clear_chat_history session_id db) = []) ∧
  (∀ other limit, other ≠ session_id →
     get_chat_history other limit (clear_chat_history session_id db)
     = get_chat_history other limit db) ∧
  bookings (clear_chat_history session_id db) = bookings db ∧
  deleted_bookings (clear_chat_history session_id db) = deleted_bookings db.
Proof.
  split; [|split; [|done]].
  - intros limit. unfold get_chat_history, clear_chat_history. simpl.
    rewrite (filter_filter_negb
               (λ r, String.eqb (chat_session_id r) session_id)).
    change (order_by_desc chat_timestamp []) with (@nil ChatRow).
    unfold sql_limit. destruct (limit <? 0)%Z; [done|]. by rewrite take_nil.
  - intros other limit Hne. unfold get_chat_history, clear_chat_history. simpl.
    rewrite (filter_filter_other
               (λ r, String.eqb (chat_session_id r) other)
               (λ r, String.eqb (chat_session_id r) session_id)); [done|].
    intros r Hr. apply String_eqb_true in Hr. apply String_eqb_false.
    congruence.
Qed.

Lemma clear_chat_history_only_that_session_witness :
  "S2" ≠ "S1" ∧
  get_chat_history "S2" 10 (clear_chat_history "S1" (db Sample.gave_phone))
  = get_chat_history "S2" 10 (db Sample.gave_phone).
Proof.
  assert ("S2" ≠ "S1") as Hne by discriminate.
  split; [exact Hne|].
  exact (proj1 (proj2 (clear_chat_history_only_that_session "S1"
                         (db Sample.gave_phone))) "S2" 10%Z Hne).
Defined.

(** ** Statistics *)

Lemma length_by_status (l : list Booking) :
  Forall known_status l →
  length l = length (List.filter (has_status "active") l)
             + length (List.filter (has_status "cancelled") l).
Proof.
  induction 1 as [|b l Hb _ IH]; simpl; [done|].
  destruct Hb as [Hb|Hb].
  - assert (has_status "active" b = true) as -> by (by apply String_eqb_true).
    assert (has_status "cancelled" b = false) as ->.
    { apply String_eqb_false. rewrite Hb. discriminate. }
    simpl. lia.
  - assert (has_status "cancelled" b = true) as -> by (by apply String_eqb_true).
    assert (has_status "active" b = false) as ->.
    { apply String_eqb_false. rewrite Hb. discriminate. }
    simpl. lia.
Qed.

Lemma filter_app_list {A} (p : A → bool) (l1 l2 : list A) :
  List.filter p (l1 ++ l2) = List.filter p l1 ++ List.filter p l2.
Proof. apply List.filter_app. Qed.

Lemma sum_total_amount_app (l1 l2 : list Booking) :
  sum_total_amount (l1 ++ l2)
  = (sum_total_amount l1 + sum_total_amount l2)%Z.
Proof. induction l1 as [|b l1 IH]; simpl; [done|]. rewrite IH. lia. Qed.

Lemma find_unique_row bid b (l1 l2 : list Booking) :
  NoDup (map booking_id (l1 ++ b :: l2)) → booking_id b = bid →
  List.find (has_booking_id bid) (l1 ++ b :: l2) = Some b.
Proof.
  intros Hnd Hid. rewrite map_app in Hnd. simpl in Hnd.
  apply NoDup_app in Hnd as (_ & Hl1 & _).
  rewrite find_app_None.
  - simpl. by rewrite (proj2 (has_booking_id_true bid b) Hid).
  - destruct (List.find (has_booking_id bid) l1) as [x|] eqn:F; [|done].
    apply find_some in F as [Hx Hxid]. apply has_booking_id_true in Hxid.
    exfalso. apply (Hl1 (booking_id x)).
    + apply list_elem_of_fmap_2. by apply list_elem_of_In.
    + assert (booking_id x = booking_id b) as -> by congruence. by left.
Qed.

Section StatisticsOfRuns.
Variable get_answer : string → outcome string.
Variable lower : string → string.
Variable bus_data : BusData.

(** X7.  In every reachable state the statistics add up: the total number
    of bookings is the number of active ones plus the number of cancelled
    ones. *)
Theorem statistics_counts_add_up w :
  reachable get_answer lower bus_data w →
  let s := get_booking_statistics (db w) in
  total_bookings s = active_bookings s + cancelled_bookings s.
Proof.
  intros Hr. apply reachable_world_ok in Hr as [_ [_ Hst]].
  simpl. by apply length_by_status.
Qed.

End StatisticsOfRuns.

Lemma statistics_counts_add_up_witness :
  reachable Sample.get_answer Sample.lower Sample.bus_data Sample.gave_phone ∧
  total_bookings (get_booking_statistics (db Sample.gave_phone))
  = active_bookings (get_booking_statistics (db Sample.gave_phone))
    + cancelled_bookings (get_booking_statistics (db Sample.gave_phone)).
Proof.
  split; [exact reachable_gave_phone|].
  exact (statistics_counts_add_up Sample.get_answer Sample.lower Sample.bus_data
           Sample.gave_phone reachable_gave_phone).
Defined.

(** X8.  A [cancel_booking] that returns true moves exactly one booking from
    the active to the cancelled count, keeps the total, and takes the
    booking's amount out of the revenue. *)
Theorem cancel_booking_moves_statistics env bid db :
  unique_ids db →
  (cancel_booking env bid db).1 = true →
  let s := get_booking_statistics db in
  let s' := get_booking_statistics (cancel_booking env bid db).2 in
  total_bookings s' = total_bookings s ∧
  S (active_bookings s') = active_bookings s ∧
  cancelled_bookings s' = S (cancelled_bookings s) ∧
  ∃ b, get_booking_by_id bid db = Some b ∧
       total_revenue s' = (total_revenue s - total_amount b)%Z.
Proof.
  intros Hnd Htrue s s'.
  assert (List.filter (cancel_matches bid) (bookings db) ≠ []) as Hsome.
  { unfold cancel_booking in Htrue. simpl in Htrue. intros E.
    by rewrite E in Htrue. }
  apply filter_cancel_matches_elem in Hsome as (b & Hb & Hid & Hact).
  destruct (map_cancel_row_unique (now_isoformat env) bid _ b Hnd Hb Hid Hact)
    as (l1 & l2 & E1 & E2).
  assert (has_status "active" b = true) as Ha by (by apply String_eqb_true).
  assert (has_status "cancelled" b = false) as Hc.
  { apply String_eqb_false. rewrite Hact. discriminate. }
  assert (has_status "active" (set_cancelled (now_isoformat env) b) = false)
    as Ha' by reflexivity.
  assert (has_status "cancelled" (set_cancelled (now_isoformat env) b) = true)
    as Hc' by reflexivity.
  subst s s'. unfold get_booking_statistics.
  cbn [total_bookings active_bookings cancelled_bookings total_revenue].
  rewrite bookings_cancel_booking, E2, E1.
  rewrite !filter_app_list, !length_app.
  cbn [List.filter length]. rewrite Ha, Hc, Ha', Hc'.
  rewrite !sum_total_amount_app.
  change (sum_total_amount (b :: List.filter (has_status "active") l2))
    with (total_amount b
          + sum_total_amount (List.filter (has_status "active") l2))%Z.
  cbn [length].
  split; [lia|]. split; [lia|]. split; [lia|].
  exists b. split; [|lia].
  unfold get_booking_by_id. rewrite E1. apply find_unique_row; [|done].
  unfold unique_ids in Hnd. by rewrite E1 in Hnd.
Qed.

Lemma cancel_booking_moves_statistics_witness :
  unique_ids (db Sample.two_bookings) ∧
  (cancel_booking Sample.env "BK00002" (db Sample.two_bookings)).1 = true ∧
  S (active_bookings
       (get_booking_statistics
          (cancel_booking Sample.env "BK00002" (db Sample.two_bookings)).2))
  = active_bookings (get_booking_statistics (db Sample.two_bookings)).
Proof.
  assert ((cancel_booking Sample.env "BK00002" (db Sample.two_bookings)).1
          = true) as H by reflexivity.
  split; [exact unique_ids_two_bookings|]. split; [exact H|].
  exact (proj1 (proj2 (cancel_booking_moves_statistics Sample.env "BK00002"
                         (db Sample.two_bookings) unique_ids_two_bookings H))).
Defined.

(** *** The per-provider groups partition the active bookings *)

Lemma sum_Z_with_app {A} (f : A → Z) (l1 l2 : list A) :
  sum_Z_with f (l1 ++ l2) = (sum_Z_with f l1 + sum_Z_with f l2)%Z.
Proof. induction l1 as [|a l1 IH]; simpl; [done|]. rewrite IH. lia. Qed.

Lemma sum_Z_with_Permutation {A} (f : A → Z) (l1 l2 : list A) :
  l1 ≡ₚ l2 → sum_Z_with f l1 = sum_Z_with f l2.
Proof. induction 1; simpl; lia. Qed.

Lemma sum_Z_with_map {A B} (g : A → B) (f : B → Z) (l : list A) :
  sum_Z_with f (map g l) = sum_Z_with (λ a, f (g a)) l.
Proof. induction l as [|a l IH]; simpl; [done|]. by rewrite IH. Qed.

Lemma sum_Z_with_ext {A} (f g : A → Z) (l : list A) :
  (∀ a, f a = g a) → sum_Z_with f l = sum_Z_with g l.
Proof. intros H. induction l as [|a l IH]; simpl; [done|]. by rewrite H, IH. Qed.

Lemma sum_list_with_Z {A} (f : A → nat) (l : list A) :
  Z.of_nat (sum_list_with f l) = sum_Z_with (λ a, Z.of_nat (f a)) l.
Proof. induction l as [|a l IH]; simpl; [done|]. lia. Qed.

Lemma length_sum_Z (l : list Booking) :
  Z.of_nat (length l) = sum_Z_with (λ _, 1%Z) l.
Proof. induction l as [|a l IH]; simpl; [done|]. lia. Qed.

Lemma str_in_elem (x : string) (l : list string) : str_in x l = true ↔ x ∈ l.
Proof.
  unfold str_in. rewrite existsb_exists. split.
  - intros (y & Hy & E). apply String_eqb_true in E as ->.
    by apply list_elem_of_In.
  - intros H. exists x. split; [by apply list_elem_of_In|].
    apply String.eqb_refl.
Qed.

Lemma filter_all {A} (p : A → bool) (l : list A) :
  (∀ x, x ∈ l → p x = true) → List.filter p l = l.
Proof.
  induction l as [|a l IH]; intros H; simpl; [done|].
  rewrite (H a) by (by left). f_equal. apply IH. intros x Hx. apply H.
  by right.
Qed.

(** Summing a weight group by group gives the weight of the bookings whose
    provider is one of the groups' keys. *)
Lemma groups_partition (w : Booking → Z) (ks : list string) (l : list Booking) :
  NoDup ks →
  sum_Z_with
    (λ k, sum_Z_with w (List.filter (λ b, String.eqb (bus_provider b) k) l)) ks
  = sum_Z_with w (List.filter (λ b, str_in (bus_provider b) ks) l).
Proof.
  induction 1 as [|k ks Hk Hnd IH]; simpl.
  - induction l as [|b l IHl]; simpl; [done | exact IHl].
  - rewrite IH. clear IH. induction l as [|b l IHl]; simpl; [done|].
    destruct (String.eqb (bus_provider b) k) eqn:E; simpl.
    + apply String_eqb_true in E.
      assert (str_in (bus_provider b) ks = false) as Hnot.
      { apply not_true_is_false. rewrite str_in_elem. by rewrite E. }
      rewrite Hnot. simpl. lia.
    + destruct (str_in (bus_provider b) ks); simpl; lia.
Qed.

Lemma provider_groups_keys db :
  map fst (provider_groups db)
  = remove_dups (map bus_provider
                   (List.filter (has_status "active") (bookings db))).
Proof.
  unfold provider_groups. rewrite map_map. simpl. apply map_id.
Qed.

Lemma fold_left_insert_list_to_map (l : list (string * (nat * Z)))
    (m : gmap string (nat * Z)) :
  NoDup (map fst l) →
  fold_left (λ stats row, <[row.1 := row.2]> stats) l m = list_to_map l ∪ m.
Proof.
  revert m. induction l as [|[k v] l IH]; intros m Hnd.
  - simpl. by rewrite (left_id_L ∅ (∪)).
  - change (NoDup (k :: map fst l)) in Hnd.
    apply NoDup_cons in Hnd as [Hk Hnd].
    change (fold_left (λ stats row, <[row.1 := row.2]> stats) l (<[k:=v]> m)
            = <[k:=v]> (list_to_map l) ∪ m).
    rewrite IH by done.
    rewrite <- insert_union_l. symmetry. apply insert_union_r.
    by apply not_elem_of_list_to_map_1.
Qed.

Lemma provider_statistics_eq db :
  provider_statistics (get_booking_statistics db)
  = list_to_map (provider_groups db).
Proof.
  unfold get_booking_statistics. simpl.
  rewrite fold_left_insert_list_to_map.
  - by rewrite (right_id_L ∅ (∪)).
  - rewrite provider_groups_keys. apply NoDup_remove_dups.
Qed.

(** X9.  The per-provider statistics partition the active bookings: a
    provider has an entry exactly when it has an active booking, the entry
    holds the number and the summed amount of its active bookings, the
    counts of all entries add up to [active_bookings] and their revenues to
    [total_revenue]. *)
Theorem provider_statistics_partition db :
  let s := get_booking_statistics db in
  let active := List.filter (has_status "active") (bookings db) in
  let of_provider p :=
    List.filter (λ b, String.eqb (bus_provider b) p) active in
  (∀ p c r, provider_statistics s !! p = Some (c, r) ↔
      p ∈ map bus_provider active ∧
      c = length (of_provider p) ∧ r = sum_total_amount (of_provider p)) ∧
  sum_list_with (λ kv, kv.2.1) (map_to_list (provider_statistics s))
  = active_bookings s ∧
  sum_Z_with (λ kv, kv.2.2) (map_to_list (provider_statistics s))
  = total_revenue s.
Proof.
  intros s active of_provider.
  assert (NoDup (map fst (provider_groups db))) as Hnd.
  { rewrite provider_groups_keys. apply NoDup_remove_dups. }
  assert (map_to_list (provider_statistics s) ≡ₚ provider_groups db) as Hperm.
  { subst s. rewrite provider_statistics_eq. by apply map_to_list_to_map. }
  assert (∀ b, b ∈ active →
            str_in (bus_provider b)
              (remove_dups (map bus_provider active)) = true) as Hin.
  { intros b Hb. apply str_in_elem, elem_of_remove_dups.
    by apply list_elem_of_fmap_2. }
  split; [|split].
  - intros p c r. subst s. rewrite provider_statistics_eq.
    rewrite <- elem_of_list_to_map by done.
    unfold provider_groups. fold active. rewrite list_elem_of_fmap. split.
    + intros (p' & [= -> -> ->] & Hp). by rewrite elem_of_remove_dups in Hp.
    + intros (Hp & -> & ->). exists p. split; [done|].
      by apply elem_of_remove_dups.
  - apply Nat2Z.inj. rewrite sum_list_with_Z.
    rewrite (sum_Z_with_Permutation _ _ _ Hperm).
    unfold provider_groups. fold active. rewrite sum_Z_with_map. simpl.
    rewrite (sum_Z_with_ext _
               (λ p, sum_Z_with (λ _, 1%Z)
                       (List.filter (λ b, String.eqb (bus_provider b) p)
                          active)))
      by (intros p; apply length_sum_Z).
    rewrite groups_partition by apply NoDup_remove_dups.
    rewrite filter_all by done. by rewrite <- length_sum_Z.
  - rewrite (sum_Z_with_Permutation _ _ _ Hperm).
    unfold provider_groups. fold active. rewrite sum_Z_with_map. simpl.
    change (λ a : string,
              sum_total_amount
                (List.filter (λ b, String.eqb (bus_provider b) a) active))
      with (λ a : string,
              sum_Z_with total_amount
                (List.filter (λ b, String.eqb (bus_provider b) a) active)).
    rewrite groups_partition by apply NoDup_remove_dups.
    by rewrite filter_all.
Qed.

Lemma provider_statistics_partition_witness :
  sum_list_with (λ kv, kv.2.1)
    (map_to_list
       (provider_statistics (get_booking_statistics (db Sample.two_bookings))))
  = active_bookings (get_booking_statistics (db Sample.two_bookings)).
Proof.
  exact (proj1 (proj2 (provider_statistics_partition (db Sample.two_bookings)))).
Defined.

(** * Further properties of the smart query handler *)

Section RouterExtras.
Import SessionUpdate.
Variable get_answer : string → outcome string.
Variable lower : string → string.
Variable bus_data : BusData.

Local Abbreviation reachable := (reachable get_answer lower bus_data).
Local Abbreviation query_smart := (query_smart get_answer).
Local Abbreviation query_smart_session := (query_smart_session get_answer).

Lemma cancel_resolution_chat env sid phone session db :
  chat_history (cancel_resolution env sid phone session db).2
  = chat_history db
    ++ [assistant_row env sid (Some phone)
          (cancel_resolution env sid phone session db).1.1].
Proof.
  unfold cancel_resolution.
  by destruct (List.filter is_active _) as [|b [|b' l]].
Qed.

Lemma cancel_resolution_bookings env sid phone session db :
  bookings (cancel_resolution env sid phone session db).2 = bookings db ∨
  ∃ bid, bookings (cancel_resolution env sid phone session db).2
         = map (cancel_row (now_isoformat env) bid) (bookings db).
Proof.
  unfold cancel_resolution.
  destruct (List.filter is_active _) as [|b [|b' l]]; simpl; [by left| |by left].
  right. by exists (booking_id b).
Qed.

Lemma cancel_resolution_rest env sid phone session db :
  deleted_bookings (cancel_resolution env sid phone session db).2
  = deleted_bookings db ∧
  bookings_seq (cancel_resolution env sid phone session db).2
  = bookings_seq db.
Proof.
  unfold cancel_resolution.
  by destruct (List.filter is_active _) as [|b [|b' l]].
Qed.

(** The four ways a request is served, on the session dict and the
    database. *)
Lemma query_smart_session_cases env request sid s db :
  let logged :=
    save_chat_message env sid "user" (QueryRequest.query request)
      (QueryRequest.phone request) db in
  (∃ phone s0, query_smart_session env request sid s db
               = replied (cancel_resolution env sid phone s0 logged)) ∨
  (∃ message s' bid,
     query_smart_session env request sid s db
     = (Returned message, s',
        save_chat_message (at_reply env) sid "assistant" message
          (Session.phone s) (cancel_booking env bid logged).2)) ∨
  (∃ message s' ph,
     query_smart_session env request sid s db
     = (Returned message, s',
        save_chat_message (at_reply env) sid "assistant" message ph logged)) ∨
  (∃ e, get_answer (QueryRequest.query request) = Raised e ∧
        query_smart_session env request sid s db = (Raised e, s, logged)).
Proof.
  intros logged.
  destruct (Session.awaiting_phone_for_cancel s) eqn:Hph.
  { left. eexists _, _. by apply awaiting_phone_runs_resolution. }
  destruct (Session.awaiting_booking_id s) eqn:Hid.
  { unfold query_smart_session. rewrite Hph, Hid.
    destruct (List.find _ _).
    - right. left. by eexists _, _, _.
    - right. right. left. by eexists _, _, _. }
  destruct (has_cancel_keyword (Py.lower (Py.strip (QueryRequest.query request))))
    eqn:Hkw.
  - destruct (decide (Py.strip (Py.or_str (QueryRequest.phone request)
                        (Py.or_str (Session.phone s) "")) = ""))
      as [Hempty|Hphone].
    + right. right. left. unfold query_smart_session.
      rewrite Hph, Hid, Hkw, Hempty. by eexists _, _, _.
    + left. eexists _, _. by apply trigger_runs_resolution.
  - right. right. unfold query_smart_session. rewrite Hph, Hid, Hkw.
    destruct (get_answer (QueryRequest.query request)) as [answer|e].
    + left. by eexists _, _, _.
    + right. by exists e.
Qed.

(** X10.  Every [query_smart] call first appends the raw query, with the
    hinted phone, to the chat history as the user's message.  A call that
    returns appends exactly one more row, the reply it returns as the
    assistant's message, stamped when the reply is logged, and returns the
    session id the rows carry.  A call ends in an exception only when the
    answer engine raises it; then the user's row is the only one written,
    and neither a booking nor the session dict has changed. *)
Theorem query_smart_logs_both_messages env request w :
  let sid := Py.or_str (QueryRequest.session_id request) (uuid4 env) in
  let r := query_smart env request w in
  (∀ message sid', r.1 = Returned (message, sid') →
     sid' = sid ∧
     ∃ ph, chat_history (db r.2)
           = chat_history (db w)
             ++ [user_row env sid request;
                 assistant_row env sid ph message]) ∧
  (∀ e, r.1 = Raised e →
     get_answer (QueryRequest.query request) = Raised e ∧
     chat_history (db r.2)
     = chat_history (db w) ++ [user_row env sid request] ∧
     bookings (db r.2) = bookings (db w) ∧
     sessions r.2 !! sid = Some (session_of sid w)).
Proof.
  intros sid r. subst r. rewrite query_smart_eq. fold sid.
  destruct (query_smart_session_cases env request sid (session_of sid w) (db w))
    as [(phone & s0 & E) | [(m & s' & bid & E) | [(m & s' & ph & E)
       | (e & Hraise & E)]]];
    rewrite E; unfold replied; cbn [fst snd reply_of db sessions].
  - split; [|discriminate].
    intros message sid' [= <- <-]. split; [done|].
    exists (Some phone). rewrite cancel_resolution_chat. simpl.
    by rewrite <- app_assoc.
  - split; [|discriminate].
    intros message sid' [= <- <-]. split; [done|].
    exists (Session.phone (session_of sid w)). simpl.
    by rewrite <- app_assoc.
  - split; [|discriminate].
    intros message sid' [= <- <-]. split; [done|].
    exists ph. simpl. by rewrite <- app_assoc.
  - split; [discriminate|].
    intros e' [= <-]. split; [done|]. split; [done|]. split; [done|].
    by rewrite lookup_insert_eq.
Qed.

(** X11.  A [query_smart] call leaves every other session as it was, never
    adds, removes or archives a booking, and changes a booking row only
    from active to cancelled. *)
Theorem query_smart_touches_only_its_session env request w :
  let sid := Py.or_str (QueryRequest.session_id request) (uuid4 env) in
  let r := query_smart env request w in
  (∀ other, other ≠ sid → sessions r.2 !! other = sessions w !! other) ∧
  Forall2 (row_transition (now_isoformat env))
    (bookings (db w)) (bookings (db r.2)) ∧
  map booking_id (bookings (db r.2)) = map booking_id (bookings (db w)) ∧
  deleted_bookings (db r.2) = deleted_bookings (db w) ∧
  bookings_seq (db r.2) = bookings_seq (db w).
Proof.
  intros sid r. subst r. rewrite query_smart_eq. fold sid. simpl.
  split; [intros other Hne; by rewrite lookup_insert_ne|].
  assert (∀ l : list Booking, Forall2 (row_transition (now_isoformat env)) l l)
    as Hrefl.
  { intros l. apply Forall2_same_length_lookup_2; [done|].
    intros i x y Hx Hy. left. congruence. }
  destruct (query_smart_session_cases env request sid (session_of sid w) (db w))
    as [(phone & s0 & E) | [(m & s' & bid & E) | [(m & s' & ph & E)
       | (e & _ & E)]]];
    rewrite E; unfold replied; cbn [fst snd].
  - destruct (cancel_resolution_rest env sid phone s0
                (save_chat_message env sid "user" (QueryRequest.query request)
                   (QueryRequest.phone request) (db w))) as [Hd Hs].
    rewrite Hd, Hs.
    destruct (cancel_resolution_bookings env sid phone s0
                (save_chat_message env sid "user" (QueryRequest.query request)
                   (QueryRequest.phone request) (db w)))
      as [-> | [bid ->]]; simpl.
    + by repeat split.
    + split; [apply cancel_row_transition|]. split; [|done].
      rewrite map_map. apply map_ext. intros b. apply cancel_row_booking_id.
  - simpl. split; [apply cancel_row_transition|]. split; [|done].
    rewrite map_map. apply map_ext. intros b. apply cancel_row_booking_id.
  - simpl. by repeat split.
  - simpl. by repeat split.
Qed.

End RouterExtras.

Lemma query_smart_logs_both_messages_witness :
  let r :=
    query_smart Sample.engine_down Sample.env
      (Sample.request "S1" "Which buses go to Khulna?") Sample.two_bookings in
  r.1 = Raised (OtherException "ConnectionError") ∧
  map chat_role (chat_history (db r.2)) = ["user"] ∧
  bookings (db r.2) = bookings (db Sample.two_bookings).
Proof.
  intros r.
  assert (r.1 = Raised (OtherException "ConnectionError")) as Hr
    by reflexivity.
  split; [exact Hr|].
  destruct (proj2 (query_smart_logs_both_messages Sample.engine_down
                     Sample.env
                     (Sample.request "S1" "Which buses go to Khulna?")
                     Sample.two_bookings) _ Hr)
    as (_ & Hchat & Hbookings & _).
  split; [|exact Hbookings].
  change (map chat_role (chat_history (db r.2)) = ["user"]).
  unfold r. by rewrite Hchat.
Defined.

Lemma query_smart_touches_only_its_session_witness :
  "S2" ≠ "S1" ∧
  sessions (Sample.ask "S1" "BK00002" Sample.gave_phone).2 !! "S2"
  = sessions Sample.gave_phone !! "S2".
Proof.
  assert ("S2" ≠ "S1") as Hne by discriminate.
  split; [exact Hne|].
  exact (proj1 (query_smart_touches_only_its_session Sample.get_answer
                  Sample.env (Sample.request "S1" "BK00002") Sample.gave_phone)
           "S2" Hne).
Defined.

Lemma active_elem_iff b ph db :
  b ∈ List.filter is_active (get_bookings_by_phone ph db) ↔
  b ∈ bookings db ∧ phone b = ph ∧ status b = "active".
Proof.
  rewrite list_elem_of_In, filter_In, <- list_elem_of_In.
  unfold get_bookings_by_phone, is_active.
  rewrite order_by_desc_Permutation, list_elem_of_In, filter_In,
    <- list_elem_of_In, !String_eqb_true.
  tauto.
Qed.

Lemma no_active_after_cancel now ph b (l1 l2 : list Booking) db db' :
  unique_ids db →
  bookings db = l1 ++ b :: l2 →
  bookings db' = l1 ++ set_cancelled now b :: l2 →
  List.filter is_active (get_bookings_by_phone ph db) = [b] →
  List.filter is_active (get_bookings_by_phone ph db') = [].
Proof.
  intros Hnd E E' Hone.
  destruct (List.filter is_active (get_bookings_by_phone ph db'))
    as [|x l] eqn:F; [done|]. exfalso.
  assert (x ∈ List.filter is_active (get_bookings_by_phone ph db')) as Hx
    by (rewrite F; by left).
  apply active_elem_iff in Hx as (Hx & Hph & Hact). rewrite E' in Hx.
  assert (x ∈ l1 ∨ x ∈ l2) as Hold.
  { apply elem_of_app in Hx as [Hx|Hx]; [by left|].
    apply elem_of_cons in Hx as [->|Hx]; [discriminate | by right]. }
  assert (x ∈ bookings db) as Hdb.
  { rewrite E. apply elem_of_app. destruct Hold; [by left|].
    right. by right. }
  assert (x = b) as ->.
  { assert (x ∈ [b]) as H; [|by apply list_elem_of_singleton in H].
    rewrite <- Hone. by apply active_elem_iff. }
  unfold unique_ids in Hnd. rewrite E, map_app in Hnd. simpl in Hnd.
  apply NoDup_app in Hnd as (_ & Hl1 & Hnd).
  apply NoDup_cons in Hnd as (Hl2 & _).
  destruct Hold as [H|H].
  - apply (Hl1 (booking_id b)); [by apply list_elem_of_fmap_2 | by left].
  - apply Hl2. by apply list_elem_of_fmap_2.
Qed.

Section ResolutionExtras.
Import SessionUpdate.
Variable get_answer : string → outcome string.
Variable lower : string → string.
Variable bus_data : BusData.

Local Abbreviation reachable := (reachable get_answer lower bus_data).
Local Abbreviation query_smart := (query_smart get_answer).
Local Abbreviation query_smart_session := (query_smart_session get_answer).

(** Either way in, the resolution starts from an idle session that has the
    phone stored and nothing pending. *)
Lemma enters_resolution_runs_stored env request w phone :
  let sid := Py.or_str (QueryRequest.session_id request) (uuid4 env) in
  reachable w →
  enters_resolution request (session_of sid w) phone →
  ∃ s0, is_idle s0 ∧ Session.pending_bookings s0 = [] ∧
    Session.phone s0 = Some phone ∧
    query_smart_session env request sid (session_of sid w) (db w) =
    replied
      (cancel_resolution env sid phone s0
         (save_chat_message env sid "user" (QueryRequest.query request)
            (QueryRequest.phone request) (db w))).
Proof.
  intros sid Hr Henter.
  pose proof (reachable_session_of_ok get_answer lower bus_data sid w Hr) as Hok.
  destruct Henter as [Hph|[Hid Hph] Hkw Hphone].
  - unfold is_awaiting_phone in Hph.
    pose proof (not_both_flags _ Hok Hph) as Hid.
    eexists. split; [|split; [|split;
      [|by apply awaiting_phone_runs_resolution]]].
    + by split.
    + simpl. by apply idle_no_pending.
    + done.
  - rewrite <- has_cancel_keyword_strip in Hkw.
    eexists. split; [|split; [|split;
      [|by apply trigger_runs_resolution]]].
    + by split.
    + simpl. by apply idle_no_pending.
    + done.
Qed.

Lemma resolution_without_active env request w phone :
  let sid := Py.or_str (QueryRequest.session_id request) (uuid4 env) in
  reachable w →
  enters_resolution request (session_of sid w) phone →
  List.filter is_active (get_bookings_by_phone phone (db w)) = [] →
  let r := query_smart env request w in
  r.1 = Returned
          ("‚ÑπÔ∏è No active bookings found for phone number "
           +:+ phone, sid) ∧
  bookings (db r.2) = bookings (db w) ∧
  ∃ s', sessions r.2 !! sid = Some s' ∧ is_idle s' ∧
        Session.pending_bookings s' = [] ∧ Session.phone s' = Some phone.
Proof.
  intros sid Hr Henter Hnone r.
  destruct (enters_resolution_runs_stored env request w phone Hr Henter)
    as (s0 & Hidle & Hpend & Hphone & Hrun).
  fold sid in Hrun. rewrite cancel_resolution_none in Hrun by done.
  subst r. rewrite query_smart_eq. fold sid. rewrite Hrun.
  unfold replied. simpl.
  split; [done|]. split; [done|].
  exists s0. by rewrite lookup_insert_eq.
Qed.

(** X12.  For a phone with no active booking, either way in: the reply is
    the sentence saying that no active bookings were found for that phone
    number, no booking changes, and the session is idle with nothing
    pending; the phone stays stored. *)
Theorem no_active_booking_is_reported env request w phone :
  let sid := Py.or_str (QueryRequest.session_id request) (uuid4 env) in
  reachable w →
  enters_resolution request (session_of sid w) phone →
  List.filter is_active (get_bookings_by_phone phone (db w)) = [] →
  let r := query_smart env request w in
  r.1 = Returned
          ("‚ÑπÔ∏è No active bookings found for phone number "
           +:+ phone, sid) ∧
  bookings (db r.2) = bookings (db w) ∧
  ∃ s', sessions r.2 !! sid = Some s' ∧ is_idle s' ∧
        Session.pending_bookings s' = [] ∧ Session.phone s' = Some phone.
Proof.
  intros sid Hr Henter Hnone r.
  by apply resolution_without_active.
Qed.

(** X13.  Once the only active booking of a phone has been cancelled by the
    dialogue, the phone has no active booking left: a further resolution
    for it, in any session and either way in, replies with the
    no-active-bookings message. *)
Theorem cancelled_booking_is_not_offered_again env request w phone b :
  let sid := Py.or_str (QueryRequest.session_id request) (uuid4 env) in
  reachable w →
  enters_resolution request (session_of sid w) phone →
  List.filter is_active (get_bookings_by_phone phone (db w)) = [b] →
  let w' := (query_smart env request w).2 in
  List.filter is_active (get_bookings_by_phone phone (db w')) = [] ∧
  ∀ env' request',
    enters_resolution request'
      (session_of (Py.or_str (QueryRequest.session_id request') (uuid4 env'))
         w') phone →
    (query_smart env' request' w').1
    = Returned (msg_no_active phone,
                Py.or_str (QueryRequest.session_id request') (uuid4 env')).
Proof.
  intros sid Hr Henter Hone w'.
  pose proof (reachable_world_ok get_answer lower bus_data w Hr) as [_ [Hnd _]].
  assert (List.filter is_active (get_bookings_by_phone phone (db w')) = [])
    as Hnone.
  { destruct (enters_resolution_runs_stored env request w phone Hr Henter)
      as (s0 & _ & _ & _ & Hrun).
    fold sid in Hrun.
    rewrite (cancel_resolution_one env sid phone s0 _ b) in Hrun by done.
    assert (b ∈ bookings (db w) ∧ status b = "active") as [Hb Hact].
    { apply (active_elem b phone (db w)). rewrite Hone. by left. }
    destruct (map_cancel_row_unique (now_isoformat env) (booking_id b)
                (bookings (db w)) b Hnd Hb eq_refl Hact)
      as (l1 & l2 & E1 & E2).
    apply (no_active_after_cancel (now_isoformat env) phone b l1 l2 (db w));
      try done.
    subst w'. rewrite query_smart_eq. fold sid. by rewrite Hrun. }
  split; [exact Hnone|].
  intros env' request' Henter'.
  assert (reachable w') as Hr'.
  { eapply rtc_r; [exact Hr|]. apply step_query. }
  destruct (resolution_without_active env' request' w' phone
              Hr' Henter' Hnone) as [Hreply _].
  exact Hreply.
Qed.

End ResolutionExtras.

Lemma no_active_booking_is_reported_witness :
  let w :=
    (query_smart Sample.get_answer Sample.env Sample.cancel_with_phone
       Sample.one_booking).2 in
  reachable Sample.get_answer Sample.lower Sample.bus_data w ∧
  map (λ b, (booking_id b, status b)) (bookings (db w))
  = [("BK00001", "cancelled")] ∧
  List.filter is_active (get_bookings_by_phone "01711000000" (db w)) = [] ∧
  (query_smart Sample.get_answer Sample.env Sample.cancel_with_phone w).1
  = Returned
      ("‚ÑπÔ∏è No active bookings found for phone number 01711000000",
       "S1").
Proof.
  intros w.
  assert (reachable Sample.get_answer Sample.lower Sample.bus_data w) as Hr.
  { eapply rtc_r; [exact reachable_one_booking|]. apply step_query. }
  assert (enters_resolution Sample.cancel_with_phone
            (session_of (Py.or_str
                           (QueryRequest.session_id Sample.cancel_with_phone)
                           (uuid4 Sample.env)) w)
            "01711000000") as Henter.
  { refine (enters_by_trigger Sample.cancel_with_phone _ _ _ _).
    - split; reflexivity.
    - reflexivity.
    - discriminate. }
  split; [exact Hr|]. split; [reflexivity|]. split; [reflexivity|].
  exact (proj1 (no_active_booking_is_reported Sample.get_answer Sample.lower
                  Sample.bus_data Sample.env Sample.cancel_with_phone
                  w "01711000000" Hr Henter eq_refl)).
Defined.

Lemma cancelled_booking_is_not_offered_again_witness :
  reachable Sample.get_answer Sample.lower Sample.bus_data Sample.one_booking ∧
  List.filter is_active
    (get_bookings_by_phone "01711000000"
       (db (query_smart Sample.get_answer Sample.env Sample.cancel_with_phone
              Sample.one_booking).2)) = [].
Proof.
  split; [exact reachable_one_booking|].
  destruct (List.filter is_active
              (get_bookings_by_phone "01711000000" (db Sample.one_booking)))
    as [|b [|b' l]] eqn:E; [vm_compute in E; discriminate | |
                            vm_compute in E; discriminate].
  exact (proj1 (cancelled_booking_is_not_offered_again Sample.get_answer Sample.lower
                  Sample.bus_data Sample.env Sample.cancel_with_phone
                  Sample.one_booking "01711000000" b reachable_one_booking
                  (sample_trigger Sample.one_booking eq_refl) E)).
Defined.

(** X14.  In the idle state a query without a cancellation keyword is
    answered by the answer engine on the raw query text: its answer is
    the reply, and an exception it raises is the outcome of the request.
    Neither the session dict nor any booking changes. *)
Theorem other_queries_go_to_answer_engine get_answer env request w :
  let sid := Py.or_str (QueryRequest.session_id request) (uuid4 env) in
  let s := session_of sid w in
  is_idle s →
  has_cancel_keyword (Py.lower (QueryRequest.query request)) = false →
  let r := query_smart get_answer env request w in
  r.1 = match get_answer (QueryRequest.query request) with
        | Returned answer => Returned (answer, sid)
        | Raised e => Raised e
        end ∧
  sessions r.2 !! sid = Some s ∧
  bookings (db r.2) = bookings (db w).
Proof.
  intros sid s [Hid Hph] Hkw r.
  rewrite <- has_cancel_keyword_strip in Hkw.
  subst r. rewrite query_smart_eq. fold sid. fold s.
  unfold query_smart_session. rewrite Hph, Hid, Hkw.
  destruct (get_answer (QueryRequest.query request)) as [answer|e]; simpl.
  - split; [done|]. split; [|done]. apply lookup_insert_eq.
  - split; [done|]. split; [|done]. apply lookup_insert_eq.
Qed.

Lemma other_queries_go_to_answer_engine_witness :
  is_idle (session_of "S1" Sample.two_bookings) ∧
  has_cancel_keyword (Py.lower "When does the Hanif bus leave?") = false ∧
  (Sample.ask "S1" "When does the Hanif bus leave?" Sample.two_bookings).1
  = Returned ("Please ask about a route.", "S1").
Proof.
  assert (is_idle (session_of "S1" Sample.two_bookings)) as Hidle
    by (split; reflexivity).
  split; [exact Hidle|]. split; [reflexivity|].
  exact (proj1 (other_queries_go_to_answer_engine Sample.get_answer Sample.env
                  (Sample.request "S1" "When does the Hanif bus leave?")
                  Sample.two_bookings Hidle eq_refl)).
Defined.

Lemma normalize_phone_eq (p : string) :
  normalize_phone p = strip_country_prefix (Py.strip p).
Proof.
  unfold normalize_phone. destruct (String.eqb p "") eqn:E; [|done].
  by apply String_eqb_true in E as ->.
Qed.

(** X15.  The front end and the handler normalize a phone alike: a session
    awaiting the phone stores [normalize_phone] of the query, and a
    cancellation request from the idle state with a usable phone hint
    stores [normalize_phone] of the hint. *)
Theorem router_stores_normalize_phone get_answer env request sid s db :
  (Session.awaiting_phone_for_cancel s = true →
   Session.phone (query_smart_session get_answer env request sid s db).1.2
   = Some (normalize_phone (QueryRequest.query request))) ∧
  (∀ hint,
     is_idle s →
     has_cancel_keyword (Py.lower (QueryRequest.query request)) = true →
     QueryRequest.phone request = Some hint →
     Py.strip hint ≠ "" →
     Session.phone (query_smart_session get_answer env request sid s db).1.2
     = Some (normalize_phone hint)).
Proof.
  split.
  - intros Hph. rewrite normalize_phone_eq. by apply awaiting_phone_stores.
  - intros hint [Hid Hph] Hkw Hhint Hne.
    rewrite <- has_cancel_keyword_strip in Hkw.
    assert (Py.or_str (QueryRequest.phone request)
              (Py.or_str (Session.phone s) "") = hint) as Heff.
    { rewrite Hhint. simpl. destruct (String.eqb hint "") eqn:E; [|done].
      apply String_eqb_true in E as ->. by destruct Hne. }
    rewrite trigger_runs_resolution by (by rewrite ?Heff).
    unfold replied. cbn [fst snd].
    rewrite cancel_resolution_phone, Heff. simpl.
    by rewrite normalize_phone_eq.
Qed.

Lemma router_stores_normalize_phone_witness :
  let padded := Sample.nbsp +:+ "+8801711000000" +:+ Sample.nbsp in
  normalize_phone padded = "01711000000" ∧
  Session.phone
    (query_smart_session Sample.get_answer Sample.env
       (Sample.request "S1" padded) "S1"
       (SessionUpdate.set_awaiting_phone_for_cancel true Session.fresh)
       init_database).1.2
  = Some (normalize_phone padded) ∧
  Session.phone
    (query_smart_session Sample.get_answer Sample.env
       Sample.cancel_with_phone "S1" Session.fresh init_database).1.2
  = Some (normalize_phone "01711000000").
Proof.
  intros padded. split; [reflexivity|]. split.
  - exact (proj1 (router_stores_normalize_phone Sample.get_answer Sample.env
                    (Sample.request "S1" padded) "S1"
                    (SessionUpdate.set_awaiting_phone_for_cancel true
                       Session.fresh) init_database) eq_refl).
  - apply (proj2 (router_stores_normalize_phone Sample.get_answer Sample.env
                    Sample.cancel_with_phone "S1" Session.fresh init_database)
             "01711000000"); [by split | reflexivity | reflexivity
                             | discriminate].
Defined.

(** * Routes, fares and providers *)

Section RoutesLemmas.
Variable lower : string → string.

Lemma covers_sym p a b : covers lower p a b = covers lower p b a.
Proof. unfold covers. apply andb_comm. Qed.

Lemma covers_lowered p a b a' b' :
  lower a' = lower a → lower b' = lower b →
  covers lower p a' b' = covers lower p a b.
Proof. unfold covers. by intros -> ->. Qed.

Lemma validate_route_from_eq (ps : list Provider) provider a b :
  validate_route_from lower ps provider a b
  = match List.find (λ p, String.eqb (lower (provider_name p))
                            (lower provider)) ps with
    | Some p => covers lower p a b
    | None => false
    end.
Proof.
  induction ps as [|p ps IH]; simpl; [done|].
  by destruct (String.eqb _ _).
Qed.

(** X16.  [validate_route] does not depend on the direction of travel, and
    it depends on the provider and district names only through their
    lowered forms: names that [str.lower] makes equal get the same
    answer. *)
Theorem validate_route_symmetric_case_insensitive bus_data provider a b :
  validate_route lower bus_data provider a b
  = validate_route lower bus_data provider b a ∧
  ∀ provider' a' b',
    lower provider' = lower provider →
    lower a' = lower a → lower b' = lower b →
    validate_route lower bus_data provider' a' b'
    = validate_route lower bus_data provider a b.
Proof.
  unfold validate_route. split.
  - rewrite !validate_route_from_eq.
    destruct (List.find _ _) as [p|]; [apply covers_sym | done].
  - intros provider' a' b' Hp Ha Hb.
    rewrite !validate_route_from_eq, Hp.
    destruct (List.find _ _) as [p|]; [by apply covers_lowered | done].
Qed.

(** X17.  Every provider [validate_route] accepts for a pair of districts is
    listed by [get_available_providers] (up to letter case); when the
    provider names of [bus_data] are distinct up to letter case, every
    listed provider is accepted by [validate_route].  The list does not
    depend on the direction of travel. *)
Theorem available_providers_are_the_valid_ones bus_data a b :
  (∀ provider, validate_route lower bus_data provider a b = true →
     ∃ n, n ∈ get_available_providers lower bus_data a b ∧
          lower n = lower provider) ∧
  (distinct_provider_names lower bus_data →
   ∀ n, n ∈ get_available_providers lower bus_data a b →
        validate_route lower bus_data n a b = true) ∧
  get_available_providers lower bus_data a b
  = get_available_providers lower bus_data b a.
Proof.
  unfold validate_route, get_available_providers, distinct_provider_names.
  split; [|split].
  - intros provider. rewrite validate_route_from_eq.
    destruct (List.find _ _) as [p|] eqn:F; [|done]. intros Hc.
    apply find_some in F as [Hp Hn]. apply String_eqb_true in Hn.
    exists (provider_name p). split; [|done].
    apply list_elem_of_fmap_2, list_elem_of_In, filter_In.
    by split.
  - induction (bus_providers bus_data) as [|p ps IH]; intros Hnd n Hn.
    { simpl in Hn. by apply elem_of_nil in Hn. }
    change (NoDup (lower (provider_name p)
                   :: map (λ p, lower (provider_name p)) ps)) in Hnd.
    apply NoDup_cons in Hnd as [Hp Hnd].
    apply list_elem_of_fmap in Hn as (q & -> & Hq).
    apply list_elem_of_In, filter_In in Hq as [Hq Hc].
    simpl. destruct (String.eqb (lower (provider_name p))
                       (lower (provider_name q))) eqn:E.
    + apply String_eqb_true in E. destruct Hq as [->|Hq]; [done|].
      exfalso. apply Hp. rewrite E.
      apply (list_elem_of_fmap_2 (λ p, lower (provider_name p))).
      by apply list_elem_of_In.
    + destruct Hq as [->|Hq].
      { by rewrite String.eqb_refl in E. }
      apply IH; [done|].
      apply list_elem_of_fmap_2, list_elem_of_In, filter_In. by split.
  - f_equal. apply filter_ext. intros p. apply covers_sym.
Qed.

End RoutesLemmas.

Lemma validate_route_symmetric_case_insensitive_witness :
  Sample.lower "HANIF" = Sample.lower "Hanif" ∧
  Sample.lower "khulna" = Sample.lower "Khulna" ∧
  Sample.lower "DHAKA" = Sample.lower "Dhaka" ∧
  validate_route Sample.lower Sample.bus_data "Hanif" "Khulna" "Dhaka" = true ∧
  validate_route Sample.lower Sample.bus_data "HANIF" "khulna" "DHAKA"
  = validate_route Sample.lower Sample.bus_data "Hanif" "Khulna" "Dhaka".
Proof.
  split; [reflexivity|]. split; [reflexivity|]. split; [reflexivity|].
  split; [reflexivity|].
  exact (proj2 (validate_route_symmetric_case_insensitive Sample.lower
                  Sample.bus_data "Hanif" "Khulna" "Dhaka")
           "HANIF" "khulna" "DHAKA" eq_refl eq_refl eq_refl).
Defined.

Lemma available_providers_are_the_valid_ones_witness :
  distinct_provider_names Sample.lower Sample.bus_data ∧
  validate_route Sample.lower Sample.bus_data "hanif" "khulna" "DHAKA" = true ∧
  (∃ n, n ∈ get_available_providers Sample.lower Sample.bus_data
              "khulna" "DHAKA" ∧
        Sample.lower n = Sample.lower "hanif") ∧
  validate_route Sample.lower Sample.bus_data "Hanif" "khulna" "DHAKA" = true.
Proof.
  assert (distinct_provider_names Sample.lower Sample.bus_data) as Hd
    by apply NoDup_singleton.
  destruct (available_providers_are_the_valid_ones Sample.lower
              Sample.bus_data "khulna" "DHAKA") as (H1 & H2 & _).
  split; [exact Hd|]. split; [reflexivity|].
  split; [exact (H1 "hanif" eq_refl)|].
  apply (H2 Hd). by left.
Defined.

(** * The booking endpoints *)

Lemma no_provider_no_route lower (ps : list Provider) provider a b :
  existsb (λ p, String.eqb (lower (provider_name p)) (lower provider)) ps
  = false →
  validate_route_from lower ps provider a b = false.
Proof.
  induction ps as [|p ps IH]; simpl; [done|].
  destruct (String.eqb _ _); simpl; [discriminate | apply IH].
Qed.

Lemma create_booking_endpoint_cases lower bus_data env booking db :
  let route :=
    validate_route lower bus_data (BookingCreate.bus_provider booking)
      (BookingCreate.from_district booking)
      (BookingCreate.to_district booking) in
  let fare :=
    get_fare lower bus_data (BookingCreate.to_district booking)
      (BookingCreate.dropping_point booking) in
  (route = false ∧
   ∃ detail, create_booking_endpoint lower bus_data env booking db
             = (Raised (HTTPException 400 detail), db)) ∨
  (route = true ∧ fare = 0%Z ∧
   ∃ detail, create_booking_endpoint lower bus_data env booking db
             = (Raised (HTTPException 400 detail), db)) ∨
  (route = true ∧ fare ≠ 0%Z ∧
   ∃ d, create_booking_endpoint lower bus_data env booking db
        = create_booking env d db ∧
        BookingData.booking_id d = generate_booking_id db ∧
        BookingData.phone d = Py.strip (BookingCreate.phone booking) ∧
        BookingData.fare d = fare ∧
        BookingData.total_amount d
        = (fare * BookingCreate.num_passengers booking)%Z ∧
        BookingData.status d = "active").
Proof.
  intros route fare. unfold create_booking_endpoint. fold route. fold fare.
  destruct (existsb _ (bus_providers bus_data)) eqn:Hex; simpl.
  - destruct route eqn:Hroute; simpl.
    + destruct (fare =? 0)%Z eqn:Hfare.
      * right. left. apply Z.eqb_eq in Hfare. by eauto.
      * right. right. apply Z.eqb_neq in Hfare.
        split; [done|]. split; [done|]. by eexists.
    + left. by eauto.
  - left. split; [|by eauto].
    subst route. unfold validate_route. by apply no_provider_no_route.
Qed.

(** X18.  A successful POST /bookings stores one new active row whose fare
    is the non-zero fare of the dropping point, whose total is the fare
    times the passengers, whose identifier is the generated one and whose
    phone is the stripped one; the route is served by the provider; the
    booking is then found by GET /bookings/{id} and among the bookings of
    GET /bookings/phone/{phone}. *)
Theorem create_booking_endpoint_returned lower bus_data env booking db d db' :
  create_booking_endpoint lower bus_data env booking db = (Returned d, db') →
  let row := new_row env (bookings_seq db + 1) d in
  validate_route lower bus_data (BookingCreate.bus_provider booking)
    (BookingCreate.from_district booking)
    (BookingCreate.to_district booking) = true ∧
  BookingData.fare d
  = get_fare lower bus_data (BookingCreate.to_district booking)
      (BookingCreate.dropping_point booking) ∧
  BookingData.fare d ≠ 0%Z ∧
  BookingData.total_amount d
  = (BookingData.fare d * BookingCreate.num_passengers booking)%Z ∧
  BookingData.booking_id d = generate_booking_id db ∧
  BookingData.phone d = Py.strip (BookingCreate.phone booking) ∧
  status row = "active" ∧
  bookings db' = bookings db ++ [row] ∧
  booking_details (BookingData.booking_id d) db' = Returned row ∧
  ∃ l, bookings_by_phone (BookingCreate.phone booking) db' = Returned l ∧
       row ∈ l.
Proof.
  intros Hret row.
  destruct (create_booking_endpoint_cases lower bus_data env booking db)
    as [(_ & detail & E) | [(_ & _ & detail & E) |
        (Hroute & Hfare & d0 & E & Hid & Hphone & Hf & Htotal & Hst)]];
    rewrite E in Hret; [discriminate | discriminate |].
  unfold create_booking in Hret.
  destruct (existsb _ (bookings db)) eqn:Hex; [discriminate|].
  injection Hret as <- <-.
  assert (List.find (has_booking_id (BookingData.booking_id d0)) (bookings db)
          = None) as Hnone.
  { destruct (List.find _ _) eqn:F; [|done].
    assert (existsb (has_booking_id (BookingData.booking_id d0)) (bookings db)
            = true) by (apply existsb_find; by eexists).
    congruence. }
  split; [done|]. split; [done|]. split; [by rewrite Hf|].
  split; [by rewrite Htotal, Hf|]. split; [done|]. split; [done|].
  split; [done|]. split; [done|]. split.
  - unfold booking_details, get_booking_by_id. simpl.
    rewrite find_app_None by done. simpl.
    unfold has_booking_id at 1. simpl. by rewrite String.eqb_refl.
  - assert (row ∈ get_bookings_by_phone
                    (Py.strip (BookingCreate.phone booking))
                    (with_bookings (bookings db ++ [row])
                       (bookings_seq db + 1) db)) as Hrow.
    { unfold get_bookings_by_phone. rewrite order_by_desc_Permutation.
      apply list_elem_of_In, filter_In. split.
      - apply in_or_app. right. by left.
      - apply String_eqb_true. by rewrite <- Hphone. }
    unfold bookings_by_phone.
    destruct (get_bookings_by_phone _ _) as [|x l] eqn:F.
    + by apply elem_of_nil in Hrow.
    + by exists (x :: l).
Qed.

Lemma create_booking_endpoint_returned_witness :
  ∃ d db',
    create_booking_endpoint Sample.lower Sample.bus_data Sample.env
      (Sample.trip "2025-02-03") (db Sample.two_bookings) = (Returned d, db') ∧
    BookingData.booking_id d = "BK00003" ∧
    BookingData.total_amount d = 1000%Z ∧
    booking_details (BookingData.booking_id d) db'
    = Returned (new_row Sample.env (bookings_seq (db Sample.two_bookings) + 1) d).
Proof.
  eexists _, _. split; [reflexivity|].
  split; [reflexivity|]. split; [reflexivity|].
  refine (proj1 (proj2 (proj2 (proj2 (proj2 (proj2 (proj2 (proj2 (proj2
    (create_booking_endpoint_returned Sample.lower Sample.bus_data Sample.env
       (Sample.trip "2025-02-03") (db Sample.two_bookings) _ _ eq_refl)))))))))).
Defined.

(** X19.  POST /bookings fails with status 400 exactly when the provider
    does not serve the route (which includes an unknown provider) or the
    dropping point has no fare in the destination district; whenever it
    fails, with 400 or on the UNIQUE constraint, nothing is stored. *)
Theorem create_booking_endpoint_raised lower bus_data env booking db :
  let r := create_booking_endpoint lower bus_data env booking db in
  ((∃ detail, r.1 = Raised (HTTPException 400 detail)) ↔
   validate_route lower bus_data (BookingCreate.bus_provider booking)
     (BookingCreate.from_district booking)
     (BookingCreate.to_district booking) = false ∨
   get_fare lower bus_data (BookingCreate.to_district booking)
     (BookingCreate.dropping_point booking) = 0%Z) ∧
  (∀ e, r.1 = Raised e → r.2 = db) ∧
  (r.1 = Raised IntegrityError →
   is_Some (get_booking_by_id (generate_booking_id db) db)).
Proof.
  intros r. subst r.
  destruct (create_booking_endpoint_cases lower bus_data env booking db)
    as [(Hroute & detail & E) | [(Hroute & Hfare & detail & E) |
        (Hroute & Hfare & d & E & Hid & _)]]; rewrite E; simpl.
  - split; [split; [by left | by eauto]|]. split; [done|]. discriminate.
  - split; [split; [by right | by eauto]|]. split; [done|]. discriminate.
  - unfold create_booking. rewrite Hid.
    destruct (existsb _ (bookings db)) eqn:Hex; simpl.
    + split; [split|split].
      * intros [detail [=]].
      * intros [H|H]; congruence.
      * done.
      * intros _. by apply existsb_find.
    + split; [split|split].
      * intros [detail [=]].
      * intros [H|H]; congruence.
      * intros e [=].
      * discriminate.
Qed.

Lemma create_booking_endpoint_raised_witness :
  (create_booking_endpoint Sample.lower Sample.bus_data Sample.env
     (Sample.trip "2025-02-03") (db Sample.after_delete)).1
  = Raised IntegrityError ∧
  (create_booking_endpoint Sample.lower Sample.bus_data Sample.env
     (Sample.trip "2025-02-03") (db Sample.after_delete)).2
  = db Sample.after_delete.
Proof.
  assert ((create_booking_endpoint Sample.lower Sample.bus_data Sample.env
             (Sample.trip "2025-02-03") (db Sample.after_delete)).1
          = Raised IntegrityError) as H by reflexivity.
  split; [exact H|].
  exact (proj1 (proj2 (create_booking_endpoint_raised Sample.lower Sample.bus_data
                         Sample.env (Sample.trip "2025-02-03")
                         (db Sample.after_delete))) _ H).
Defined.

(** X20.  DELETE /bookings/{id} without [permanent] on a booking that is
    stored but no longer active answers 404 "Booking not found" and changes
    nothing, although GET /bookings/{id} still returns the booking. *)
Theorem cancel_endpoint_404_on_cancelled env bid db b :
  unique_ids db →
  b ∈ bookings db →
  booking_id b = bid →
  status b ≠ "active" →
  delete_booking_endpoint env bid false db
  = (Raised (HTTPException 404 "Booking not found"), db) ∧
  booking_details bid db = Returned b.
Proof.
  intros Hnd Hb Hid Hst.
  destruct (list_elem_of_split _ _ Hb) as (l1 & l2 & E).
  assert (get_booking_by_id bid db = Some b) as Hfind.
  { unfold get_booking_by_id. rewrite E. apply find_unique_row; [|done].
    unfold unique_ids in Hnd. by rewrite E in Hnd. }
  assert (List.filter (cancel_matches bid) (bookings db) = []) as Hnone.
  { destruct (List.filter (cancel_matches bid) (bookings db)) as [|x l] eqn:F;
      [done|]. exfalso.
    assert (List.filter (cancel_matches bid) (bookings db) ≠ []) as Hne
      by (by rewrite F).
    apply filter_cancel_matches_elem in Hne as (x' & Hx & Hxid & Hact).
    assert (get_booking_by_id bid db = Some x') as Hfind'.
    { destruct (list_elem_of_split _ _ Hx) as (k1 & k2 & E').
      unfold get_booking_by_id. rewrite E'. apply find_unique_row; [|done].
      unfold unique_ids in Hnd. by rewrite E' in Hnd. }
    congruence. }
  split.
  - unfold delete_booking_endpoint, cancel_booking. rewrite Hnone. simpl.
    rewrite map_cancel_row_none by done. by rewrite with_bookings_same.
  - unfold booking_details. by rewrite Hfind.
Qed.

Lemma cancel_endpoint_404_on_cancelled_witness :
  ∃ b, b ∈ bookings (db (Sample.delete_booking "BK00001" false
                            Sample.two_bookings)) ∧
       booking_id b = "BK00001" ∧ status b ≠ "active" ∧
       booking_details "BK00001"
         (db (Sample.delete_booking "BK00001" false Sample.two_bookings))
       = Returned b.
Proof.
  set (w := Sample.delete_booking "BK00001" false Sample.two_bookings).
  assert (unique_ids (db w)) as Hnd.
  { apply (reachable_world_ok Sample.get_answer Sample.lower Sample.bus_data w).
    apply reachable_delete_booking, reachable_two_bookings. }
  destruct (bookings (db w)) as [|b l] eqn:E;
    [vm_compute in E; discriminate|].
  assert (b ∈ bookings (db w)) as Hb by (rewrite E; by left).
  assert (booking_id b = "BK00001" ∧ status b ≠ "active") as [Hid Hst].
  { vm_compute in E. injection E as <- _. by split. }
  exists b. split; [by rewrite <- E|]. split; [exact Hid|].
  split; [exact Hst|].
  exact (proj2 (cancel_endpoint_404_on_cancelled Sample.env "BK00001" (db w) b
                  Hnd Hb Hid Hst)).
Defined.

(** * Fares *)

Lemma get_fare_in_Some lower dps point p :
  get_fare_in lower dps point = Some p →
  ∃ dp, dp ∈ dps ∧ lower (dp_name dp) = lower point ∧ price dp = p.
Proof.
  induction dps as [|dp dps IH]; simpl; [done|].
  destruct (String.eqb _ _) eqn:E.
  - intros [= <-]. exists dp. apply String_eqb_true in E. by repeat split; [left|..].
  - intros H. destruct (IH H) as (dp' & Hin & Hn & Hp).
    exists dp'. by repeat split; [right|..].
Qed.

Lemma get_fare_in_map_id lower dps point :
  get_fare_in lower (map (λ dp, {| dp_name := dp_name dp; price := price dp |}) dps)
    point
  = get_fare_in lower dps point.
Proof.
  induction dps as [|dp dps IH]; simpl; [done|]. by rewrite IH.
Qed.

(** X21.  A non-zero [get_fare] is the price of a dropping point of that
    name in a district of that name (names compared without letter case);
    with no district of that name the fare is 0 and
    [get_dropping_points_by_district] is empty; and the first dropping
    point of a name in the list [get_dropping_points_by_district] returns
    has the fare [get_fare] gives. *)
Theorem get_fare_is_a_listed_price lower bus_data district point :
  (get_fare lower bus_data district point ≠ 0%Z →
   ∃ d dp, d ∈ districts bus_data ∧ dp ∈ dropping_points d ∧
           lower (district_name d) = lower district ∧
           lower (dp_name dp) = lower point ∧
           price dp = get_fare lower bus_data district point) ∧
  ((∀ d, d ∈ districts bus_data →
         lower (district_name d) ≠ lower district) →
   get_fare lower bus_data district point = 0%Z ∧
   get_dropping_points_by_district lower bus_data district = []) ∧
  (∀ p, get_fare_in lower
          (get_dropping_points_by_district lower bus_data district) point
        = Some p →
        get_fare lower bus_data district point = p).
Proof.
  unfold get_fare, get_dropping_points_by_district.
  induction (districts bus_data) as [|d ds (IH1 & IH2 & IH3)]; simpl.
  { split; [done|]. split; [done|]. discriminate. }
  destruct (String.eqb (lower (district_name d)) (lower district)) eqn:E.
  - apply String_eqb_true in E. split; [|split].
    + destruct (get_fare_in lower (dropping_points d) point) as [p|] eqn:F.
      * intros _. apply get_fare_in_Some in F as (dp & Hdp & Hn & Hp).
        exists d, dp. by repeat split; [left|..].
      * intros H. destruct (IH1 H) as (d' & dp & Hd & Hrest).
        exists d', dp. split; [by right | done].
    + intros H. destruct (H d); [by left | done].
    + intros p. rewrite get_fare_in_map_id. by intros ->.
  - split; [|split].
    + intros H. destruct (IH1 H) as (d' & dp & Hd & Hrest).
      exists d', dp. split; [by right | done].
    + intros H. apply IH2. intros d' Hd'. apply H. by right.
    + exact IH3.
Qed.

Lemma get_fare_is_a_listed_price_witness :
  get_fare Sample.lower Sample.bus_data "DHAKA" "gabtoli" ≠ 0%Z ∧
  (∃ d dp, d ∈ districts Sample.bus_data ∧ dp ∈ dropping_points d ∧
           Sample.lower (district_name d) = Sample.lower "DHAKA" ∧
           Sample.lower (dp_name dp) = Sample.lower "gabtoli" ∧
           price dp = get_fare Sample.lower Sample.bus_data "DHAKA" "gabtoli") ∧
  get_fare Sample.lower Sample.bus_data "DHAKA" "gabtoli" = 500%Z.
Proof.
  assert (get_fare Sample.lower Sample.bus_data "DHAKA" "gabtoli" ≠ 0%Z) as H by done.
  destruct (get_fare_is_a_listed_price Sample.lower Sample.bus_data "DHAKA" "gabtoli")
    as (H1 & _ & H3).
  split; [exact H|]. split; [exact (H1 H)|]. by apply H3.
Defined.

(** * Provider detection *)

(** X22.  [detect_provider_from_query] returns one of the six provider
    names, one that occurs in the lowered query and for which
    [get_provider_policy] has a policy file; it returns [None] exactly when
    none of the six names occurs; and it depends on the query only through
    its lowered form: queries that [str.lower] makes equal get the same
    answer. *)
Theorem detect_provider_from_query_sound lower query :
  (∀ p, detect_provider_from_query lower query = Some p →
        p ∈ rag_providers ∧ Py.contains p (lower query) = true ∧
        is_Some (provider_map !! p)) ∧
  (detect_provider_from_query lower query = None ↔
   ∀ p, p ∈ rag_providers → Py.contains p (lower query) = false) ∧
  (∀ query', lower query' = lower query →
     detect_provider_from_query lower query'
     = detect_provider_from_query lower query).
Proof.
  unfold detect_provider_from_query. split; [|split].
  - intros p Hp. apply find_some in Hp as [Hin Hc].
    apply list_elem_of_In in Hin. split; [done|]. split; [done|].
    unfold rag_providers in Hin.
    repeat (apply elem_of_cons in Hin as [->|Hin]; [by eexists|]).
    by apply elem_of_nil in Hin.
  - split.
    + intros Hnone p Hp. apply list_elem_of_In in Hp.
      by apply (find_none _ _ Hnone).
    + intros H. destruct (List.find _ _) as [p|] eqn:F; [|done].
      apply find_some in F as [Hin Hc]. apply list_elem_of_In in Hin.
      rewrite (H p Hin) in Hc. done.
  - by intros query' ->.
Qed.

Lemma detect_provider_from_query_sound_witness :
  detect_provider_from_query Sample.lower "Is the ENA counter open?"
  = Some "ena" ∧
  "ena" ∈ rag_providers ∧ is_Some (provider_map !! "ena") ∧
  detect_provider_from_query Sample.lower "is the ena COUNTER open?"
  = Some "ena".
Proof.
  assert (detect_provider_from_query Sample.lower "Is the ENA counter open?" = Some "ena")
    as H by reflexivity.
  split; [exact H|].
  destruct (detect_provider_from_query_sound Sample.lower
              "Is the ENA counter open?") as (Hsome & _ & Hsame).
  destruct (Hsome "ena" H) as (H1 & _ & H3).
  split; [exact H1|]. split; [exact H3|].
  rewrite <- H. by apply Hsame.
Defined.

(** * Booking identifiers without permanent deletion *)

Lemma uint_of_string_zeros k (s : string) :
  NilEmpty.uint_of_string (Py.zeros k +:+ s)
  = option_map (Nat.iter k Decimal.D0) (NilEmpty.uint_of_string s).
Proof.
  induction k as [|k IH].
  - change (Py.zeros 0 +:+ s) with s.
    by destruct (NilEmpty.uint_of_string s).
  - change (Py.zeros (S k) +:+ s) with (String "0" (Py.zeros k +:+ s)).
    change (NilEmpty.uint_of_string (String "0" (Py.zeros k +:+ s)))
      with (uint_of_char "0" (NilEmpty.uint_of_string (Py.zeros k +:+ s))).
    rewrite IH. by destruct (NilEmpty.uint_of_string s).
Qed.

Lemma of_uint_zeros k d : Nat.of_uint (Nat.iter k Decimal.D0 d) = Nat.of_uint d.
Proof. induction k as [|k IH]; [done|]. simpl. exact IH. Qed.

Lemma decimal_value_digits d :
  option_map Nat.of_uint (NilEmpty.uint_of_string (NilZero.string_of_uint d))
  = Some (Nat.of_uint d).
Proof.
  destruct d; try done;
    unfold NilZero.string_of_uint; by rewrite NilEmpty.usu.
Qed.

(** The number is read back from the padded digits. *)
Lemma decimal_value_format_05d n : decimal_value (Py.format_05d n) = Some n.
Proof.
  unfold decimal_value, Py.format_05d. rewrite uint_of_string_zeros.
  pose proof (decimal_value_digits (Nat.to_uint n)) as H.
  destruct (NilEmpty.uint_of_string (NilZero.string_of_uint (Nat.to_uint n)))
    as [d|]; [|done].
  simpl in *. injection H as H.
  by rewrite of_uint_zeros, H, DecimalNat.Unsigned.of_to.
Qed.

Lemma format_05d_inj n m : Py.format_05d n = Py.format_05d m → n = m.
Proof.
  intros H. pose proof (decimal_value_format_05d n) as Hn.
  rewrite H, decimal_value_format_05d in Hn. congruence.
Qed.

Lemma string_length_append (s t : string) :
  String.length (s +:+ t) = String.length s + String.length t.
Proof.
  induction s as [|c s IH]; [done|]. rewrite append_cons. simpl. by rewrite IH.
Qed.

Lemma string_length_zeros k : String.length (Py.zeros k) = k.
Proof. induction k as [|k IH]; simpl; [done | by rewrite IH]. Qed.

(** X23.  The identifier [generate_booking_id] builds is BK followed by at
    least five decimal digits that denote the row count plus one, so stores
    of different sizes get different identifiers. *)
Theorem generate_booking_id_encodes_count db1 db2 :
  (∃ digits, generate_booking_id db1 = "BK" +:+ digits ∧
             decimal_value digits = Some (length (bookings db1) + 1) ∧
             5 ≤ String.length digits) ∧
  (generate_booking_id db1 = generate_booking_id db2 →
   length (bookings db1) = length (bookings db2)).
Proof.
  split.
  - exists (Py.format_05d (length (bookings db1) + 1)).
    split; [done|]. split; [apply decimal_value_format_05d|].
    unfold Py.format_05d. rewrite string_length_append, string_length_zeros.
    lia.
  - unfold generate_booking_id. intros H.
    apply (inj (String.app "BK")) in H. apply format_05d_inj in H. lia.
Qed.

Lemma generate_booking_id_encodes_count_witness :
  generate_booking_id (db Sample.one_booking)
  ≠ generate_booking_id (db Sample.two_bookings).
Proof.
  intros H.
  apply (proj2 (generate_booking_id_encodes_count (db Sample.one_booking)
                  (db Sample.two_bookings))) in H.
  vm_compute in H. discriminate.
Defined.

Lemma issued_ids_S n :
  issued_ids (S n) = issued_ids n ++ ["BK" +:+ Py.format_05d (n + 1)].
Proof.
  rewrite (Nat.add_comm n 1). unfold issued_ids.
  by rewrite seq_S, map_app.
Qed.

Lemma not_issued_yet n : "BK" +:+ Py.format_05d (n + 1) ∉ issued_ids n.
Proof.
  unfold issued_ids. intros (i & Hi & Hin)%list_elem_of_fmap.
  apply (inj (String.app "BK")) in Hi. apply format_05d_inj in Hi.
  apply list_elem_of_In, in_seq in Hin. lia.
Qed.

Lemma ids_in_sequence_same_ids db db' :
  map booking_id (bookings db') = map booking_id (bookings db) →
  ids_in_sequence db → ids_in_sequence db'.
Proof.
  unfold ids_in_sequence. intros E H.
  assert (length (bookings db') = length (bookings db)) as El.
  { by rewrite <- (length_map booking_id (bookings db')), E, length_map. }
  by rewrite E, El.
Qed.

Lemma ids_in_sequence_fresh db :
  ids_in_sequence db →
  existsb (has_booking_id (generate_booking_id db)) (bookings db) = false.
Proof.
  intros H. apply not_true_is_false. intros Hex.
  apply existsb_exists in Hex as (b & Hb & Hid).
  apply has_booking_id_true in Hid.
  apply (not_issued_yet (length (bookings db))).
  unfold ids_in_sequence in H. rewrite <- H.
  change ("BK" +:+ Py.format_05d (length (bookings db) + 1))
    with (generate_booking_id db).
  rewrite <- Hid. apply list_elem_of_fmap_2. by apply list_elem_of_In.
Qed.

Lemma ids_in_sequence_create lower bus_data env booking db :
  ids_in_sequence db →
  ids_in_sequence (create_booking_endpoint lower bus_data env booking db).2.
Proof.
  intros H.
  destruct (create_booking_endpoint_cases lower bus_data env booking db)
    as [(_ & detail & E) | [(_ & _ & detail & E) |
        (_ & _ & d & E & Hid & _)]]; rewrite E; [done | done |].
  unfold create_booking. rewrite Hid, ids_in_sequence_fresh by done.
  unfold ids_in_sequence in *. simpl.
  rewrite map_app, length_app. simpl.
  rewrite Nat.add_1_r, issued_ids_S, Hid. f_equal. exact H.
Qed.

Lemma delete_booking_endpoint_cancel_db env bid db :
  (delete_booking_endpoint env bid false db).2 = (cancel_booking env bid db).2.
Proof.
  unfold delete_booking_endpoint.
  by destruct (cancel_booking env bid db) as [[] db'].
Qed.

Section KeepingRuns.
Variable get_answer : string → outcome string.
Variable lower : string → string.
Variable bus_data : BusData.

Lemma query_smart_booking_ids env request w :
  map booking_id (bookings (db (query_smart get_answer env request w).2))
  = map booking_id (bookings (db w)).
Proof.
  rewrite query_smart_eq. simpl.
  set (sid := Py.or_str (QueryRequest.session_id request) (uuid4 env)).
  destruct (query_smart_session_cases get_answer env request sid
              (session_of sid w) (db w))
    as [(phone & s0 & E) | [(m & s' & bid & E) | [(m & s' & ph & E)
       | (e & _ & E)]]];
    rewrite E; unfold replied; cbn [fst snd].
  - destruct (cancel_resolution_bookings env sid phone s0
                (save_chat_message env sid "user" (QueryRequest.query request)
                   (QueryRequest.phone request) (db w)))
      as [-> | [bid ->]]; [done|]. simpl.
    rewrite map_map. apply map_ext. intros b. apply cancel_row_booking_id.
  - simpl. rewrite map_map. apply map_ext. intros b.
    apply cancel_row_booking_id.
  - done.
  - done.
Qed.

Lemma reachable_keeping_in_sequence w :
  reachable_keeping get_answer lower bus_data w → ids_in_sequence (db w).
Proof.
  intros H.
  apply (rtc_ind_r (R := step_keeping get_answer lower bus_data)
           (λ w, ids_in_sequence (db w)) initial_world);
    [reflexivity | | exact H].
  intros y z _ Hstep Hy.
  destruct Hstep as [env request w'|env booking w'|env bid w'].
  - eapply ids_in_sequence_same_ids; [|exact Hy].
    apply query_smart_booking_ids.
  - by apply ids_in_sequence_create.
  - eapply ids_in_sequence_same_ids; [|exact Hy].
    cbn [db]. rewrite delete_booking_endpoint_cancel_db.
    apply booking_ids_cancel_booking.
Qed.

(** X24.  As long as no booking is deleted permanently, the stored
    identifiers are BK00001, BK00002, ... in order of creation, the
    identifier [generate_booking_id] returns is not in the store, and POST
    /bookings never fails on the UNIQUE constraint. *)
Theorem ids_are_fresh_without_permanent_delete w :
  reachable_keeping get_answer lower bus_data w →
  map booking_id (bookings (db w)) = issued_ids (length (bookings (db w))) ∧
  (generate_booking_id (db w) ∉ map booking_id (bookings (db w))) ∧
  (∀ lower' bus_data' env booking,
     (create_booking_endpoint lower' bus_data' env booking (db w)).1
     ≠ Raised IntegrityError).
Proof.
  intros H. apply reachable_keeping_in_sequence in H.
  split; [exact H|]. split.
  - unfold ids_in_sequence in H. rewrite H. apply not_issued_yet.
  - intros lower' bus_data' env booking.
    destruct (create_booking_endpoint_cases lower' bus_data' env booking
                (db w))
      as [(_ & detail & E) | [(_ & _ & detail & E) |
          (_ & _ & d & E & Hid & _)]]; rewrite E; [done | done |].
    unfold create_booking. by rewrite Hid, ids_in_sequence_fresh.
Qed.

End KeepingRuns.

Lemma reachable_keeping_two_bookings :
  reachable_keeping Sample.get_answer Sample.lower Sample.bus_data Sample.two_bookings.
Proof.
  eapply rtc_r; [eapply rtc_r; [apply rtc_refl|]|];
    apply (keeping_create _ _ _ Sample.env).
Qed.

Lemma ids_are_fresh_without_permanent_delete_witness :
  reachable_keeping Sample.get_answer Sample.lower Sample.bus_data Sample.two_bookings ∧
  generate_booking_id (db Sample.two_bookings)
    ∉ map booking_id (bookings (db Sample.two_bookings)).
Proof.
  split; [exact reachable_keeping_two_bookings|].
  exact (proj1 (proj2 (ids_are_fresh_without_permanent_delete
                         Sample.get_answer Sample.lower Sample.bus_data Sample.two_bookings
                         reachable_keeping_two_bookings))).
Defined.

(** X25.  Under the UNIQUE constraint [get_booking_by_id] finds exactly the
    stored booking that has the identifier. *)
Theorem get_booking_by_id_finds_the_row db bid b :
  unique_ids db →
  (get_booking_by_id bid db = Some b ↔ b ∈ bookings db ∧ booking_id b = bid).
Proof.
  intros Hnd. unfold get_booking_by_id. split.
  - intros H. apply find_some in H as [Hb Hid].
    split; [by apply list_elem_of_In | by apply has_booking_id_true].
  - intros [Hb Hid]. destruct (list_elem_of_split _ _ Hb) as (l1 & l2 & E).
    rewrite E. apply find_unique_row; [|done].
    unfold unique_ids in Hnd. by rewrite E in Hnd.
Qed.

Lemma get_booking_by_id_finds_the_row_witness :
  unique_ids (db Sample.two_bookings) ∧
  ∃ b, get_booking_by_id "BK00002" (db Sample.two_bookings) = Some b ∧
       b ∈ bookings (db Sample.two_bookings) ∧ booking_id b = "BK00002".
Proof.
  split; [exact unique_ids_two_bookings|].
  destruct (get_booking_by_id "BK00002" (db Sample.two_bookings)) as [b|] eqn:E;
    [|vm_compute in E; discriminate].
  exists b. split; [reflexivity|].
  exact (proj1 (get_booking_by_id_finds_the_row (db Sample.two_bookings)
                  "BK00002" b unique_ids_two_bookings) E).
Defined.

(** * Identifiers after a permanent deletion *)

#[global] Instance issued_id_inj : Inj (=) (=) (λ i, "BK" +:+ Py.format_05d i).
Proof.
  intros i j H. apply (inj (String.app "BK")) in H. by apply format_05d_inj.
Qed.

Lemma issued_ids_NoDup n : NoDup (issued_ids n).
Proof.
  unfold issued_ids.
  apply (NoDup_fmap_2 (λ i, "BK" +:+ Py.format_05d i)), NoDup_ListNoDup, seq_NoDup.
Qed.

Lemma filter_out_unique_row bid b (l1 l2 : list Booking) :
  NoDup (map booking_id (l1 ++ b :: l2)) → booking_id b = bid →
  List.filter (λ x, negb (has_booking_id bid x)) (l1 ++ b :: l2) = l1 ++ l2.
Proof.
  intros Hnd Hid. rewrite map_app in Hnd. simpl in Hnd.
  apply NoDup_app in Hnd as (_ & Hl1 & Hnd).
  apply NoDup_cons in Hnd as (Hl2 & _).
  rewrite filter_app_list. simpl.
  rewrite (proj2 (has_booking_id_true bid b) Hid). simpl.
  f_equal; apply filter_all; intros x Hx; apply negb_true_iff,
    has_booking_id_false; intros Hxid.
  - apply (Hl1 (booking_id x)); [by apply list_elem_of_fmap_2|].
    assert (booking_id x = booking_id b) as -> by congruence. by left.
  - apply Hl2. assert (booking_id b = booking_id x) as -> by congruence.
    by apply list_elem_of_fmap_2.
Qed.

Section AfterDelete.
Variable get_answer : string → outcome string.
Variable lower : string → string.
Variable bus_data : BusData.

(** X26.  In a run that had no permanent deletion so far, deleting
    permanently any booking but the newest makes [generate_booking_id]
    return the identifier of the newest booking, which is still stored: the
    next POST /bookings that passes the route and fare checks fails on the
    UNIQUE constraint and stores nothing. *)
Theorem delete_makes_next_id_collide env w b :
  reachable_keeping get_answer lower bus_data w →
  b ∈ bookings (db w) →
  booking_id b ≠ "BK" +:+ Py.format_05d (length (bookings (db w))) →
  let db' := (delete_booking_permanently env (booking_id b) (db w)).2 in
  generate_booking_id db'
  = "BK" +:+ Py.format_05d (length (bookings (db w))) ∧
  generate_booking_id db' ∈ map booking_id (bookings db') ∧
  (∀ lower' bus_data' env' booking,
     validate_route lower' bus_data' (BookingCreate.bus_provider booking)
       (BookingCreate.from_district booking)
       (BookingCreate.to_district booking) = true →
     get_fare lower' bus_data' (BookingCreate.to_district booking)
       (BookingCreate.dropping_point booking) ≠ 0%Z →
     create_booking_endpoint lower' bus_data' env' booking db'
     = (Raised IntegrityError, db')).
Proof.
  intros Hr Hb Hnewest db'.
  apply reachable_keeping_in_sequence in Hr. unfold ids_in_sequence in Hr.
  destruct (list_elem_of_split _ _ Hb) as (l1 & l2 & E).
  assert (NoDup (map booking_id (l1 ++ b :: l2))) as Hnd.
  { rewrite <- E, Hr. apply issued_ids_NoDup. }
  assert (bookings db' = l1 ++ l2) as E'.
  { subst db'. unfold delete_booking_permanently.
    rewrite E, (find_unique_row (booking_id b) b l1 l2 Hnd eq_refl). simpl.
    by apply filter_out_unique_row. }
  assert (length (bookings (db w)) = S (length (l1 ++ l2))) as Hlen.
  { rewrite E, !length_app. simpl. lia. }
  assert (generate_booking_id db'
          = "BK" +:+ Py.format_05d (length (bookings (db w)))) as Hgen.
  { unfold generate_booking_id. rewrite E', Hlen. by rewrite Nat.add_1_r. }
  assert (generate_booking_id db' ∈ map booking_id (bookings db')) as Hin.
  { rewrite Hgen.
    assert ("BK" +:+ Py.format_05d (length (bookings (db w)))
              ∈ map booking_id (bookings (db w))) as Hlast.
    { rewrite Hr, Hlen, issued_ids_S, Nat.add_1_r.
      apply elem_of_app. right. by left. }
    apply list_elem_of_fmap in Hlast as (c & Hcid & Hc).
    rewrite Hcid, E'. apply list_elem_of_fmap_2.
    rewrite E in Hc. apply elem_of_app in Hc as [Hc|Hc];
      apply elem_of_app; [by left|].
    apply elem_of_cons in Hc as [->|Hc]; [|by right].
    by destruct Hnewest. }
  split; [exact Hgen|]. split; [exact Hin|].
  intros lower' bus_data' env' booking Hroute Hfare.
  destruct (create_booking_endpoint_cases lower' bus_data' env' booking db')
    as [(Hr' & _) | [(_ & Hf' & _) | (_ & _ & d & Ecreate & Hid & _)]];
    [congruence | done |].
  rewrite Ecreate. unfold create_booking. rewrite Hid.
  assert (existsb (has_booking_id (generate_booking_id db')) (bookings db')
          = true) as ->; [|done].
  apply list_elem_of_fmap in Hin as (c & Hcid & Hc).
  apply existsb_exists. exists c. split; [by apply list_elem_of_In|].
  by apply has_booking_id_true.
Qed.

End AfterDelete.

Lemma delete_makes_next_id_collide_witness :
  ∃ b, b ∈ bookings (db Sample.two_bookings) ∧
       booking_id b = "BK00001" ∧
       generate_booking_id
         (delete_booking_permanently Sample.env (booking_id b)
            (db Sample.two_bookings)).2 = "BK00002".
Proof.
  destruct (bookings (db Sample.two_bookings)) as [|b l] eqn:E;
    [vm_compute in E; discriminate|].
  assert (b ∈ bookings (db Sample.two_bookings)) as Hb by (rewrite E; by left).
  assert (booking_id b = "BK00001") as Hid.
  { vm_compute in E. by injection E as <- _. }
  exists b. split; [by rewrite <- E|]. split; [exact Hid|].
  refine (proj1 (delete_makes_next_id_collide Sample.get_answer Sample.lower
                   Sample.bus_data Sample.env Sample.two_bookings b
                   reachable_keeping_two_bookings Hb _)).
  rewrite Hid. discriminate.
Defined.
